(** * Claims ingestion and review: a shallow embedding

    The development follows [apps/claims/models.py], the management command
    [apps/claims/management/commands/load_claims_data.py],
    [apps/claims/views.py] and the pagination of [apps/core/mixins.py].

    - Python [str] is a [string]; a character stands for the code point of
      the same number (code points above 255 are outside the model).
    - A Python exception is a constructor of [exn]; effectful code lives in
      the monad [M]: the database is threaded as state and survives an
      exception, exactly as an autocommit connection does; [atomic] restores
      the state it started from when its body raises.
    - The database tables are finite maps keyed by their unique column.
    - Timestamps ([created_at], [updated_at], [upload_timestamp]), console
      output and logging are not modelled.

    The file has four parts: the program, the notions the statements use,
    the properties (those of the specification, then further ones of the
    code), and runs on small files. *)

From Stdlib Require Import ZArith QArith String Ascii List Lia Bool.
From stdpp Require Import base option list gmap strings pretty sorting.

Local Open Scope string_scope.
Local Open Scope Z_scope.

(** ** Python exceptions *)

Inductive exn : Set :=
  | KeyError
  | ValueError
  | UnicodeDecodeError
  | TypeError
  | InvalidOperation
  | FileNotFoundError
  | ValidationError
  | DoesNotExist
  | MultipleObjectsReturned
  | IntegrityError
  | Http404
  | CommandError.

#[global] Instance exn_eq_dec : EqDecision exn.
Proof. solve_decision. Defined.

(** [issubclass e cls]: the only proper subclass relation among the classes
    above is [UnicodeDecodeError <: ValueError]. *)
Definition issubclass (e cls : exn) : bool :=
  match e, cls with
  | UnicodeDecodeError, ValueError => true
  | _, _ => bool_decide (e = cls)
  end.

(** [except (c1, c2, ...)] *)
Definition caught_by (classes : list exn) (e : exn) : bool :=
  existsb (issubclass e) classes.

Inductive outcome (A : Type) : Type :=
  | Return (a : A)
  | Raise (e : exn).
Arguments Return {A} a.
Arguments Raise {A} e.

Definition obind {A B} (x : outcome A) (f : A -> outcome B) : outcome B :=
  match x with
  | Return a => f a
  | Raise e => Raise e
  end.

(** ** Python values met by the loaders *)

(** A finite [decimal.Decimal]: [coef * 10 ^ dexp]. *)
Record Dec : Set := mkDec { coef : Z; dexp : Z }.

Record date : Set := mkdate { year : Z; month : Z; day : Z }.

#[global] Instance Dec_eq_dec : EqDecision Dec.
Proof. solve_decision. Defined.
#[global] Instance date_eq_dec : EqDecision date.
Proof. solve_decision. Defined.

(** What an amount attribute of a [Claim] instance may hold before
    validation: [None], the raw [str] of the web upload, or a [Decimal]. *)
Inductive pyval : Set :=
  | PNone
  | PStr (s : string)
  | PDec (d : Dec).

(** A row produced by [csv.DictReader]: column name to cell; a cell is
    [None] when the line is shorter than the header ([restval]). *)
Abbreviation CsvRow := (gmap string (option string)).

(** [row[key]] *)
Definition getitem (row : CsvRow) (key : string) : outcome (option string) :=
  match row !! key with
  | Some v => Return v
  | None => Raise KeyError
  end.

(** [row.get(key, default)] *)
Definition dict_get (row : CsvRow) (key : string) (default : string)
  : option string :=
  match row !! key with
  | Some v => v
  | None => Some default
  end.

(** The library functions the loaders call.  They are not part of the
    repository; every general statement below holds for any behaviour of
    them.
    - [Decimal_of_str s]: the value of [Decimal(s)], [None] when it raises
      [InvalidOperation] (the non-finite literals are outside the model);
    - [strptime_Ymd s]: [datetime.strptime(s, '%Y-%m-%d').date()], [None]
      when it raises [ValueError];
    - [csv_DictReader text delimiter]: the rows of
      [csv.DictReader(text, delimiter=delimiter)] (a text on which the
      reader itself raises [csv.Error] is outside the model). *)
Class PyLib : Type := {
  Decimal_of_str : string -> option Dec;
  strptime_Ymd : string -> option date;
  csv_DictReader : string -> ascii -> list CsvRow
}.

(** ** Decimal comparison *)

Definition Dscale (d : Dec) (e : Z) : Z := coef d * 10 ^ (dexp d - e).

(** [a > b] on decimals: both are brought to the smaller exponent. *)
Definition Dgt (a b : Dec) : bool :=
  let e := Z.min (dexp a) (dexp b) in
  Dscale b e <? Dscale a e.

(** Number of decimal digits of a non-negative integer ([len(digit_tuple)]). *)
Fixpoint ndigits_fuel (fuel : nat) (n : Z) : Z :=
  match fuel with
  | O => 1
  | S f => if n <? 10 then 1 else 1 + ndigits_fuel f (n / 10)
  end.

Definition ndigits (n : Z) : Z := ndigits_fuel (Z.to_nat (Z.log2 n) + 1) n.

(** [bool(v)] *)
Definition truthy (v : pyval) : bool :=
  match v with
  | PNone => false
  | PStr s => negb (String.eqb s "")
  | PDec d => negb (coef d =? 0)
  end.

(** [a > b]: decimals by value, strings by code point, anything else is a
    [TypeError]. *)
Definition py_gt (a b : pyval) : outcome bool :=
  match a, b with
  | PDec x, PDec y => Return (Dgt x y)
  | PStr x, PStr y => Return (String.ltb y x)
  | _, _ => Raise TypeError
  end.

(** ** The data model ([models.py]) *)

(** A stored [Claim] row.  The unique column [claim_id] is the key of the
    table; the two [DecimalField(max_digits=12, decimal_places=2)] columns
    hold an amount to two places, here as a number of cents. *)
Record Claim : Set := mkClaim {
  patient_name : string;
  billed_amount : Z;
  paid_amount : Z;
  status : string;
  insurer_name : string;
  discharge_date : date
}.

#[global] Instance Claim_eq_dec : EqDecision Claim.
Proof. solve_decision. Defined.

Definition STATUS_CHOICES : list string := ["Paid"; "Denied"; "Under Review"].

(** A [ClaimDetail] row, keyed by the [claim_id] of the claim it belongs to
    ([OneToOneField]); [denial_reason] is nullable, [cpt_codes] is not. *)
Record ClaimDetail : Set := mkDetail {
  denial_reason : option string;
  cpt_codes : string
}.

(** A [ClaimFlag] row; its primary key is its position in the table. *)
Record ClaimFlag : Set := mkFlag {
  flag_claim : string;
  flag_user : nat;
  flag_type : string;
  reason : string;
  is_active : bool
}.

Record DataUpload : Set := mkUpload {
  upload_type : string;
  file_name : string;
  records_processed : nat;
  upload_user : option nat;
  notes : string
}.

(** The database. *)
Record Store : Type := mkStore {
  claims : gmap string Claim;
  details : gmap string ClaimDetail;
  flags : list ClaimFlag;
  uploads : list DataUpload
}.

(** *** Derived properties of a claim *)

(** [Claim.underpayment_amount] *)
Definition underpayment_amount (c : Claim) : Z :=
  billed_amount c - paid_amount c.

(** [Claim.payment_percentage].  The quotient is kept exact; the rounding of
    the 28-digit decimal context and of the conversion to [float] is not
    modelled. *)
Definition payment_percentage (c : Claim) : Q :=
  if 0 <? billed_amount c
  then ((inject_Z (paid_amount c) / inject_Z (billed_amount c)) * 100)%Q
  else 0%Q.

(** [Claim.is_denied] *)
Definition is_denied (c : Claim) : bool := String.eqb (status c) "Denied".

(** [Claim.is_underpaid] *)
Definition is_underpaid (c : Claim) : bool :=
  negb (Qle_bool 80 (payment_percentage c)).

(** [Claim.is_fully_paid] *)
Definition is_fully_paid (c : Claim) : bool :=
  billed_amount c <=? paid_amount c.

(** [Claim.get_underpayment_severity] *)
Definition get_underpayment_severity (c : Claim) : string :=
  let percentage := payment_percentage c in
  if Qle_bool 95 percentage then "none"
  else if Qle_bool 80 percentage then "low"
  else if Qle_bool 50 percentage then "medium"
  else "high".

(** *** Validation of a [Claim] instance *)

(** A [Claim] instance in memory, before it is validated and saved. *)
Record ClaimObj : Set := mkObj {
  o_claim_id : option string;
  o_patient_name : option string;
  o_billed_amount : pyval;
  o_paid_amount : pyval;
  o_status : option string;
  o_insurer_name : option string;
  o_discharge_date : date
}.

(** [Claim.clean]: [if self.paid_amount and self.billed_amount and
    self.paid_amount > self.billed_amount: raise ValidationError]. *)
Definition clean (self : ClaimObj) : outcome unit :=
  if truthy (o_paid_amount self) && truthy (o_billed_amount self) then
    obind (py_gt (o_paid_amount self) (o_billed_amount self)) (fun gt =>
      if gt : bool then Raise ValidationError else Return tt)
  else Return tt.

(** Field validation of a [CharField]: not null, not blank, at most
    [max_length] characters and, when choices are declared, one of them. *)
Definition CharField_clean (max_length : nat) (choices : option (list string))
    (v : option string) : option string :=
  match v with
  | None => None
  | Some s =>
      if String.eqb s "" then None
      else if (max_length <? String.length s)%nat then None
      else match choices with
           | Some cs => if existsb (String.eqb s) cs then Some s else None
           | None => Some s
           end
  end.

(** [DecimalValidator(max_digits, decimal_places)]. *)
Definition DecimalValidator (max_digits decimal_places : Z) (d : Dec) : bool :=
  let len := ndigits (Z.abs (coef d)) in
  let exponent := dexp d in
  let digits :=
    if 0 <=? exponent then (if coef d =? 0 then len else len + exponent)
    else if len <? Z.abs exponent then Z.abs exponent
    else len in
  let decimals := if 0 <=? exponent then 0 else Z.abs exponent in
  let whole_digits := digits - decimals in
  negb (max_digits <? digits)
  && negb (decimal_places <? decimals)
  && negb (max_digits - decimal_places <? whole_digits).

(** Field validation of [billed_amount] and [paid_amount]: conversion to a
    decimal, [MinValueValidator(Decimal('0.00'))], then
    [DecimalValidator(12, 2)]. *)
Definition DecimalField_clean `{PyLib} (v : pyval) : option Dec :=
  let to_python :=
    match v with
    | PNone => None
    | PStr s => Decimal_of_str s
    | PDec d => Some d
    end in
  match to_python with
  | None => None
  | Some d =>
      if coef d <? 0 then None
      else if DecimalValidator 12 2 d then Some d
      else None
  end.

(** The amount a validated decimal leaves in the column. *)
Definition to_cents (d : Dec) : Z := coef d * 10 ^ (dexp d + 2).

(** [Model.full_clean] on a [Claim]: [clean_fields] validates every field
    and stores each value that passed back into the instance; [clean] then
    runs whatever the outcome was; a [ValidationError] is raised when either
    failed, and any other exception of [clean] propagates as it is.
    [validate_unique] always passes here: the instance is either new under a
    [claim_id] that was just looked up and not found, or the row it was
    loaded from.  On success the result is the key and the row to write. *)
Definition full_clean `{PyLib} (self : ClaimObj) : outcome (string * Claim) :=
  let cid := CharField_clean 20 None (o_claim_id self) in
  let pn := CharField_clean 200 None (o_patient_name self) in
  let billed := DecimalField_clean (o_billed_amount self) in
  let paid := DecimalField_clean (o_paid_amount self) in
  let st := CharField_clean 20 (Some STATUS_CHOICES) (o_status self) in
  let ins := CharField_clean 100 None (o_insurer_name self) in
  let self' :=
    {| o_claim_id := o_claim_id self;
       o_patient_name := o_patient_name self;
       o_billed_amount := from_option PDec (o_billed_amount self) billed;
       o_paid_amount := from_option PDec (o_paid_amount self) paid;
       o_status := o_status self;
       o_insurer_name := o_insurer_name self;
       o_discharge_date := o_discharge_date self |} in
  obind (clean self') (fun _ =>
    match cid, pn, billed, paid, st, ins with
    | Some k, Some n, Some b, Some p, Some s, Some i =>
        Return (k, {| patient_name := n;
                      billed_amount := to_cents b;
                      paid_amount := to_cents p;
                      status := s;
                      insurer_name := i;
                      discharge_date := o_discharge_date self |})
    | _, _, _, _, _, _ => Raise ValidationError
    end).

(** ** The database monad *)

Definition M (A : Type) : Type := Store -> Store * outcome A.

Definition ret {A} (a : A) : M A := fun s => (s, Return a).

Definition raise {A} (e : exn) : M A := fun s => (s, Raise e).

Definition bind {A B} (m : M A) (f : A -> M B) : M B := fun s =>
  match m s with
  | (s', Return a) => f a s'
  | (s', Raise e) => (s', Raise e)
  end.

(** A computation that does not touch the database. *)
Definition lift {A} (x : outcome A) : M A := fun s => (s, x).

Notation "'let*' x := m 'in' k" := (bind m (fun x => k))
  (at level 10, x name, m at level 100, k at level 200).
Notation "m ;; k" := (bind m (fun _ => k))
  (at level 100, k at level 200, right associativity).

(** [try: m  except classes: h] *)
Definition try_except {A} (m : M A) (classes : list exn) (h : exn -> M A)
  : M A := fun s =>
  match m s with
  | (s', Return a) => (s', Return a)
  | (s', Raise e) => if caught_by classes e then h e s' else (s', Raise e)
  end.

(** [except Exception as e: h] *)
Definition try_except_Exception {A} (m : M A) (h : exn -> M A) : M A := fun s =>
  match m s with
  | (s', Return a) => (s', Return a)
  | (s', Raise e) => h e s'
  end.

(** [with transaction.atomic(): m]: when [m] raises, every write it made is
    undone and the exception goes on. *)
Definition atomic {A} (m : M A) : M A := fun s =>
  match m s with
  | (s', Return a) => (s', Return a)
  | (_, Raise e) => (s, Raise e)
  end.

(** ** The ORM calls the code makes *)

Definition set_claims (f : gmap string Claim -> gmap string Claim) (s : Store)
  : Store :=
  {| claims := f (claims s); details := details s;
     flags := flags s; uploads := uploads s |}.

Definition set_details (f : gmap string ClaimDetail -> gmap string ClaimDetail)
    (s : Store) : Store :=
  {| claims := claims s; details := f (details s);
     flags := flags s; uploads := uploads s |}.

Definition set_flags (f : list ClaimFlag -> list ClaimFlag) (s : Store) : Store :=
  {| claims := claims s; details := details s;
     flags := f (flags s); uploads := uploads s |}.

Definition set_uploads (f : list DataUpload -> list DataUpload) (s : Store)
  : Store :=
  {| claims := claims s; details := details s;
     flags := flags s; uploads := f (uploads s) |}.

(** [Claim.objects.all().delete()]: the [on_delete=CASCADE] foreign keys take
    the details and the flags with the claims. *)
Definition Claim_objects_all_delete : M unit := fun s =>
  ({| claims := ∅; details := ∅; flags := []; uploads := uploads s |}, Return tt).

(** [ClaimDetail.objects.all().delete()] *)
Definition ClaimDetail_objects_all_delete : M unit := fun s =>
  (set_details (fun _ => ∅) s, Return tt).

(** [Claim.objects.get(claim_id=v)]; the result is the key of the claim. *)
Definition Claim_objects_get (v : option string) : M string := fun s =>
  match v with
  | Some k => if decide (is_Some (claims s !! k)) then (s, Return k)
              else (s, Raise DoesNotExist)
  | None => (s, Raise DoesNotExist)
  end.

(** [get_object_or_404(Claim, claim_id=k)] *)
Definition get_claim_or_404 (k : string) : M string :=
  try_except (Claim_objects_get (Some k)) [DoesNotExist] (fun _ => raise Http404).

(** The [defaults] of [Claim.objects.update_or_create]. *)
Record ClaimDefaults : Set := mkDefaults {
  d_patient_name : option string;
  d_billed_amount : pyval;
  d_paid_amount : pyval;
  d_status : option string;
  d_insurer_name : option string;
  d_discharge_date : date
}.

Definition instance_of (claim_id : option string) (d : ClaimDefaults) : ClaimObj :=
  {| o_claim_id := claim_id;
     o_patient_name := d_patient_name d;
     o_billed_amount := d_billed_amount d;
     o_paid_amount := d_paid_amount d;
     o_status := d_status d;
     o_insurer_name := d_insurer_name d;
     o_discharge_date := d_discharge_date d |}.

Section ORM.
Context `{PyLib}.

(** [Claim.save]: [self.full_clean()] then the write. *)
Definition Claim_save (self : ClaimObj) : M unit := fun s =>
  match full_clean self with
  | Raise e => (s, Raise e)
  | Return (k, c) => (set_claims (insert k c) s, Return tt)
  end.

(** [Claim.objects.update_or_create(claim_id=v, defaults=d)]: when a claim
    with this [claim_id] exists, every default is assigned to it and it is
    saved ([created] is false); otherwise a new instance is built from the
    lookup and the defaults and saved ([created] is true). *)
Definition Claim_objects_update_or_create (v : option string)
    (d : ClaimDefaults) : M bool := fun s =>
  match v with
  | Some k =>
      match claims s !! k with
      | Some _ => (Claim_save (instance_of (Some k) d) ;; ret false) s
      | None => (Claim_save (instance_of (Some k) d) ;; ret true) s
      end
  | None => (Claim_save (instance_of None d) ;; ret true) s
  end.
End ORM.

(** [ClaimDetail.objects.update_or_create(claim=k, defaults=...)].  The model
    has no validation of its own; a [None] for the non-nullable [cpt_codes]
    is refused by the database. *)
Definition ClaimDetail_objects_update_or_create (k : string)
    (denial cpt : option string) : M bool := fun s =>
  match cpt with
  | None => (s, Raise IntegrityError)
  | Some codes =>
      (set_details (insert k {| denial_reason := denial; cpt_codes := codes |}) s,
       Return (bool_decide (details s !! k = None)))
  end.

(** [DataUpload.objects.create(...)] *)
Definition DataUpload_objects_create (u : DataUpload) : M unit := fun s =>
  (set_uploads (cons u) s, Return tt).

(** ** Text helpers *)

(** [c in s] *)
Fixpoint mem_char (c : ascii) (s : string) : bool :=
  match s with
  | EmptyString => false
  | String a rest => Ascii.eqb a c || mem_char c rest
  end.

(** The line boundaries of [str.splitlines] below code point 256:
    LF, VT, FF, CR, FS, GS, RS and NEL. *)
Definition is_linebreak (c : ascii) : bool :=
  match nat_of_ascii c with
  | 10%nat | 11%nat | 12%nat | 13%nat | 28%nat | 29%nat | 30%nat | 133%nat => true
  | _ => false
  end.

(** [s.splitlines()]; [cur] is the line being read, reversed.  A CR directly
    followed by LF is one boundary. *)
Fixpoint splitlines_from (cur : list ascii) (s : string) : list string :=
  match s with
  | EmptyString =>
      match cur with
      | [] => []
      | _ => [string_of_list_ascii (rev cur)]
      end
  | String c rest =>
      if is_linebreak c then
        string_of_list_ascii (rev cur) ::
          match rest with
          | String c' rest' =>
              if Ascii.eqb c "013" && Ascii.eqb c' "010"
              then splitlines_from [] rest'
              else splitlines_from [] rest
          | EmptyString => []
          end
      else splitlines_from (c :: cur) rest
  end.

Definition splitlines (s : string) : list string := splitlines_from [] s.

(** [os.path.basename] for POSIX paths: what follows the last slash. *)
Fixpoint basename (p : string) : string :=
  match p with
  | EmptyString => EmptyString
  | String c rest =>
      if mem_char "/" rest then basename rest
      else if Ascii.eqb c "/" then rest
      else p
  end.

(** ** Calls on a cell of a row *)

Section Cells.
Context `{PyLib}.

(** [datetime.strptime(v, '%Y-%m-%d').date()] *)
Definition strptime (v : option string) : outcome date :=
  match v with
  | None => Raise TypeError
  | Some s =>
      match strptime_Ymd s with
      | Some d => Return d
      | None => Raise ValueError
      end
  end.

(** [Decimal(v)] *)
Definition Decimal (v : option string) : outcome Dec :=
  match v with
  | None => Raise TypeError
  | Some s =>
      match Decimal_of_str s with
      | Some d => Return d
      | None => Raise InvalidOperation
      end
  end.
End Cells.

(** A cell handed to the model as it is. *)
Definition raw_cell (v : option string) : pyval :=
  match v with
  | None => PNone
  | Some s => PStr s
  end.

(** ** The management command ([load_claims_data.py]) *)

Module Command.

(** The parsed command line; [--mode] is [append] or [overwrite]. *)
Record Options : Set := mkOptions {
  claims_file : string;
  details_file : string;
  mode : string
}.

(** The files the command can see: a path maps to the text of the file,
    or to [None] when its bytes are not valid UTF-8. *)
Abbreviation FileSystem := (gmap string (option string)).

(** [os.path.exists] *)
Definition path_exists (fs : FileSystem) (path : string) : bool :=
  bool_decide (is_Some (fs !! path)).

(** [open(path, 'r', encoding='utf-8')] and the read of its text; the
    decoding error is raised while the file is iterated, outside the
    [try] of the loop. *)
Definition open_read (fs : FileSystem) (path : string) : outcome string :=
  match fs !! path with
  | Some (Some text) => Return text
  | Some None => Raise UnicodeDecodeError
  | None => Raise FileNotFoundError
  end.

Section Loaders.
Context `{PyLib}.

(** The body of the [try] in [_load_claims]; the result is [created]. *)
Definition _load_claims_row (row : CsvRow) : M bool :=
  let* discharge_date := lift (obind (getitem row "discharge_date") strptime) in
  let* billed_amount := lift (obind (getitem row "billed_amount") Decimal) in
  let* paid_amount := lift (obind (getitem row "paid_amount") Decimal) in
  let* id := lift (getitem row "id") in
  let* patient_name := lift (getitem row "patient_name") in
  let* status := lift (getitem row "status") in
  let* insurer_name := lift (getitem row "insurer_name") in
  Claim_objects_update_or_create id
    {| d_patient_name := patient_name;
       d_billed_amount := PDec billed_amount;
       d_paid_amount := PDec paid_amount;
       d_status := status;
       d_insurer_name := insurer_name;
       d_discharge_date := discharge_date |}.

(** [for row in reader: try: ... except (ValueError, InvalidOperation,
    KeyError): continue] *)
Fixpoint _load_claims_loop (reader : list CsvRow) (count : nat) : M nat :=
  match reader with
  | [] => ret count
  | row :: reader' =>
      let* count' :=
        try_except
          (let* created := _load_claims_row row in
           ret (if created : bool then S count else count))
          [ValueError; InvalidOperation; KeyError]
          (fun _ => ret count) in
      _load_claims_loop reader' count'
  end.

Definition _load_claims (fs : FileSystem) (file_path : string) : M nat :=
  let* text := lift (open_read fs file_path) in
  _load_claims_loop (csv_DictReader text "|") 0%nat.

(** The body of the outer [try] in [_load_claim_details]; [None] stands
    for the [continue] of the inner handler. *)
Definition _load_claim_details_row (row : CsvRow) : M (option bool) :=
  let* claim :=
    try_except
      (let* v := lift (getitem row "claim_id") in
       let* k := Claim_objects_get v in
       ret (Some k))
      [DoesNotExist]
      (fun _ => ret None) in
  match claim with
  | None => ret None
  | Some k =>
      let* created :=
        ClaimDetail_objects_update_or_create k
          (dict_get row "denial_reason" "") (dict_get row "cpt_codes" "") in
      ret (Some created)
  end.

Fixpoint _load_claim_details_loop (reader : list CsvRow) (count : nat)
  : M nat :=
  match reader with
  | [] => ret count
  | row :: reader' =>
      let* count' :=
        try_except
          (let* r := _load_claim_details_row row in
           ret (match r with
                | Some true => S count
                | _ => count
                end))
          [KeyError]
          (fun _ => ret count) in
      _load_claim_details_loop reader' count'
  end.

Definition _load_claim_details (fs : FileSystem) (file_path : string)
  : M nat :=
  let* text := lift (open_read fs file_path) in
  _load_claim_details_loop (csv_DictReader text "|") 0%nat.

(** The block under [with transaction.atomic()] in [handle]. *)
Definition handle_body (fs : FileSystem) (options : Options) : M unit :=
  (if String.eqb (mode options) "overwrite"
   then (Claim_objects_all_delete ;; ClaimDetail_objects_all_delete)
   else ret tt) ;;
  let* claims_count := _load_claims fs (claims_file options) in
  let* details_count := _load_claim_details fs (details_file options) in
  DataUpload_objects_create
    {| upload_type :=
         if String.eqb (mode options) "overwrite" then "overwrite" else "append";
       file_name :=
         basename (claims_file options) +:+ ", "
           +:+ basename (details_file options);
       records_processed := claims_count;
       upload_user := None;
       notes := "Claims: " +:+ pretty claims_count
                  +:+ ", Details: " +:+ pretty details_count |}.

Definition handle (fs : FileSystem) (options : Options) : M unit :=
  if negb (path_exists fs (claims_file options)) then raise CommandError
  else if negb (path_exists fs (details_file options)) then raise CommandError
  else try_except_Exception (atomic (handle_body fs options))
         (fun _ => raise CommandError).
End Loaders.

End Command.

(** ** The upload view ([views.py], [DataUploadView]) *)

Module DataUploadView.

(** An uploaded file: its name and the result of
    [file.read().decode('utf-8')], [None] when the bytes are not valid
    UTF-8. *)
Record UploadedFile : Set := mkFile {
  name : string;
  decoded : option string
}.

Definition read_decode (file : UploadedFile) : outcome string :=
  match decoded file with
  | Some text => Return text
  | None => Raise UnicodeDecodeError
  end.

(** The request: [request.FILES.get(...)], [request.POST.get('mode')] and
    [request.user]. *)
Record Request : Set := mkRequest {
  FILES_claims_file : option UploadedFile;
  FILES_details_file : option UploadedFile;
  POST_mode : option string;
  user : nat
}.

(** The message the view leaves for the next page. *)
Inductive message : Set :=
  | both_files_required
  | success (claims_count details_count : nat)
  | error_uploading (e : exn).

(** [_detect_delimiter]: ['|' if '|' in first_line else ','] *)
Definition _detect_delimiter (first_line : string) : ascii :=
  if mem_char "|" first_line then "|"%char else ","%char.

(** [not file]: a missing upload, or one with an empty name. *)
Definition present (f : option UploadedFile) : option UploadedFile :=
  match f with
  | Some file => if String.eqb (name file) "" then None else Some file
  | None => None
  end.

Section Loaders.
Context `{PyLib}.

(** The body of the [try] in [_process_claims_file]. *)
Definition _process_claims_row (row : CsvRow) : M unit :=
  let* discharge_date := lift (obind (getitem row "discharge_date") strptime) in
  let* id := lift (getitem row "id") in
  let* patient_name := lift (getitem row "patient_name") in
  let* billed_amount := lift (getitem row "billed_amount") in
  let* paid_amount := lift (getitem row "paid_amount") in
  let* status := lift (getitem row "status") in
  let* insurer_name := lift (getitem row "insurer_name") in
  Claim_objects_update_or_create id
    {| d_patient_name := patient_name;
       d_billed_amount := raw_cell billed_amount;
       d_paid_amount := raw_cell paid_amount;
       d_status := status;
       d_insurer_name := insurer_name;
       d_discharge_date := discharge_date |} ;;
  ret tt.

Fixpoint _process_claims_loop (reader : list CsvRow) (processed_count : nat)
  : M nat :=
  match reader with
  | [] => ret processed_count
  | row :: reader' =>
      let* count' :=
        try_except
          (_process_claims_row row ;; ret (S processed_count))
          [ValueError; KeyError]
          (fun _ => ret processed_count) in
      _process_claims_loop reader' count'
  end.

Definition _process_claims_file (file : UploadedFile) (mode : string)
  : M nat :=
  (if String.eqb mode "overwrite" then Claim_objects_all_delete else ret tt) ;;
  let* file_content := lift (read_decode file) in
  match splitlines file_content with
  | [] => ret 0%nat
  | first_line :: _ =>
      let delimiter := _detect_delimiter first_line in
      _process_claims_loop (csv_DictReader file_content delimiter) 0%nat
  end.

(** The body of the [try] in [_process_details_file]. *)
Definition _process_details_row (row : CsvRow) : M unit :=
  let* v := lift (getitem row "claim_id") in
  let* claim := Claim_objects_get v in
  ClaimDetail_objects_update_or_create claim
    (dict_get row "denial_reason" "") (dict_get row "cpt_codes" "") ;;
  ret tt.

Fixpoint _process_details_loop (reader : list CsvRow) (processed_count : nat)
  : M nat :=
  match reader with
  | [] => ret processed_count
  | row :: reader' =>
      let* count' :=
        try_except
          (_process_details_row row ;; ret (S processed_count))
          [DoesNotExist; KeyError]
          (fun _ => ret processed_count) in
      _process_details_loop reader' count'
  end.

Definition _process_details_file (file : UploadedFile) : M nat :=
  let* file_content := lift (read_decode file) in
  match splitlines file_content with
  | [] => ret 0%nat
  | first_line :: _ =>
      let delimiter := _detect_delimiter first_line in
      _process_details_loop (csv_DictReader file_content delimiter) 0%nat
  end.

Definition post (request : Request) : M message :=
  let mode := default "append" (POST_mode request) in
  match present (FILES_claims_file request),
        present (FILES_details_file request) with
  | Some claims_file, Some details_file =>
      try_except_Exception
        (let* claims_count := _process_claims_file claims_file mode in
         let* details_count := _process_details_file details_file in
         DataUpload_objects_create
           {| upload_type := mode;
              file_name := name claims_file +:+ ", " +:+ name details_file;
              records_processed := claims_count;
              upload_user := Some (user request);
              notes := "Claims: " +:+ pretty claims_count
                         +:+ ", Details: " +:+ pretty details_count |} ;;
         ret (success claims_count details_count))
        (fun e => ret (error_uploading e))
  | _, _ => ret both_files_required
  end.
End Loaders.

End DataUploadView.

(** ** Flags ([views.py], [add_flag_htmx] and [remove_flag_htmx]) *)

Module ClaimViews.

Record Request : Set := mkRequest {
  method : string;
  POST_flag_type : option string;
  POST_reason : option string;
  user : nat
}.

(** The rows of [ClaimFlag.objects.filter(claim=c, user=u, flag_type=t)],
    each with its primary key; [i] is the key of the head of [l]. *)
Fixpoint matching_from (i : nat) (c : string) (u : nat) (t : string)
    (l : list ClaimFlag) : list (nat * ClaimFlag) :=
  match l with
  | [] => []
  | f :: rest =>
      if decide (flag_claim f = c ∧ flag_user f = u ∧ flag_type f = t)
      then (i, f) :: matching_from (S i) c u t rest
      else matching_from (S i) c u t rest
  end.

(** [ClaimFlag.objects.get_or_create(claim=c, user=u, flag_type=t,
    defaults={'reason': r, 'is_active': a})] *)
Definition ClaimFlag_objects_get_or_create (c : string) (u : nat) (t : string)
    (r : string) (a : bool) : M (nat * ClaimFlag * bool) := fun s =>
  match matching_from 0 c u t (flags s) with
  | [] =>
      let f := {| flag_claim := c; flag_user := u; flag_type := t;
                  reason := r; is_active := a |} in
      (set_flags (fun l => (l ++ [f])%list) s, Return (length (flags s), f, true))
  | [(pk, f)] => (s, Return (pk, f, false))
  | _ => (s, Raise MultipleObjectsReturned)
  end.

(** [flag.is_active = a; flag.reason = r] *)
Definition assign (flag : ClaimFlag) (a : bool) (r : string) : ClaimFlag :=
  {| flag_claim := flag_claim flag; flag_user := flag_user flag;
     flag_type := flag_type flag; reason := r; is_active := a |}.

(** [flag.save()] on a row that exists. *)
Definition ClaimFlag_save (pk : nat) (f : ClaimFlag) : M unit := fun s =>
  (set_flags (fun l => <[pk := f]> l) s, Return tt).

(** The result is the template that is rendered. *)
Definition add_flag_htmx (request : Request) (claim_id : string) : M string :=
  if String.eqb (method request) "POST" then
    let* claim := get_claim_or_404 claim_id in
    let flag_type := default "review" (POST_flag_type request) in
    let reason := default "" (POST_reason request) in
    let* r := ClaimFlag_objects_get_or_create claim (user request) flag_type
                reason true in
    (let '(pk, flag, created) := r in
     if negb created then ClaimFlag_save pk (assign flag true reason)
     else ret tt) ;;
    ret "claims/partials/notes_section.html"
  else
    let* claim := get_claim_or_404 claim_id in
    ret "claims/partials/add_flag_form.html".

(** [get_object_or_404(ClaimFlag, id=flag_id, user=request.user)], then
    the flag is switched off and saved. *)
Definition remove_flag_htmx (request : Request) (flag_id : nat) : M string :=
  fun s =>
  match flags s !! flag_id with
  | Some flag =>
      if decide (flag_user flag = user request) then
        (ClaimFlag_save flag_id (assign flag false (reason flag)) ;;
         ret "claims/partials/claim_flags.html") s
      else (s, Raise Http404)
  | None => (s, Raise Http404)
  end.

End ClaimViews.

(** ** The dashboard ([views.py], [DashboardView.get_context_data]) *)

Module DashboardView.

(** The basic statistics of the context.  The status breakdown and the
    count of flagged claims follow below; the insurer statistics, the
    averages and the recent activity lists are not modelled. *)
Record Statistics : Set := mkStatistics {
  total_claims : nat;
  total_billed : Z;
  total_paid : Z;
  total_underpayment : Z;
  payment_rate : Q
}.

(** [aggregate(Sum(column))]: [None] over no rows. *)
Definition Sum (column : list Z) : option Z :=
  match column with
  | [] => None
  | _ => Some (foldr Z.add 0 column)
  end.

(** [v or 0] *)
Definition or_0 (v : option Z) : Z :=
  match v with
  | Some x => if x =? 0 then 0 else x
  | None => 0
  end.

(** The values of one column over [Claim.objects]. *)
Definition column (f : Claim -> Z) (s : Store) : list Z :=
  (fun kc => f (snd kc)) <$> map_to_list (claims s).

Definition get_context_data (s : Store) : Statistics :=
  let total_claims := size (claims s) in
  let total_billed := or_0 (Sum (column billed_amount s)) in
  let total_paid := or_0 (Sum (column paid_amount s)) in
  let total_underpayment := total_billed - total_paid in
  {| total_claims := total_claims;
     total_billed := total_billed;
     total_paid := total_paid;
     total_underpayment := total_underpayment;
     payment_rate :=
       if 0 <? total_billed
       then (inject_Z total_paid / inject_Z total_billed * 100)%Q
       else 0%Q |}.

(** *** The status breakdown and the flagged claims *)

(** One row of [status_breakdown]:
    [Claim.objects.values('status').annotate(count=Count('id'),
    total_billed=Sum('billed_amount'), total_paid=Sum('paid_amount'))]. *)
Record StatusTotals : Set := mkStatusTotals {
  sb_status : string;
  sb_count : nat;
  sb_total_billed : Z;
  sb_total_paid : Z
}.

(** The ascending order of [order_by('status')], taken code point by code
    point (the binary collation). *)
Definition status_le (a b : string) : Prop := String.leb a b = true.

#[global] Instance status_le_dec (a b : string) : Decision (status_le a b).
Proof. unfold status_le. apply _. Defined.

(** One row for each status some claim has, in the order of the statuses,
    with the number of its claims and the sums of their amounts. *)
Definition status_breakdown (s : Store) : list StatusTotals :=
  let rows := (map_to_list (claims s)).*2 in
  (fun st =>
     let group := filter (fun c => status c = st) rows in
     {| sb_status := st;
        sb_count := length group;
        sb_total_billed := foldr Z.add 0 (billed_amount <$> group);
        sb_total_paid := foldr Z.add 0 (paid_amount <$> group) |})
  <$> merge_sort status_le (remove_dups (status <$> rows)).

(** The join condition of [filter(flags__is_active=True)] for the claim
    with the key [k]: one of its flags is active. *)
Definition has_active_flag (s : Store) (k : string) : Prop :=
  Exists (fun f => flag_claim f = k /\ is_active f = true) (flags s).

(** [Claim.objects.filter(flags__is_active=True).distinct()]: each claim
    that has an active flag, once. *)
Definition flagged (s : Store) : gmap string Claim :=
  filter (fun kc => has_active_flag s (fst kc)) (claims s).

(** [flagged_claims_count]: [... .count() or 0] *)
Definition flagged_claims (s : Store) : nat := size (flagged s).

End DashboardView.


(** ** A concrete instance of the library functions

    Enough of [Decimal], [strptime] and [csv.DictReader] to run the loaders
    on plain input: unsigned or negative decimals written with digits and at
    most one point, dates written [YYYY-MM-DD], and delimited text without
    quoting whose lines end in LF. *)

Definition digit_of (c : ascii) : option Z :=
  let n := Z.of_nat (nat_of_ascii c) in
  if (48 <=? n) && (n <=? 57) then Some (n - 48) else None.

Fixpoint plain_Decimal_from (seen_digit seen_point : bool) (c places : Z)
    (s : string) : option Dec :=
  match s with
  | EmptyString => if seen_digit then Some (mkDec c (- places)) else None
  | String a rest =>
      match digit_of a with
      | Some d =>
          plain_Decimal_from true seen_point (c * 10 + d)
            (if seen_point then places + 1 else places) rest
      | None =>
          if Ascii.eqb a "." && negb seen_point
          then plain_Decimal_from seen_digit true c places rest
          else None
      end
  end.

Definition plain_Decimal (s : string) : option Dec :=
  match s with
  | String "-" rest =>
      match plain_Decimal_from false false 0 0 rest with
      | Some d => Some (mkDec (- coef d) (dexp d))
      | None => None
      end
  | _ => plain_Decimal_from false false 0 0 s
  end.

Definition number_of (digits : list ascii) : option Z :=
  foldl (fun acc a =>
           match acc, digit_of a with
           | Some n, Some d => Some (n * 10 + d)
           | _, _ => None
           end) (Some 0) digits.

Definition is_leap (y : Z) : bool :=
  ((y mod 4 =? 0) && negb (y mod 100 =? 0)) || (y mod 400 =? 0).

Definition days_in_month (y m : Z) : Z :=
  if m =? 2 then (if is_leap y then 29 else 28)
  else if (m =? 4) || (m =? 6) || (m =? 9) || (m =? 11) then 30
  else 31.

Definition plain_strptime (s : string) : option date :=
  match list_ascii_of_string s with
  | [y1; y2; y3; y4; d1; m1; m2; d2; a1; a2] =>
      if Ascii.eqb d1 "-" && Ascii.eqb d2 "-" then
        match number_of [y1; y2; y3; y4], number_of [m1; m2], number_of [a1; a2] with
        | Some y, Some m, Some d =>
            if (1 <=? y) && (1 <=? m) && (m <=? 12) && (1 <=? d)
               && (d <=? days_in_month y m)
            then Some (mkdate y m d)
            else None
        | _, _, _ => None
        end
      else None
  | _ => None
  end.

(** The pieces of [s] between occurrences of [c]; [cur] is the piece being
    read, reversed. *)
Fixpoint split_on (c : ascii) (cur : list ascii) (s : string) : list string :=
  match s with
  | EmptyString => [string_of_list_ascii (rev cur)]
  | String a rest =>
      if Ascii.eqb a c then string_of_list_ascii (rev cur) :: split_on c [] rest
      else split_on c (a :: cur) rest
  end.

(** [dict(zip(fieldnames, fields))], short lines filled with [None]. *)
Fixpoint zip_row (fieldnames fields : list string) : CsvRow :=
  match fieldnames with
  | [] => ∅
  | h :: hs =>
      match fields with
      | [] => <[h := None]> (zip_row hs [])
      | f :: fs => <[h := Some f]> (zip_row hs fs)
      end
  end.

Definition plain_DictReader (text : string) (delimiter : ascii) : list CsvRow :=
  match filter (fun l => l ≠ EmptyString) (split_on "010" [] text) with
  | [] => []
  | header :: lines =>
      let fieldnames := split_on delimiter [] header in
      (fun l => zip_row fieldnames (split_on delimiter [] l)) <$> lines
  end.

Definition plain_lib : PyLib :=
  {| Decimal_of_str := plain_Decimal;
     strptime_Ymd := plain_strptime;
     csv_DictReader := plain_DictReader |}.

(** ** CPT codes ([models.py], [ClaimDetail.cpt_codes_list]) *)

(** [c.isspace()] for a character below code point 256: HT, LF, VT, FF, CR,
    FS, GS, RS, US, the space, NEL and the no-break space. *)
Definition is_space (c : ascii) : bool :=
  match nat_of_ascii c with
  | 9%nat | 10%nat | 11%nat | 12%nat | 13%nat | 28%nat | 29%nat | 30%nat
  | 31%nat | 32%nat | 133%nat | 160%nat => true
  | _ => false
  end.

(** The characters of [s.lstrip()]. *)
Fixpoint lstrip (l : list ascii) : list ascii :=
  match l with
  | [] => []
  | c :: rest => if is_space c then lstrip rest else l
  end.

(** [s.strip()] *)
Definition strip (s : string) : string :=
  string_of_list_ascii (rev (lstrip (rev (lstrip (list_ascii_of_string s))))).

(** [ClaimDetail.cpt_codes_list]: [[code.strip() for code in
    self.cpt_codes.split(',')]] when [cpt_codes] is not empty, [[]]
    otherwise; [split_on] above is [str.split] for a separator of one
    character. *)
Definition cpt_codes_list (self : ClaimDetail) : list string :=
  if String.eqb (cpt_codes self) "" then []
  else strip <$> split_on "," [] (cpt_codes self).

(** ** Pagination ([apps/core/mixins.py], [PaginationMixin])

    [django.core.paginator.Paginator] is followed for the defaults the
    mixin uses ([orphans=0], [allow_empty_first_page=True]); the quotient of
    [num_pages] is kept exact. *)

Module PaginationMixin.

(** What [Paginator.page] and [Paginator.num_pages] may raise. *)
Inductive page_error : Set :=
  | PageNotAnInteger
  | EmptyPage
  | ZeroDivisionError.

Section Paginator.
Context {A : Type}.

(** A [Page]: its objects and its number. *)
Record Page : Type := mkPage {
  object_list : list A;
  number : Z
}.

(** [Paginator.num_pages]: [ceil(max(1, count) / per_page)]. *)
Definition num_pages (queryset : list A) (per_page : Z) : page_error + Z :=
  if per_page =? 0 then inl ZeroDivisionError
  else inr (- (- Z.max 1 (Z.of_nat (length queryset)) / per_page)).

(** [Paginator.page(number)]; [number] is [None] when [int(number)] raises
    ([validate_number] turns that into [PageNotAnInteger]). *)
Definition page (queryset : list A) (per_page : Z) (number : option Z)
  : page_error + Page :=
  match number with
  | None => inl PageNotAnInteger
  | Some n =>
      if n <? 1 then inl EmptyPage
      else
        match num_pages queryset per_page with
        | inl e => inl e
        | inr last =>
            if last <? n then inl EmptyPage
            else
              let count := Z.of_nat (length queryset) in
              let bottom := (n - 1) * per_page in
              let top := bottom + per_page in
              let top := if count <=? top then count else top in
              inr {| object_list :=
                       take (Z.to_nat (top - bottom))
                         (drop (Z.to_nat bottom) queryset);
                     number := n |}
        end
  end.

(** [int(s)] for a [str]: [None] when it raises [ValueError]. *)
Variable int_of_str : string -> option Z.

(** [PaginationMixin.paginate_queryset(queryset, page_size)]; [paginate_by]
    is the attribute of the class and [GET_page] is
    [self.request.GET.get('page')]. *)
Definition paginate_queryset (paginate_by : Z) (GET_page : option string)
    (queryset : list A) (page_size : option Z) : page_error + Page :=
  let page_size := default paginate_by page_size in
  match page queryset page_size (GET_page ≫= int_of_str) with
  | inl PageNotAnInteger => page queryset page_size (Some 1)
  | inl EmptyPage =>
      match num_pages queryset page_size with
      | inl e => inl e
      | inr last => page queryset page_size (Some last)
      end
  | r => r
  end.

End Paginator.
End PaginationMixin.

(** The empty database. *)
Definition empty_store : Store :=
  {| claims := ∅; details := ∅; flags := []; uploads := [] |}.


(** * Definitions used by the statements

    Nothing below is part of the program: these are the notions the
    properties are stated and proved with. *)

Section Specification.
Context `{PyLib}.

(** ** The delimiter a header line calls for *)

(** Pipe when the line holds a pipe character, comma otherwise. *)
Definition delimiter_for (first_line : string) : ascii :=
  if decide ("|"%char ∈ list_ascii_of_string first_line)
  then "|"%char else ","%char.

(** ** Claim rows and claims loops *)

(** The write of an accepted row. *)
Definition upsert (kc : string * Claim) (s : Store) : Store :=
  set_claims (insert (fst kc) (snd kc)) s.

(** Whether the row's claim is not there yet. *)
Definition fresh (kc : string * Claim) (s : Store) : bool :=
  bool_decide (claims s !! fst kc = None).

(** The claim a row of the command stands for: the parsing and the
    validation, without the database. *)
Definition Command_claim_of_row (row : CsvRow) : outcome (string * Claim) :=
  obind (obind (getitem row "discharge_date") strptime) (fun discharge_date =>
  obind (obind (getitem row "billed_amount") Decimal) (fun billed_amount =>
  obind (obind (getitem row "paid_amount") Decimal) (fun paid_amount =>
  obind (getitem row "id") (fun id =>
  obind (getitem row "patient_name") (fun patient_name =>
  obind (getitem row "status") (fun status =>
  obind (getitem row "insurer_name") (fun insurer_name =>
  full_clean (instance_of id
    {| d_patient_name := patient_name;
       d_billed_amount := PDec billed_amount;
       d_paid_amount := PDec paid_amount;
       d_status := status;
       d_insurer_name := insurer_name;
       d_discharge_date := discharge_date |})))))))).

(** The same for a row of the web upload. *)
Definition View_claim_of_row (row : CsvRow) : outcome (string * Claim) :=
  obind (obind (getitem row "discharge_date") strptime) (fun discharge_date =>
  obind (getitem row "id") (fun id =>
  obind (getitem row "patient_name") (fun patient_name =>
  obind (getitem row "billed_amount") (fun billed_amount =>
  obind (getitem row "paid_amount") (fun paid_amount =>
  obind (getitem row "status") (fun status =>
  obind (getitem row "insurer_name") (fun insurer_name =>
  full_clean (instance_of id
    {| d_patient_name := patient_name;
       d_billed_amount := raw_cell billed_amount;
       d_paid_amount := raw_cell paid_amount;
       d_status := status;
       d_insurer_name := insurer_name;
       d_discharge_date := discharge_date |})))))))).

(** The exceptions the row handler of each claims loop names. *)
Definition Command_caught : exn -> bool :=
  caught_by [ValueError; InvalidOperation; KeyError].

Definition View_caught : exn -> bool := caught_by [ValueError; KeyError].

(** The scheme both claims loops follow over the claims their rows stand
    for: an accepted row is written, a row whose exception the handler names
    is passed over, any other exception ends the loop.  With [every = false]
    the rows that created a claim are counted (the command), with
    [every = true] every accepted row (the upload). *)
Fixpoint run (caught : exn -> bool) (every : bool)
    (rs : list (outcome (string * Claim))) (n : nat) (s : Store)
  : Store * outcome nat :=
  match rs with
  | [] => (s, Return n)
  | Return kc :: rest =>
      run caught every rest (if every || fresh kc s then S n else n) (upsert kc s)
  | Raise e :: rest =>
      if caught e then run caught every rest n s else (s, Raise e)
  end.

(** The rows written before the loop ends. *)
Fixpoint accepted (caught : exn -> bool) (rs : list (outcome (string * Claim)))
  : list (string * Claim) :=
  match rs with
  | [] => []
  | Return kc :: rest => kc :: accepted caught rest
  | Raise e :: rest => if caught e then accepted caught rest else []
  end.

(** The exception that ends the loop, if any. *)
Fixpoint failure (caught : exn -> bool) (rs : list (outcome (string * Claim)))
  : option exn :=
  match rs with
  | [] => None
  | Return _ :: rest => failure caught rest
  | Raise e :: rest => if caught e then failure caught rest else Some e
  end.

(** Writing a list of claims in order. *)
Definition upsert_all (l : list (string * Claim)) (s : Store) : Store :=
  foldl (fun s kc => upsert kc s) s l.

(** The number of rows of [l] that create a claim when written in order
    from [s]. *)
Fixpoint created_count (l : list (string * Claim)) (s : Store) : nat :=
  match l with
  | [] => 0%nat
  | kc :: rest =>
      ((if fresh kc s then 1 else 0) + created_count rest (upsert kc s))%nat
  end.

(** The rows the upload reads from a text. *)
Definition View_reader (text : string) : list CsvRow :=
  match splitlines text with
  | [] => []
  | first_line :: _ =>
      csv_DictReader text (DataUploadView._detect_delimiter first_line)
  end.

(** ** Detail rows *)

(** The detail a row stands for, given the claims that exist: [None] when
    no claim has the row's [claim_id]. *)
Definition detail_of_row (row : CsvRow) (s : Store)
  : outcome (option (string * ClaimDetail)) :=
  match row !! "claim_id" with
  | None => Raise KeyError
  | Some None => Return None
  | Some (Some k) =>
      if decide (is_Some (claims s !! k)) then
        match dict_get row "cpt_codes" "" with
        | None => Raise IntegrityError
        | Some codes =>
            Return (Some (k, {| denial_reason := dict_get row "denial_reason" "";
                                cpt_codes := codes |}))
        end
      else Return None
  end.

(** One turn of each details loop: the database and the count after the
    row, or the exception that leaves the loop. *)
Definition Command_details_step (row : CsvRow) (n : nat) (s : Store)
  : Store * outcome nat :=
  match detail_of_row row s with
  | Return (Some (k, d)) =>
      (set_details (insert k d) s,
       Return (if bool_decide (details s !! k = None) then S n else n))
  | Return None => (s, Return n)
  | Raise e => if caught_by [KeyError] e then (s, Return n) else (s, Raise e)
  end.

Definition View_details_step (row : CsvRow) (n : nat) (s : Store)
  : Store * outcome nat :=
  match detail_of_row row s with
  | Return (Some (k, d)) => (set_details (insert k d) s, Return (S n))
  | Return None => (s, Return n)
  | Raise e =>
      if caught_by [DoesNotExist; KeyError] e then (s, Return n) else (s, Raise e)
  end.

(** The row names a [claim_id] and no stored claim has it. *)
Definition orphan (row : CsvRow) (s : Store) : Prop :=
  exists v, row !! "claim_id" = Some v
            /\ forall k, v = Some k -> claims s !! k = None.

(** ** Flags *)

(** The triple that identifies a flag. *)
Definition flag_key (f : ClaimFlag) : string * nat * string :=
  (flag_claim f, flag_user f, flag_type f).

(** [unique_together = ('claim', 'user', 'flag_type')] *)
Definition flags_unique (l : list ClaimFlag) : Prop := NoDup (flag_key <$> l).

(** ** Whole imports *)

(** The [id] cell of a row: absent, [None] or a text. *)
Definition row_id (row : CsvRow) : option (option string) := row !! "id".

(** The claims the rows of a text stand for, in the order they are written,
    for each loader. *)
Definition Command_accepted (text : string) : list (string * Claim) :=
  accepted Command_caught (Command_claim_of_row <$> csv_DictReader text "|"%char).

Definition View_accepted (text : string) : list (string * Claim) :=
  accepted View_caught (View_claim_of_row <$> View_reader text).

(** The database the command's loaders start from. *)
Definition Command_start (options : Command.Options) (s : Store) : Store :=
  if String.eqb (Command.mode options) "overwrite"
  then {| claims := ∅; details := ∅; flags := []; uploads := uploads s |}
  else s.

(** The summary the command writes. *)
Definition Command_summary (options : Command.Options)
    (claims_count details_count : nat) : DataUpload :=
  {| upload_type :=
       if String.eqb (Command.mode options) "overwrite"
       then "overwrite" else "append";
     file_name :=
       basename (Command.claims_file options) +:+ ", "
         +:+ basename (Command.details_file options);
     records_processed := claims_count;
     upload_user := None;
     notes := "Claims: " +:+ pretty claims_count
                +:+ ", Details: " +:+ pretty details_count |}.

(** The summary the upload writes. *)
Definition View_summary (request : DataUploadView.Request)
    (claims_file details_file : DataUploadView.UploadedFile)
    (claims_count details_count : nat) : DataUpload :=
  {| upload_type := default "append" (DataUploadView.POST_mode request);
     file_name :=
       DataUploadView.name claims_file +:+ ", " +:+ DataUploadView.name details_file;
     records_processed := claims_count;
     upload_user := Some (DataUploadView.user request);
     notes := "Claims: " +:+ pretty claims_count
                +:+ ", Details: " +:+ pretty details_count |}.

(** ** Stored amounts *)

(** What field validation guarantees of the amounts of a stored claim. *)
Definition amounts_valid (c : Claim) : Prop :=
  0 <= billed_amount c /\ 0 <= paid_amount c.

Definition claims_valid (s : Store) : Prop :=
  forall k c, claims s !! k = Some c -> amounts_valid c.

(** ** Histories

    What can be asked of the application, and the database after a list of
    requests served in order. *)
Inductive request : Type :=
  | RunCommand (fs : Command.FileSystem) (options : Command.Options)
  | Upload (q : DataUploadView.Request)
  | AddFlag (q : ClaimViews.Request) (claim_id : string)
  | RemoveFlag (q : ClaimViews.Request) (flag_id : nat).

Definition serve (r : request) (s : Store) : Store :=
  match r with
  | RunCommand fs options => fst (Command.handle fs options s)
  | Upload q => fst (DataUploadView.post q s)
  | AddFlag q claim_id => fst (ClaimViews.add_flag_htmx q claim_id s)
  | RemoveFlag q flag_id => fst (ClaimViews.remove_flag_htmx q flag_id s)
  end.

Definition serve_all (rs : list request) (s : Store) : Store :=
  foldl (fun s r => serve r s) s rs.

(** ** Rows and columns *)

(** The columns both claims loaders read from a row. *)
Definition claim_columns : list string :=
  ["discharge_date"; "billed_amount"; "paid_amount"; "id"; "patient_name";
   "status"; "insurer_name"].

(** One of the six validated fields of the instance fails its field
    validation. *)
Definition field_refused (self : ClaimObj) : Prop :=
  CharField_clean 20 None (o_claim_id self) = None
  \/ CharField_clean 200 None (o_patient_name self) = None
  \/ DecimalField_clean (o_billed_amount self) = None
  \/ DecimalField_clean (o_paid_amount self) = None
  \/ CharField_clean 20 (Some STATUS_CHOICES) (o_status self) = None
  \/ CharField_clean 100 None (o_insurer_name self) = None.

(** ** What a database keeps of another *)

(** Every claim and every detail of [s] still has a row in [s'], and the
    flags are the same. *)
Definition kept (s s' : Store) : Prop :=
  (forall k, is_Some (claims s !! k) -> is_Some (claims s' !! k))
  /\ (forall k, is_Some (details s !! k) -> is_Some (details s' !! k))
  /\ flags s' = flags s.

(** Every detail and every flag belongs to a stored claim. *)
Definition refs_ok (s : Store) : Prop :=
  (forall k, is_Some (details s !! k) -> is_Some (claims s !! k))
  /\ (forall f, f ∈ flags s -> is_Some (claims s !! flag_claim f)).

(** ** Stored claims *)

(** Every stored claim, with its key, satisfies [P]. *)
Definition stored (P : string -> Claim -> Prop) (s : Store) : Prop :=
  forall k c, claims s !! k = Some c -> P k c.


(** What the field declarations of [Claim] demand of a stored row: the
    lengths of the text columns, the choices of [status] and amounts of at
    most twelve digits, two of them decimal places. *)
Definition fields_valid (k : string) (c : Claim) : Prop :=
  (k <> "" /\ (String.length k <= 20)%nat)
  /\ (patient_name c <> "" /\ (String.length (patient_name c) <= 200)%nat)
  /\ (0 <= billed_amount c < 10 ^ 12)
  /\ (0 <= paid_amount c < 10 ^ 12)
  /\ status c ∈ STATUS_CHOICES
  /\ (insurer_name c <> "" /\ (String.length (insurer_name c) <= 100)%nat).

(** ** Details loops *)

(** The details a list of rows writes, in order, until a row ends the
    loop; what a row stands for depends on the claims only. *)
Fixpoint details_written (rows : list CsvRow) (s : Store)
  : list (string * ClaimDetail) :=
  match rows with
  | [] => []
  | row :: rest =>
      match detail_of_row row s with
      | Return (Some kd) => kd :: details_written rest s
      | Return None => details_written rest s
      | Raise e => if caught_by [KeyError] e then details_written rest s else []
      end
  end.

(** The exception that ends a details loop, if any. *)
Fixpoint details_failure (rows : list CsvRow) (s : Store) : option exn :=
  match rows with
  | [] => None
  | row :: rest =>
      match detail_of_row row s with
      | Return _ => details_failure rest s
      | Raise e => if caught_by [KeyError] e then details_failure rest s else Some e
      end
  end.

(** Writing a list of details in order. *)
Definition write_details (l : list (string * ClaimDetail))
    (m : gmap string ClaimDetail) : gmap string ClaimDetail :=
  foldl (fun m kd => <[fst kd := snd kd]> m) m l.

(** ** Text *)

(** The number of occurrences of [c] in [s]. *)
Fixpoint count_char (c : ascii) (s : string) : nat :=
  match s with
  | EmptyString => 0%nat
  | String a rest => ((if Ascii.eqb a c then 1 else 0) + count_char c rest)%nat
  end.

End Specification.

(** ** Data for the scenarios *)

Definition LF : string := String "010" EmptyString.

(** The text of a file from its lines. *)
Definition file_of (l : list string) : string :=
  foldr (fun line acc => line +:+ LF +:+ acc) EmptyString l.

Definition claims_header : string :=
  "id|patient_name|billed_amount|paid_amount|status|insurer_name|discharge_date".

Definition details_header : string := "claim_id|denial_reason|cpt_codes".

Definition jane : Claim :=
  mkClaim "Jane Doe" 10000 6000 "Denied" "Acme" (mkdate 2024 1 1).

Definition john : Claim :=
  mkClaim "John Roe" 10000 6000 "Paid" "Acme" (mkdate 2024 1 2).

(** A database that holds the claim C1. *)
Definition jane_store : Store :=
  {| claims := {[ "C1" := jane ]}; details := ∅; flags := []; uploads := [] |}.

Definition jane_file : string :=
  file_of [claims_header; "C1|Jane Doe|100.00|60.00|Denied|Acme|2024-01-01"].

(** A details file with one row, for the claim C1. *)
Definition details_file_jane : string :=
  file_of [details_header; "C1|missing auth|99213,99214"].

(** A claims file whose first row has paid 80.00 over billed 50.00 and
    whose second row is valid. *)
Definition paid_over_billed_file : string :=
  file_of [claims_header;
           "C1|Jane Doe|50.00|80.00|Denied|Acme|2024-01-01";
           "C2|John Roe|100.00|60.00|Paid|Acme|2024-01-02"].

(** That file without its first row. *)
Definition valid_row_file : string :=
  file_of [claims_header; "C2|John Roe|100.00|60.00|Paid|Acme|2024-01-02"].

(** A claims file whose only row has paid 5.00 over billed 0.00. *)
Definition paid_over_zero_file : string :=
  file_of [claims_header; "C3|Ann Poe|0.00|5.00|Paid|Acme|2024-01-03"].

(** A comma-delimited claims file. *)
Definition comma_header : string :=
  "id,patient_name,billed_amount,paid_amount,status,insurer_name,discharge_date".

Definition comma_row : string := "C1,Jane Doe,100.00,60.00,Denied,Acme,2024-01-01".

Definition comma_file : string := file_of [comma_header; comma_row].


Definition jane_row : CsvRow :=
  list_to_map
    [("id", Some "C1"); ("patient_name", Some "Jane Doe");
     ("billed_amount", Some "100.00"); ("paid_amount", Some "60.00");
     ("status", Some "Denied"); ("insurer_name", Some "Acme");
     ("discharge_date", Some "2024-01-01")].

Definition jane_row_paid_80 : CsvRow := <["paid_amount" := Some "80.00"]> jane_row.

Definition john_row : CsvRow :=
  list_to_map
    [("id", Some "C2"); ("patient_name", Some "John Roe");
     ("billed_amount", Some "100.00"); ("paid_amount", Some "60.00");
     ("status", Some "Paid"); ("insurer_name", Some "Acme");
     ("discharge_date", Some "2024-01-02")].

Definition jane_paid_80 : Claim :=
  mkClaim "Jane Doe" 10000 8000 "Denied" "Acme" (mkdate 2024 1 1).

(** A complete details row. *)
Definition detail_row (claim_id reason codes : string) : CsvRow :=
  list_to_map
    [("claim_id", Some claim_id); ("denial_reason", Some reason);
     ("cpt_codes", Some codes)].


(** A claim billed 0.00 and paid 5.00. *)
Definition ann : Claim := mkClaim "Ann Poe" 0 500 "Paid" "Acme" (mkdate 2024 1 3).

(** The upload of [jane_file] with an empty details file, in append mode. *)
Definition jane_upload : DataUploadView.Request :=
  DataUploadView.mkRequest
    (Some (DataUploadView.mkFile "claims.csv" (Some jane_file)))
    (Some (DataUploadView.mkFile "details.csv" (Some (file_of [details_header]))))
    (Some "append") 7%nat.

(** A claims file whose only line is one field short. *)
Definition short_line_file : string :=
  file_of [claims_header; "C1|Jane Doe|100.00|60.00|Denied|Acme"].

Definition jane_row_short : CsvRow := <["discharge_date" := None]> jane_row.

(** The row of Jane Doe with a status that is not one of the choices, and
    with a billed amount that is not a number. *)
Definition jane_row_pending : CsvRow := <["status" := Some "Pending"]> jane_row.

Definition jane_row_no_amount : CsvRow := <["billed_amount" := Some "abc"]> jane_row.

(** A details row for C1 that is one field short. *)
Definition detail_row_short : CsvRow :=
  <["cpt_codes" := None]> (detail_row "C1" "missing auth" "").

(** A database with the claims C1 and C2 and an active flag of user 7 on
    C1. *)
Definition flagged_store : Store :=
  {| claims := <["C2" := john]> {[ "C1" := jane ]}; details := ∅;
     flags := [mkFlag "C1" 7 "urgent" "first look" true]; uploads := [] |}.

(** [int] for a text of decimal digits. *)
Definition plain_int (s : string) : option Z :=
  match s with
  | EmptyString => None
  | _ => number_of (list_ascii_of_string s)
  end.

(** * Properties *)

(** ** Derived properties of a claim *)







(** ** The dashboard totals *)




(** ** Delimiter detection *)

Lemma mem_char_In (c : ascii) (s : string) :
  mem_char c s = true <-> In c (list_ascii_of_string s).
Proof.
  induction s as [| a s IH]; simpl.
  - split; [discriminate | tauto].
  - rewrite orb_true_iff, IH, Ascii.eqb_eq. tauto.
Qed.

Lemma _detect_delimiter_pipe (first_line : string) :
  In "|"%char (list_ascii_of_string first_line) ->
  DataUploadView._detect_delimiter first_line = "|"%char.
Proof.
  intros Hin. apply mem_char_In in Hin.
  unfold DataUploadView._detect_delimiter. now rewrite Hin.
Qed.

Lemma _detect_delimiter_comma (first_line : string) :
  ~ In "|"%char (list_ascii_of_string first_line) ->
  DataUploadView._detect_delimiter first_line = ","%char.
Proof.
  intros Hin. unfold DataUploadView._detect_delimiter.
  destruct (mem_char "|" first_line) eqn:E; [| reflexivity].
  apply mem_char_In in E. contradiction.
Qed.

Lemma _detect_delimiter_spec (first_line : string) :
  DataUploadView._detect_delimiter first_line = delimiter_for first_line.
Proof.
  unfold delimiter_for. destruct (decide _) as [Hin | Hin].
  - apply _detect_delimiter_pipe. now apply list_elem_of_In.
  - apply _detect_delimiter_comma. now rewrite <- list_elem_of_In.
Qed.

Section Delimiter.
Context `{PyLib}.

(** C3 (as amended).  In the web upload, for the claims file and for the
    details file alike, the rows are read with the delimiter decided from
    the first line of the text: pipe when that line holds a pipe character,
    comma otherwise.  The management command reads both of its files with
    the pipe delimiter whatever the header line holds. *)
Theorem C3_delimiter_by_path (text first_line : string) (rest : list string) :
  splitlines text = first_line :: rest ->
  (forall name mode s,
      DataUploadView._process_claims_file
        (DataUploadView.mkFile name (Some text)) mode s
      = ((if String.eqb mode "overwrite" then Claim_objects_all_delete else ret tt) ;;
         DataUploadView._process_claims_loop
           (csv_DictReader text (delimiter_for first_line)) 0%nat) s)
  /\ (forall name s,
      DataUploadView._process_details_file
        (DataUploadView.mkFile name (Some text)) s
      = DataUploadView._process_details_loop
          (csv_DictReader text (delimiter_for first_line)) 0%nat s)
  /\ (forall (fs : Command.FileSystem) path s,
      fs !! path = Some (Some text) ->
      Command._load_claims fs path s
      = Command._load_claims_loop (csv_DictReader text "|"%char) 0%nat s
      /\ Command._load_claim_details fs path s
         = Command._load_claim_details_loop (csv_DictReader text "|"%char) 0%nat s).
Proof.
  intros Hlines. split; [| split].
  - intros name mode s.
    unfold DataUploadView._process_claims_file, DataUploadView.read_decode,
      bind, lift.
    simpl. destruct (String.eqb mode "overwrite"); simpl;
      rewrite Hlines, _detect_delimiter_spec; reflexivity.
  - intros name s.
    unfold DataUploadView._process_details_file, DataUploadView.read_decode,
      bind, lift.
    simpl. rewrite Hlines, _detect_delimiter_spec. reflexivity.
  - intros fs path s Hfs. split.
    + unfold Command._load_claims, Command.open_read, bind, lift.
      now rewrite Hfs.
    + unfold Command._load_claim_details, Command.open_read, bind, lift.
      now rewrite Hfs.
Qed.

End Delimiter.

(** ** What one claim row does *)

Lemma obind_Return {A B} (x : outcome A) (f : A -> outcome B) (b : B) :
  obind x f = Return b -> exists a, x = Return a /\ f a = Return b.
Proof. destruct x as [a | e]; simpl; [eauto | discriminate]. Qed.

Lemma CharField_clean_Some (n : nat) (choices : option (list string))
    (v : option string) (k : string) :
  CharField_clean n choices v = Some k -> v = Some k.
Proof.
  unfold CharField_clean. destruct v as [s |]; [| discriminate].
  destruct (String.eqb s ""); [discriminate |].
  destruct (n <? String.length s)%nat; [discriminate |].
  destruct choices as [cs |].
  - destruct (existsb (String.eqb s) cs); congruence.
  - congruence.
Qed.

Section RowSemantics.
Context `{PyLib}.

Lemma full_clean_key (v : option string) (d : ClaimDefaults) (k : string)
    (c : Claim) :
  full_clean (instance_of v d) = Return (k, c) -> v = Some k.
Proof.
  unfold full_clean. intros Hfc.
  apply obind_Return in Hfc as (_ & _ & Hfc). simpl in Hfc.
  destruct (CharField_clean 20 None v) as [k' |] eqn:Hk; [| discriminate].
  apply CharField_clean_Some in Hk.
  repeat match type of Hfc with
         | match ?x with _ => _ end = _ => destruct x; try discriminate
         end.
  congruence.
Qed.

(** [update_or_create] in one step: validate, write under the key, and
    report whether the key was new. *)
Lemma Claim_objects_update_or_create_eq (v : option string) (d : ClaimDefaults)
    (s : Store) :
  Claim_objects_update_or_create v d s
  = match full_clean (instance_of v d) with
    | Return kc => (upsert kc s, Return (fresh kc s))
    | Raise e => (s, Raise e)
    end.
Proof.
  unfold Claim_objects_update_or_create, Claim_save, bind, ret, upsert, fresh.
  destruct (full_clean (instance_of v d)) as [[k c] | e] eqn:Hfc.
  - pose proof (full_clean_key _ _ _ _ Hfc) as ->. simpl.
    destruct (claims s !! k) eqn:Hk; rewrite Hfc; reflexivity.
  - destruct v as [k |]; [destruct (claims s !! k) |]; now rewrite Hfc.
Qed.

Lemma _load_claims_row_eq (row : CsvRow) (s : Store) :
  Command._load_claims_row row s
  = match Command_claim_of_row row with
    | Return kc => (upsert kc s, Return (fresh kc s))
    | Raise e => (s, Raise e)
    end.
Proof.
  unfold Command._load_claims_row, Command_claim_of_row, bind, lift.
  do 3 (destruct (obind (getitem row _) _); simpl; try reflexivity).
  do 4 (destruct (getitem row _); simpl; try reflexivity).
  apply Claim_objects_update_or_create_eq.
Qed.

Lemma _process_claims_row_eq (row : CsvRow) (s : Store) :
  DataUploadView._process_claims_row row s
  = match View_claim_of_row row with
    | Return kc => (upsert kc s, Return tt)
    | Raise e => (s, Raise e)
    end.
Proof.
  unfold DataUploadView._process_claims_row, View_claim_of_row, bind, lift, ret.
  destruct (obind (getitem row _) _); simpl; try reflexivity.
  do 6 (destruct (getitem row _); simpl; try reflexivity).
  rewrite Claim_objects_update_or_create_eq.
  now destruct (full_clean _).
Qed.

End RowSemantics.

(** ** What a claims loop does *)

Section LoopSemantics.
Context `{PyLib}.

Lemma _load_claims_loop_run (rows : list CsvRow) (n : nat) (s : Store) :
  Command._load_claims_loop rows n s
  = run Command_caught false (Command_claim_of_row <$> rows) n s.
Proof.
  revert n s. induction rows as [| row rows IH]; intros n s; [reflexivity |].
  rewrite fmap_cons. cbn [Command._load_claims_loop run].
  unfold bind at 1, try_except, bind at 1.
  rewrite _load_claims_row_eq.
  unfold Command_caught.
  destruct (Command_claim_of_row row) as [kc | e]; cbn [bind ret].
  - apply IH.
  - destruct (caught_by _ e); [apply IH | reflexivity].
Qed.

Lemma _process_claims_loop_run (rows : list CsvRow) (n : nat) (s : Store) :
  DataUploadView._process_claims_loop rows n s
  = run View_caught true (View_claim_of_row <$> rows) n s.
Proof.
  revert n s. induction rows as [| row rows IH]; intros n s; [reflexivity |].
  rewrite fmap_cons. cbn [DataUploadView._process_claims_loop run].
  unfold bind at 1, try_except, bind at 1.
  rewrite _process_claims_row_eq.
  unfold View_caught.
  destruct (View_claim_of_row row) as [kc | e]; cbn [bind ret].
  - apply IH.
  - destruct (caught_by _ e); [apply IH | reflexivity].
Qed.

End LoopSemantics.

Lemma run_store caught every rs n s :
  fst (run caught every rs n s) = upsert_all (accepted caught rs) s.
Proof.
  revert n s. induction rs as [| [kc | e] rs IH]; intros n s; simpl.
  - reflexivity.
  - apply IH.
  - destruct (caught e); [apply IH | reflexivity].
Qed.

Lemma run_failure caught every rs n s e :
  failure caught rs = Some e -> snd (run caught every rs n s) = Raise e.
Proof.
  revert n s. induction rs as [| [kc | e'] rs IH]; intros n s; simpl.
  - discriminate.
  - apply IH.
  - destruct (caught e'); [apply IH |]. intros [= ->]. reflexivity.
Qed.

Lemma run_count_every caught rs n s :
  failure caught rs = None ->
  snd (run caught true rs n s) = Return (n + length (accepted caught rs))%nat.
Proof.
  revert n s. induction rs as [| [kc | e] rs IH]; intros n s; simpl.
  - intros _. f_equal. lia.
  - intros Hf. rewrite IH by exact Hf. f_equal. lia.
  - destruct (caught e); [apply IH | discriminate].
Qed.

Lemma run_count_created caught rs n s :
  failure caught rs = None ->
  snd (run caught false rs n s)
  = Return (n + created_count (accepted caught rs) s)%nat.
Proof.
  revert n s. induction rs as [| [kc | e] rs IH]; intros n s; simpl.
  - intros _. f_equal. lia.
  - intros Hf. rewrite IH by exact Hf. f_equal. destruct (fresh kc s); lia.
  - destruct (caught e); [apply IH | discriminate].
Qed.

Lemma run_Return_failure caught every rs n s s' n' :
  run caught every rs n s = (s', Return n') -> failure caught rs = None.
Proof.
  intros Hrun. destruct (failure caught rs) as [e |] eqn:Hf; [| reflexivity].
  apply (run_failure caught every rs n s) in Hf. rewrite Hrun in Hf. discriminate.
Qed.

Lemma run_Raise_failure caught every rs n s s' e :
  run caught every rs n s = (s', Raise e) -> failure caught rs = Some e.
Proof.
  intros Hrun. destruct (failure caught rs) as [e' |] eqn:Hf.
  - apply (run_failure caught every rs n s) in Hf. rewrite Hrun in Hf.
    simpl in Hf. congruence.
  - destruct every.
    + apply (run_count_every caught rs n s) in Hf. rewrite Hrun in Hf. discriminate.
    + apply (run_count_created caught rs n s) in Hf. rewrite Hrun in Hf.
      discriminate.
Qed.

(** ** Writing a list of claims *)

Lemma Store_eq (a b : Store) :
  claims a = claims b -> details a = details b -> flags a = flags b ->
  uploads a = uploads b -> a = b.
Proof. destruct a, b; simpl; congruence. Qed.

Lemma upsert_all_snoc l kc s :
  upsert_all (l ++ [kc]) s = upsert kc (upsert_all l s).
Proof. unfold upsert_all. now rewrite foldl_app. Qed.

Lemma upsert_all_frame l s :
  details (upsert_all l s) = details s
  /\ flags (upsert_all l s) = flags s
  /\ uploads (upsert_all l s) = uploads s.
Proof.
  revert s. induction l as [| kc l IH]; intros s; [easy |].
  change (upsert_all (kc :: l) s) with (upsert_all l (upsert kc s)).
  destruct (IH (upsert kc s)) as (-> & -> & ->). easy.
Qed.

Lemma upsert_all_claims l s :
  claims (upsert_all l s) = list_to_map (reverse l) ∪ claims s.
Proof.
  induction l as [| kc l IH] using rev_ind.
  - simpl. now rewrite (left_id_L ∅ (∪)).
  - rewrite upsert_all_snoc, reverse_snoc. simpl. rewrite IH.
    now rewrite insert_union_l.
Qed.

(** Writing the same list a second time changes nothing. *)
Lemma upsert_all_idemp l s : upsert_all l (upsert_all l s) = upsert_all l s.
Proof.
  apply Store_eq.
  - rewrite !upsert_all_claims. rewrite (assoc_L (∪)). f_equal.
    apply (idemp_L (∪)).
  - destruct (upsert_all_frame l (upsert_all l s)) as (-> & _). reflexivity.
  - destruct (upsert_all_frame l (upsert_all l s)) as (_ & -> & _). reflexivity.
  - destruct (upsert_all_frame l (upsert_all l s)) as (_ & _ & ->). reflexivity.
Qed.

Lemma upsert_all_present l s k :
  is_Some (claims s !! k) -> is_Some (claims (upsert_all l s) !! k).
Proof.
  intros [c Hc]. rewrite upsert_all_claims.
  destruct ((list_to_map (reverse l) : gmap string Claim) !! k) as [c' |] eqn:E.
  - exists c'. now apply lookup_union_Some_l.
  - exists c. rewrite lookup_union_r; assumption.
Qed.

Lemma upsert_all_written l s kc :
  kc ∈ l -> is_Some (claims (upsert_all l s) !! fst kc).
Proof.
  revert s. induction l as [| kc' l IH]; intros s Hin.
  - inversion Hin.
  - change (upsert_all (kc' :: l) s) with (upsert_all l (upsert kc' s)).
    apply elem_of_cons in Hin as [-> | Hin].
    + apply upsert_all_present. simpl. rewrite lookup_insert_eq. eauto.
    + now apply IH.
Qed.


Lemma created_count_present l s :
  (forall kc, kc ∈ l -> is_Some (claims s !! fst kc)) ->
  created_count l s = 0%nat.
Proof.
  revert s. induction l as [| kc l IH]; intros s Hall; [reflexivity |].
  simpl. unfold fresh.
  destruct (Hall kc) as [c Hc]; [apply elem_of_cons; now left |].
  rewrite bool_decide_eq_false_2 by congruence.
  rewrite IH; [reflexivity |].
  intros kc' Hin. simpl.
  destruct (decide (fst kc = fst kc')) as [-> | Hne].
  - rewrite lookup_insert_eq. eauto.
  - rewrite lookup_insert_ne by exact Hne. apply Hall, elem_of_cons. now right.
Qed.



(** The rows that create a claim are the growth of the table. *)
Lemma created_count_size l s :
  size (claims (upsert_all l s)) = (size (claims s) + created_count l s)%nat.
Proof.
  revert s. induction l as [| kc l IH]; intros s; simpl; [lia |].
  change (upsert_all (kc :: l) s) with (upsert_all l (upsert kc s)).
  rewrite IH. simpl. unfold fresh.
  destruct (claims s !! fst kc) as [c |] eqn:Hk.
  - rewrite bool_decide_eq_false_2 by congruence.
    assert (Hsz : size (<[fst kc := snd kc]> (claims s)) = size (claims s)).
    { rewrite <- (insert_delete_id (claims s) (fst kc) c) at 2 by exact Hk.
      rewrite <- (insert_delete_eq (claims s)).
      rewrite !map_size_insert_None by apply lookup_delete_eq. reflexivity. }
    rewrite Hsz. lia.
  - rewrite bool_decide_eq_true_2 by reflexivity.
    rewrite map_size_insert_None by exact Hk. lia.
Qed.

(** ** Importing the same claims twice *)

(** A second run over the same rows, started from the result of the first:
    the database stays as the first run left it, a completed run completes
    again and a run that ended in an exception ends in it again. *)
Lemma run_again_store caught every rs n m s :
  fst (run caught every rs m (fst (run caught every rs n s)))
  = fst (run caught every rs n s).
Proof. rewrite !run_store. apply upsert_all_idemp. Qed.

Lemma run_again_created caught rs n m s :
  snd (run caught false rs m (fst (run caught false rs n s)))
  = match snd (run caught false rs n s) with
    | Return _ => Return m
    | Raise e => Raise e
    end.
Proof.
  destruct (failure caught rs) as [e |] eqn:Hf.
  - now rewrite !(run_failure _ _ _ _ _ _ Hf).
  - rewrite !(run_count_created _ _ _ _ Hf), run_store.
    rewrite created_count_present; [f_equal; lia |].
    intros kc Hin. now apply upsert_all_written.
Qed.

Lemma run_again_every caught rs n s :
  snd (run caught true rs n (fst (run caught true rs n s)))
  = snd (run caught true rs n s).
Proof.
  destruct (failure caught rs) as [e |] eqn:Hf.
  - now rewrite !(run_failure _ _ _ _ _ _ Hf).
  - now rewrite !(run_count_every _ _ _ _ Hf).
Qed.

Section Loaders.
Context `{PyLib}.

Lemma _load_claims_eq (fs : Command.FileSystem) (path : string) (s : Store) :
  Command._load_claims fs path s
  = match Command.open_read fs path with
    | Return text =>
        run Command_caught false
          (Command_claim_of_row <$> csv_DictReader text "|"%char) 0%nat s
    | Raise e => (s, Raise e)
    end.
Proof.
  unfold Command._load_claims, bind, lift.
  destruct (Command.open_read fs path); [apply _load_claims_loop_run | reflexivity].
Qed.

Lemma _process_claims_file_eq (file : DataUploadView.UploadedFile)
    (mode : string) (s : Store) :
  DataUploadView._process_claims_file file mode s
  = let s0 := if String.eqb mode "overwrite"
              then fst (Claim_objects_all_delete s) else s in
    match DataUploadView.read_decode file with
    | Return text =>
        run View_caught true (View_claim_of_row <$> View_reader text) 0%nat s0
    | Raise e => (s0, Raise e)
    end.
Proof.
  unfold DataUploadView._process_claims_file, View_reader, bind, lift.
  destruct (String.eqb mode "overwrite"); simpl;
    (destruct (DataUploadView.read_decode file) as [text | e]; [| reflexivity];
     destruct (splitlines text); [reflexivity | apply _process_claims_loop_run]).
Qed.

End Loaders.

(** ** What one detail row does *)

Lemma detail_of_row_claims (row : CsvRow) (s t : Store) :
  claims s = claims t -> detail_of_row row s = detail_of_row row t.
Proof. unfold detail_of_row. now intros ->. Qed.

Lemma _load_claim_details_row_eq (row : CsvRow) (s : Store) :
  Command._load_claim_details_row row s
  = match detail_of_row row s with
    | Return (Some (k, d)) =>
        (set_details (insert k d) s,
         Return (Some (bool_decide (details s !! k = None))))
    | Return None => (s, Return None)
    | Raise e => (s, Raise e)
    end.
Proof.
  unfold Command._load_claim_details_row, detail_of_row, try_except, bind, lift,
    getitem, Claim_objects_get, ClaimDetail_objects_update_or_create, ret.
  destruct (row !! "claim_id") as [[k |] |]; simpl; try reflexivity.
  destruct (decide (is_Some (claims s !! k))); simpl; try reflexivity;
    destruct (dict_get row "cpt_codes" ""); reflexivity.
Qed.

Lemma _process_details_row_eq (row : CsvRow) (s : Store) :
  DataUploadView._process_details_row row s
  = match detail_of_row row s with
    | Return (Some (k, d)) => (set_details (insert k d) s, Return tt)
    | Return None => (s, Raise DoesNotExist)
    | Raise e => (s, Raise e)
    end.
Proof.
  unfold DataUploadView._process_details_row, detail_of_row, bind, lift,
    getitem, Claim_objects_get, ClaimDetail_objects_update_or_create, ret.
  destruct (row !! "claim_id") as [[k |] |]; simpl; try reflexivity.
  destruct (decide (is_Some (claims s !! k))); simpl; try reflexivity;
    destruct (dict_get row "cpt_codes" ""); reflexivity.
Qed.

Lemma _load_claim_details_loop_cons (row : CsvRow) (rows : list CsvRow)
    (n : nat) (s : Store) :
  Command._load_claim_details_loop (row :: rows) n s
  = match Command_details_step row n s with
    | (s', Return n') => Command._load_claim_details_loop rows n' s'
    | (s', Raise e) => (s', Raise e)
    end.
Proof.
  cbn [Command._load_claim_details_loop].
  unfold bind at 1, try_except, bind at 1, Command_details_step.
  rewrite _load_claim_details_row_eq.
  destruct (detail_of_row row s) as [[[k d] |] | e]; cbn [ret]; try reflexivity;
    destruct (caught_by [KeyError] e); reflexivity.
Qed.

Lemma _process_details_loop_cons (row : CsvRow) (rows : list CsvRow)
    (n : nat) (s : Store) :
  DataUploadView._process_details_loop (row :: rows) n s
  = match View_details_step row n s with
    | (s', Return n') => DataUploadView._process_details_loop rows n' s'
    | (s', Raise e) => (s', Raise e)
    end.
Proof.
  cbn [DataUploadView._process_details_loop].
  unfold bind at 1, try_except, bind at 1, View_details_step.
  rewrite _process_details_row_eq.
  destruct (detail_of_row row s) as [[[k d] |] | e]; cbn [ret]; try reflexivity;
    destruct (caught_by [DoesNotExist; KeyError] e); reflexivity.
Qed.

Lemma Command_details_step_frame row n s :
  claims (fst (Command_details_step row n s)) = claims s
  /\ flags (fst (Command_details_step row n s)) = flags s
  /\ uploads (fst (Command_details_step row n s)) = uploads s.
Proof.
  unfold Command_details_step.
  destruct (detail_of_row row s) as [[[k d] |] | e]; try easy.
  destruct (caught_by [KeyError] e); easy.
Qed.

Lemma View_details_step_frame row n s :
  claims (fst (View_details_step row n s)) = claims s
  /\ flags (fst (View_details_step row n s)) = flags s
  /\ uploads (fst (View_details_step row n s)) = uploads s.
Proof.
  unfold View_details_step.
  destruct (detail_of_row row s) as [[[k d] |] | e]; try easy.
  destruct (caught_by [DoesNotExist; KeyError] e); easy.
Qed.

(** Loading details never touches the claims, the flags or the uploads. *)
Lemma _load_claim_details_loop_frame rows n s :
  claims (fst (Command._load_claim_details_loop rows n s)) = claims s
  /\ flags (fst (Command._load_claim_details_loop rows n s)) = flags s
  /\ uploads (fst (Command._load_claim_details_loop rows n s)) = uploads s.
Proof.
  revert n s. induction rows as [| row rows IH]; intros n s; [easy |].
  rewrite _load_claim_details_loop_cons.
  pose proof (Command_details_step_frame row n s) as (Hc & Hf & Hu).
  destruct (Command_details_step row n s) as [s' [n' | e]]; simpl in *.
  - destruct (IH n' s') as (-> & -> & ->). easy.
  - easy.
Qed.

Lemma _process_details_loop_frame rows n s :
  claims (fst (DataUploadView._process_details_loop rows n s)) = claims s
  /\ flags (fst (DataUploadView._process_details_loop rows n s)) = flags s
  /\ uploads (fst (DataUploadView._process_details_loop rows n s)) = uploads s.
Proof.
  revert n s. induction rows as [| row rows IH]; intros n s; [easy |].
  rewrite _process_details_loop_cons.
  pose proof (View_details_step_frame row n s) as (Hc & Hf & Hu).
  destruct (View_details_step row n s) as [s' [n' | e]]; simpl in *.
  - destruct (IH n' s') as (-> & -> & ->). easy.
  - easy.
Qed.

(** ** Orphaned detail rows *)

Lemma orphan_detail_of_row row s : orphan row s -> detail_of_row row s = Return None.
Proof.
  intros (v & Hv & Hnone). unfold detail_of_row. rewrite Hv.
  destruct v as [k |]; [| reflexivity].
  destruct (decide (is_Some (claims s !! k))) as [[c Hc] | _]; [| reflexivity].
  rewrite (Hnone k eq_refl) in Hc. discriminate.
Qed.

Lemma orphan_claims row s t : claims s = claims t -> orphan row s -> orphan row t.
Proof. intros E (v & Hv & Hnone). exists v. now rewrite <- E. Qed.

(** C6.  A details row whose [claim_id] matches no stored claim, wherever
    it stands in the file, is passed over by both loaders: the run is the
    run of the file without that row, so no detail is written for it, no
    exception leaves the loop because of it, and the rows after it are
    processed as they would be without it. *)
Theorem C6_orphan_detail_row_is_skipped (pre post : list CsvRow) (row : CsvRow)
    (n : nat) (s : Store) :
  orphan row s ->
  Command._load_claim_details_loop (pre ++ row :: post) n s
  = Command._load_claim_details_loop (pre ++ post) n s
  /\ DataUploadView._process_details_loop (pre ++ row :: post) n s
     = DataUploadView._process_details_loop (pre ++ post) n s.
Proof.
  intros Horphan. split.
  - revert n s Horphan. induction pre as [| r pre IH]; intros n s Horphan.
    + simpl app. rewrite _load_claim_details_loop_cons.
      unfold Command_details_step. now rewrite orphan_detail_of_row.
    + simpl app. rewrite !_load_claim_details_loop_cons.
      pose proof (Command_details_step_frame r n s) as (Hc & _).
      destruct (Command_details_step r n s) as [s' [n' | e]]; [| reflexivity].
      apply IH. eapply orphan_claims; [symmetry; exact Hc | exact Horphan].
  - revert n s Horphan. induction pre as [| r pre IH]; intros n s Horphan.
    + simpl app. rewrite _process_details_loop_cons.
      unfold View_details_step. now rewrite orphan_detail_of_row.
    + simpl app. rewrite !_process_details_loop_cons.
      pose proof (View_details_step_frame r n s) as (Hc & _).
      destruct (View_details_step r n s) as [s' [n' | e]]; [| reflexivity].
      apply IH. eapply orphan_claims; [symmetry; exact Hc | exact Horphan].
Qed.

(** ** Flags *)

Lemma matching_from_nil i c u t l :
  (c, u, t) ∉ flag_key <$> l -> ClaimViews.matching_from i c u t l = [].
Proof.
  revert i. induction l as [| f l IH]; intros i Hnotin; [reflexivity |].
  rewrite fmap_cons in Hnotin. apply not_elem_of_cons in Hnotin as [Hne Hnotin].
  simpl. destruct (decide _) as [(Hc & Hu & Ht) | _].
  - exfalso. apply Hne. unfold flag_key. congruence.
  - now apply IH.
Qed.

Lemma matching_from_found i c u t l :
  (c, u, t) ∈ flag_key <$> l -> ClaimViews.matching_from i c u t l <> [].
Proof.
  revert i. induction l as [| f l IH]; intros i Hin.
  - inversion Hin.
  - rewrite fmap_cons in Hin. simpl. destruct (decide _) as [_ | Hno]; [easy |].
    apply elem_of_cons in Hin as [Hin | Hin].
    + exfalso. apply Hno. unfold flag_key in Hin. now inversion Hin.
    + now apply IH.
Qed.

Lemma matching_from_unique i c u t l pk f :
  flags_unique l -> l !! pk = Some f -> flag_key f = (c, u, t) ->
  ClaimViews.matching_from i c u t l = [((i + pk)%nat, f)].
Proof.
  unfold flags_unique. revert i pk.
  induction l as [| f0 l IH]; intros i pk Hnd Hpk Hkey; [discriminate |].
  rewrite fmap_cons in Hnd. apply NoDup_cons in Hnd as [Hnotin Hnd].
  simpl. destruct (decide _) as [(Hc & Hu & Ht) | Hno].
  - assert (Hk0 : flag_key f0 = (c, u, t)) by (unfold flag_key; congruence).
    destruct pk as [| j].
    + simpl in Hpk. injection Hpk as ->.
      rewrite matching_from_nil by (now rewrite <- Hk0).
      now rewrite Nat.add_0_r.
    + exfalso. apply Hnotin. rewrite Hk0, <- Hkey.
      apply list_elem_of_fmap_2. apply list_elem_of_lookup. now exists j.
  - destruct pk as [| j].
    + simpl in Hpk. injection Hpk as ->. exfalso. apply Hno.
      unfold flag_key in Hkey. now inversion Hkey.
    + simpl in Hpk. rewrite (IH (S i) j Hnd Hpk Hkey). do 2 f_equal. lia.
Qed.

Lemma flags_unique_snoc l f :
  flags_unique l -> flag_key f ∉ flag_key <$> l -> flags_unique (l ++ [f]).
Proof.
  unfold flags_unique. intros Hnd Hnotin. rewrite fmap_app. simpl.
  apply NoDup_app. split; [exact Hnd |]. split.
  - intros k Hk Hk'. apply list_elem_of_singleton in Hk'. now subst.
  - apply NoDup_singleton.
Qed.

Lemma flags_unique_assign l pk f a r :
  flags_unique l -> l !! pk = Some f ->
  flags_unique (<[pk := ClaimViews.assign f a r]> l).
Proof.
  unfold flags_unique. intros Hnd Hpk.
  rewrite list_fmap_insert.
  change (flag_key (ClaimViews.assign f a r)) with (flag_key f).
  rewrite list_insert_id; [exact Hnd |].
  now rewrite list_lookup_fmap, Hpk.
Qed.

Lemma matching_from_lookup i c u t l pk f :
  (pk, f) ∈ ClaimViews.matching_from i c u t l ->
  exists j, pk = (i + j)%nat /\ l !! j = Some f /\ flag_key f = (c, u, t).
Proof.
  revert i. induction l as [| f0 l IH]; intros i Hin.
  - inversion Hin.
  - simpl in Hin. destruct (decide _) as [(Hc & Hu & Ht) | _].
    + apply elem_of_cons in Hin as [Heq | Hin].
      * injection Heq as -> ->. exists 0%nat. repeat split; [lia |].
        unfold flag_key. congruence.
      * apply IH in Hin as (j & -> & Hj & Hk). exists (S j).
        repeat split; [lia | exact Hj | exact Hk].
    + apply IH in Hin as (j & -> & Hj & Hk). exists (S j).
      repeat split; [lia | exact Hj | exact Hk].
Qed.

(** Adding a flag keeps the triples distinct, whatever the request. *)
Lemma add_flag_htmx_unique request claim_id s :
  flags_unique (flags s) ->
  flags_unique (flags (fst (ClaimViews.add_flag_htmx request claim_id s))).
Proof.
  intros Hu. unfold ClaimViews.add_flag_htmx, get_claim_or_404, try_except,
    Claim_objects_get, bind, raise, ret.
  destruct (String.eqb (ClaimViews.method request) "POST");
    destruct (decide (is_Some (claims s !! claim_id))); simpl; try exact Hu.
  unfold ClaimViews.ClaimFlag_objects_get_or_create.
  set (t := default "review" (ClaimViews.POST_flag_type request)).
  set (u := ClaimViews.user request).
  destruct (ClaimViews.matching_from 0 claim_id u t (flags s))
    as [| [pk f] [| x rest]] eqn:Hm; simpl; try exact Hu.
  - apply flags_unique_snoc; [exact Hu |].
    intros Hin. apply (matching_from_found 0) in Hin. simpl in Hin. contradiction.
  - assert (Hin : (pk, f) ∈ ClaimViews.matching_from 0 claim_id u t (flags s))
      by (rewrite Hm; apply elem_of_cons; now left).
    apply matching_from_lookup in Hin as (j & -> & Hj & _).
    now apply flags_unique_assign.
Qed.

Lemma remove_flag_htmx_unique request flag_id s :
  flags_unique (flags s) ->
  flags_unique (flags (fst (ClaimViews.remove_flag_htmx request flag_id s))).
Proof.
  intros Hu. unfold ClaimViews.remove_flag_htmx.
  destruct (flags s !! flag_id) as [f |] eqn:Hf; [| exact Hu].
  destruct (decide _); [| exact Hu].
  simpl. now apply flags_unique_assign.
Qed.

(** A POST for a triple that already has a flag leaves the table as it was
    except for that one row, which is made active and given the reason of
    the request. *)
Lemma add_flag_htmx_again (request : ClaimViews.Request) (claim_id : string)
    (s : Store) (pk : nat) (f : ClaimFlag) :
  flags_unique (flags s) ->
  ClaimViews.method request = "POST" ->
  is_Some (claims s !! claim_id) ->
  flags s !! pk = Some f ->
  flag_key f = (claim_id, ClaimViews.user request,
                default "review" (ClaimViews.POST_flag_type request)) ->
  ClaimViews.add_flag_htmx request claim_id s
  = (set_flags
       (fun l => <[pk := ClaimViews.assign f true
                           (default "" (ClaimViews.POST_reason request))]> l)
       s,
     Return "claims/partials/notes_section.html").
Proof.
  intros Hu Hpost Hclaim Hpk Hkey.
  unfold ClaimViews.add_flag_htmx, get_claim_or_404, try_except,
    Claim_objects_get, bind, raise, ret.
  rewrite Hpost. simpl.
  destruct (decide (is_Some (claims s !! claim_id))); [| contradiction].
  unfold ClaimViews.ClaimFlag_objects_get_or_create.
  rewrite (matching_from_unique 0 _ _ _ _ pk f Hu Hpk Hkey). reflexivity.
Qed.

(** ** The two loaders on the same row *)

Lemma getitem_Return (row : CsvRow) (key : string) (v : option string) :
  getitem row key = Return v <-> row !! key = Some v.
Proof.
  unfold getitem. destruct (row !! key); split; intros E; congruence.
Qed.

Section Agreement.
Context `{PyLib}.

Lemma Decimal_Return (v : option string) (d : Dec) :
  Decimal v = Return d <-> exists s, v = Some s /\ Decimal_of_str s = Some d.
Proof.
  unfold Decimal. destruct v as [s |].
  - destruct (Decimal_of_str s) as [d' |] eqn:E; split.
    + intros [= ->]. eauto.
    + intros (s' & [= <-] & E'). congruence.
    + discriminate.
    + intros (s' & [= <-] & E'). congruence.
  - split; [discriminate | intros (s & E & _); discriminate].
Qed.

Lemma DecimalField_clean_raw (v : option string) (d : Dec) :
  DecimalField_clean (raw_cell v) = Some d ->
  exists s, v = Some s /\ Decimal_of_str s = Some d.
Proof.
  unfold DecimalField_clean, raw_cell. destruct v as [s |]; [| discriminate].
  destruct (Decimal_of_str s) as [d' |] eqn:E; [| discriminate].
  destruct (coef d' <? 0); [discriminate |].
  destruct (DecimalValidator 12 2 d'); [| discriminate].
  intros [= ->]. eauto.
Qed.

Lemma DecimalField_clean_parsed (s : string) (d : Dec) :
  Decimal_of_str s = Some d ->
  DecimalField_clean (PStr s) = DecimalField_clean (PDec d).
Proof. unfold DecimalField_clean. now intros ->. Qed.

Lemma DecimalField_clean_PDec (d d' : Dec) :
  DecimalField_clean (PDec d) = Some d' -> d' = d.
Proof.
  unfold DecimalField_clean.
  destruct (coef d <? 0); [discriminate |].
  destruct (DecimalValidator 12 2 d); congruence.
Qed.

(** A validated instance has both amounts valid. *)
Lemma full_clean_amounts (self : ClaimObj) (kc : string * Claim) :
  full_clean self = Return kc ->
  exists b p, DecimalField_clean (o_billed_amount self) = Some b
              /\ DecimalField_clean (o_paid_amount self) = Some p
              /\ billed_amount (snd kc) = to_cents b
              /\ paid_amount (snd kc) = to_cents p.
Proof.
  unfold full_clean. intros Hfc.
  apply obind_Return in Hfc as (_ & _ & Hfc).
  destruct (CharField_clean 20 None _); [| discriminate].
  destruct (CharField_clean 200 None _); [| discriminate].
  destruct (DecimalField_clean (o_billed_amount self)) as [b |]; [| discriminate].
  destruct (DecimalField_clean (o_paid_amount self)) as [p |]; [| discriminate].
  destruct (CharField_clean 20 (Some STATUS_CHOICES) _); [| discriminate].
  destruct (CharField_clean 100 None _); [| discriminate].
  injection Hfc as <-. exists b, p. repeat split; reflexivity.
Qed.

(** Validation gives the same result on the raw text of an amount and on
    the decimal it parses to, whenever it succeeds on either. *)
Lemma full_clean_raw_parsed (v : option string) (n st i : option string)
    (bs ps : string) (b p : Dec) (dd : date) (kc : string * Claim) :
  Decimal_of_str bs = Some b -> Decimal_of_str ps = Some p ->
  full_clean (instance_of v (mkDefaults n (PDec b) (PDec p) st i dd)) = Return kc
  <-> full_clean (instance_of v (mkDefaults n (PStr bs) (PStr ps) st i dd))
      = Return kc.
Proof.
  intros Hb Hp. unfold full_clean. simpl.
  rewrite (DecimalField_clean_parsed bs b Hb), (DecimalField_clean_parsed ps p Hp).
  destruct (DecimalField_clean (PDec b)) as [b' |] eqn:Eb;
    destruct (DecimalField_clean (PDec p)) as [p' |] eqn:Ep; simpl;
    try reflexivity.
  all: split; intros Hfc; apply obind_Return in Hfc as (_ & _ & Hfc);
    repeat match type of Hfc with
           | match ?x with _ => _ end = _ => destruct x; try discriminate
           end.
Qed.

(** The command and the upload accept the same rows, as the same claims. *)
Lemma claim_of_row_agree (row : CsvRow) (kc : string * Claim) :
  Command_claim_of_row row = Return kc <-> View_claim_of_row row = Return kc.
Proof.
  unfold Command_claim_of_row, View_claim_of_row. split; intros Hrow.
  - apply obind_Return in Hrow as (dd & -> & Hrow).
    apply obind_Return in Hrow as (b & Hb & Hrow).
    apply obind_Return in Hb as (vb & -> & Hb).
    apply obind_Return in Hrow as (p & Hp & Hrow).
    apply obind_Return in Hp as (vp & -> & Hp).
    apply obind_Return in Hrow as (id & -> & Hrow).
    apply obind_Return in Hrow as (n & -> & Hrow).
    apply obind_Return in Hrow as (st & -> & Hrow).
    apply obind_Return in Hrow as (i & -> & Hrow).
    apply Decimal_Return in Hb as (bs & -> & Hb).
    apply Decimal_Return in Hp as (ps & -> & Hp).
    simpl. now apply (full_clean_raw_parsed id n st i bs ps b p dd kc Hb Hp).
  - apply obind_Return in Hrow as (dd & -> & Hrow).
    apply obind_Return in Hrow as (id & -> & Hrow).
    apply obind_Return in Hrow as (n & -> & Hrow).
    apply obind_Return in Hrow as (vb & -> & Hrow).
    apply obind_Return in Hrow as (vp & -> & Hrow).
    apply obind_Return in Hrow as (st & -> & Hrow).
    apply obind_Return in Hrow as (i & -> & Hrow).
    destruct (full_clean_amounts _ _ Hrow) as (b & p & Hb & Hp & _).
    simpl in Hb, Hp.
    apply DecimalField_clean_raw in Hb as (bs & -> & Hb).
    apply DecimalField_clean_raw in Hp as (ps & -> & Hp).
    simpl. unfold Decimal. rewrite Hb, Hp. simpl.
    now apply (full_clean_raw_parsed id n st i bs ps b p dd kc Hb Hp).
Qed.

(** An accepted row is written under its own [id]. *)
Lemma Command_claim_of_row_id (row : CsvRow) (kc : string * Claim) :
  Command_claim_of_row row = Return kc -> row !! "id" = Some (Some (fst kc)).
Proof.
  unfold Command_claim_of_row. intros Hrow.
  apply obind_Return in Hrow as (dd & _ & Hrow).
  apply obind_Return in Hrow as (b & _ & Hrow).
  apply obind_Return in Hrow as (p & _ & Hrow).
  apply obind_Return in Hrow as (id & Hid & Hrow).
  apply obind_Return in Hrow as (n & _ & Hrow).
  apply obind_Return in Hrow as (st & _ & Hrow).
  apply obind_Return in Hrow as (i & _ & Hrow).
  destruct kc as [k c]. apply full_clean_key in Hrow as ->.
  now apply getitem_Return.
Qed.

Lemma View_claim_of_row_id (row : CsvRow) (kc : string * Claim) :
  View_claim_of_row row = Return kc -> row !! "id" = Some (Some (fst kc)).
Proof. intros Hrow. now apply Command_claim_of_row_id, claim_of_row_agree. Qed.

End Agreement.

(** ** Accepted rows and their ids *)

Section AcceptedIds.
Variable f : CsvRow -> outcome (string * Claim).
Hypothesis f_id : forall row kc, f row = Return kc -> row_id row = Some (Some (fst kc)).
Variable caught : exn -> bool.

Lemma accepted_ids (rows : list CsvRow) (k : string) :
  k ∈ (accepted caught (f <$> rows)).*1 -> Some (Some k) ∈ row_id <$> rows.
Proof.
  induction rows as [| row rows IH]; intros Hin; [inversion Hin |].
  rewrite !fmap_cons in *. cbn [accepted] in Hin.
  destruct (f row) as [kc | e] eqn:Hrow.
  - rewrite fmap_cons in Hin. apply elem_of_cons in Hin as [-> | Hin].
    + apply elem_of_cons. left. symmetry. now apply f_id.
    + apply elem_of_cons. right. now apply IH.
  - apply elem_of_cons. right. apply IH.
    destruct (caught e); [exact Hin | inversion Hin].
Qed.


End AcceptedIds.

Section Counts.
Context `{PyLib}.



End Counts.

(** ** The whole import *)

Section WholeImport.
Context `{PyLib}.

(** The loaders only ever write claims, and what they write on top of the
    table does not depend on the table. *)
Lemma _load_claims_store (fs : Command.FileSystem) (path : string) (s : Store) :
  fst (Command._load_claims fs path s)
  = match Command.open_read fs path with
    | Return text => upsert_all (Command_accepted text) s
    | Raise _ => s
    end.
Proof.
  rewrite _load_claims_eq. destruct (Command.open_read fs path); [| reflexivity].
  apply run_store.
Qed.

Lemma _load_claims_frame (fs : Command.FileSystem) (path : string) (s : Store) :
  details (fst (Command._load_claims fs path s)) = details s
  /\ flags (fst (Command._load_claims fs path s)) = flags s
  /\ uploads (fst (Command._load_claims fs path s)) = uploads s.
Proof.
  rewrite _load_claims_store. destruct (Command.open_read fs path); [| easy].
  apply upsert_all_frame.
Qed.

Lemma _load_claim_details_frame (fs : Command.FileSystem) (path : string)
    (s : Store) :
  claims (fst (Command._load_claim_details fs path s)) = claims s
  /\ flags (fst (Command._load_claim_details fs path s)) = flags s
  /\ uploads (fst (Command._load_claim_details fs path s)) = uploads s.
Proof.
  unfold Command._load_claim_details, bind, lift.
  destruct (Command.open_read fs path); [| easy].
  apply _load_claim_details_loop_frame.
Qed.

Lemma _process_details_file_frame (file : DataUploadView.UploadedFile)
    (s : Store) :
  claims (fst (DataUploadView._process_details_file file s)) = claims s
  /\ flags (fst (DataUploadView._process_details_file file s)) = flags s
  /\ uploads (fst (DataUploadView._process_details_file file s)) = uploads s.
Proof.
  unfold DataUploadView._process_details_file, bind, lift, ret.
  destruct (DataUploadView.read_decode file) as [text |]; [| easy].
  destruct (splitlines text); [easy |].
  apply _process_details_loop_frame.
Qed.

Lemma handle_body_eq (fs : Command.FileSystem) (options : Command.Options)
    (s : Store) :
  Command.handle_body fs options s
  = match Command._load_claims fs (Command.claims_file options)
            (Command_start options s) with
    | (s1, Return claims_count) =>
        match Command._load_claim_details fs (Command.details_file options) s1 with
        | (s2, Return details_count) =>
            (set_uploads (cons (Command_summary options claims_count details_count))
               s2, Return tt)
        | (s2, Raise e) => (s2, Raise e)
        end
    | (s1, Raise e) => (s1, Raise e)
    end.
Proof.
  unfold Command.handle_body, Command_start, Command_summary.
  unfold bind at 1.
  destruct (String.eqb (Command.mode options) "overwrite"); cbn [bind ret
    Claim_objects_all_delete ClaimDetail_objects_all_delete set_details claims
    details flags uploads];
    (unfold bind at 1;
     destruct (Command._load_claims _ _ _) as [s1 [cc | e]]; [| reflexivity];
     unfold bind at 1;
     destruct (Command._load_claim_details _ _ _) as [s2 [dc | e]]; reflexivity).
Qed.

Lemma handle_eq (fs : Command.FileSystem) (options : Command.Options)
    (s : Store) :
  Command.handle fs options s
  = if Command.path_exists fs (Command.claims_file options)
       && Command.path_exists fs (Command.details_file options)
    then match Command.handle_body fs options s with
         | (s', Return tt) => (s', Return tt)
         | (_, Raise _) => (s, Raise CommandError)
         end
    else (s, Raise CommandError).
Proof.
  unfold Command.handle, try_except_Exception, atomic, raise.
  destruct (Command.path_exists fs (Command.claims_file options)); [| reflexivity].
  destruct (Command.path_exists fs (Command.details_file options)); [| reflexivity].
  simpl. destruct (Command.handle_body fs options s) as [s' [[] | e]]; reflexivity.
Qed.


End WholeImport.

(** ** Atomicity *)

Section Atomicity.
Context `{PyLib}.





End Atomicity.

(** ** Overwrite mode *)



Section Overwrite.
Context `{PyLib}.

Lemma post_eq (request : DataUploadView.Request)
    (claims_file details_file : DataUploadView.UploadedFile) (s : Store) :
  DataUploadView.present (DataUploadView.FILES_claims_file request)
  = Some claims_file ->
  DataUploadView.present (DataUploadView.FILES_details_file request)
  = Some details_file ->
  DataUploadView.post request s
  = match DataUploadView._process_claims_file claims_file
            (default "append" (DataUploadView.POST_mode request)) s with
    | (s1, Return claims_count) =>
        match DataUploadView._process_details_file details_file s1 with
        | (s2, Return details_count) =>
            (set_uploads
               (cons (View_summary request claims_file details_file
                        claims_count details_count)) s2,
             Return (DataUploadView.success claims_count details_count))
        | (s2, Raise e) => (s2, Return (DataUploadView.error_uploading e))
        end
    | (s1, Raise e) => (s1, Return (DataUploadView.error_uploading e))
    end.
Proof.
  intros Hc Hd. unfold DataUploadView.post. rewrite Hc, Hd.
  unfold try_except_Exception, bind at 1.
  destruct (DataUploadView._process_claims_file _ _ s) as [s1 [cc | e]];
    [| reflexivity].
  unfold bind at 1.
  destruct (DataUploadView._process_details_file _ s1) as [s2 [dc | e]];
    reflexivity.
Qed.




End Overwrite.

(** ** Append mode, twice *)

Section Idempotence.
Context `{PyLib}.

Lemma upsert_all_claims_twice (l : list (string * Claim)) (s t : Store) :
  claims t = claims (upsert_all l s) ->
  claims (upsert_all l t) = claims t.
Proof.
  intros Ht. rewrite upsert_all_claims, Ht, upsert_all_claims.
  rewrite (assoc_L (∪)). f_equal. apply (idemp_L (∪)).
Qed.

(** What a call of [handle] leaves in the claim table: the table as it
    was, or the accepted rows of the claims file on top of the table the
    loaders started from. *)
Lemma handle_claims (fs : Command.FileSystem) (options : Command.Options)
    (t : Store) :
  fst (Command.handle fs options t) = t
  \/ exists text,
       Command.open_read fs (Command.claims_file options) = Return text
       /\ claims (fst (Command.handle fs options t))
          = claims (upsert_all (Command_accepted text) (Command_start options t)).
Proof.
  rewrite handle_eq.
  destruct (Command.path_exists _ _ && Command.path_exists _ _); [| now left].
  rewrite handle_body_eq, _load_claims_eq.
  destruct (Command.open_read fs (Command.claims_file options)) as [text | e];
    [| now left].
  pose proof (run_store Command_caught false
                (Command_claim_of_row <$> csv_DictReader text "|"%char) 0%nat
                (Command_start options t)) as Hs1.
  destruct (run Command_caught false _ 0%nat _) as [s1 [cc | e]]; [| now left].
  pose proof (_load_claim_details_frame fs (Command.details_file options) s1)
    as (Hc2 & _).
  destruct (Command._load_claim_details _ _ s1) as [s2 [dc | e]]; [| now left].
  right. exists text. split; [reflexivity |].
  simpl in *. rewrite Hc2, Hs1. reflexivity.
Qed.

Lemma handle_append_claims (fs : Command.FileSystem) (options : Command.Options)
    (t : Store) :
  Command.mode options <> "overwrite" ->
  fst (Command.handle fs options t) = t
  \/ exists text,
       Command.open_read fs (Command.claims_file options) = Return text
       /\ claims (fst (Command.handle fs options t))
          = claims (upsert_all (Command_accepted text) t).
Proof.
  intros Hmode.
  assert (Hstart : Command_start options t = t).
  { unfold Command_start. apply String.eqb_neq in Hmode. now rewrite Hmode. }
  destruct (handle_claims fs options t) as [E | (text & Ht & E)]; [now left |].
  right. exists text. now rewrite Hstart in E.
Qed.

Lemma handle_append_twice (fs : Command.FileSystem) (options : Command.Options)
    (s : Store) :
  Command.mode options <> "overwrite" ->
  claims (fst (Command.handle fs options (fst (Command.handle fs options s))))
  = claims (fst (Command.handle fs options s)).
Proof.
  intros Hmode.
  destruct (handle_append_claims fs options s Hmode) as [E | (text & Ht & Hs1)].
  - now rewrite !E.
  - destruct (handle_append_claims fs options (fst (Command.handle fs options s))
                Hmode) as [-> | (text' & Ht' & ->)]; [reflexivity |].
    assert (text' = text) as -> by congruence.
    now apply (upsert_all_claims_twice _ s).
Qed.

Lemma post_claims (request : DataUploadView.Request)
    (claims_file details_file : DataUploadView.UploadedFile) (s : Store) :
  DataUploadView.present (DataUploadView.FILES_claims_file request)
  = Some claims_file ->
  DataUploadView.present (DataUploadView.FILES_details_file request)
  = Some details_file ->
  claims (fst (DataUploadView.post request s))
  = claims (fst (DataUploadView._process_claims_file claims_file
                   (default "append" (DataUploadView.POST_mode request)) s)).
Proof.
  intros Hc Hd. rewrite (post_eq request claims_file details_file s Hc Hd).
  destruct (DataUploadView._process_claims_file _ _ s) as [s1 [cc | e]];
    [| reflexivity].
  pose proof (_process_details_file_frame details_file s1) as (Hc2 & _).
  destruct (DataUploadView._process_details_file _ s1) as [s2 [dc | e]];
    simpl in *; congruence.
Qed.

Lemma _process_claims_file_append_store (file : DataUploadView.UploadedFile)
    (mode : string) (s : Store) :
  mode <> "overwrite" ->
  fst (DataUploadView._process_claims_file file mode s)
  = match DataUploadView.read_decode file with
    | Return text => upsert_all (View_accepted text) s
    | Raise _ => s
    end.
Proof.
  intros Hmode. rewrite _process_claims_file_eq.
  apply String.eqb_neq in Hmode. rewrite Hmode. cbn zeta.
  destruct (DataUploadView.read_decode file); [apply run_store | reflexivity].
Qed.

Lemma post_append_twice (request : DataUploadView.Request) (s : Store) :
  default "append" (DataUploadView.POST_mode request) <> "overwrite" ->
  claims (fst (DataUploadView.post request (fst (DataUploadView.post request s))))
  = claims (fst (DataUploadView.post request s)).
Proof.
  intros Hmode.
  destruct (DataUploadView.present (DataUploadView.FILES_claims_file request))
    as [cf |] eqn:Hc;
    [destruct (DataUploadView.present (DataUploadView.FILES_details_file request))
       as [df |] eqn:Hd |].
  - pose proof (post_claims request cf df s Hc Hd) as Ht.
    rewrite _process_claims_file_append_store in Ht by exact Hmode.
    rewrite (post_claims request cf df (fst (DataUploadView.post request s)) Hc Hd).
    rewrite _process_claims_file_append_store by exact Hmode.
    destruct (DataUploadView.read_decode cf) as [text | e]; [| reflexivity].
    now apply (upsert_all_claims_twice _ s).
  - unfold DataUploadView.post. now rewrite Hc, Hd.
  - unfold DataUploadView.post. now rewrite Hc.
Qed.

(** C4.  Importing the same claims source a second time in append mode
    leaves the claims exactly as the first import left them (so the same
    number of claims with the same field values): the command's loader
    reports zero created claims on the second run when the first run
    completed and ends in the same exception when it did not; the upload's
    loader reports the same number of accepted rows; and at the level of
    the whole import, for the command and for the upload view alike, the
    claim table after two imports is the claim table after one. *)
Theorem C4_append_import_idempotent (fs : Command.FileSystem) (path : string)
    (file : DataUploadView.UploadedFile) (s : Store) :
  (let load := Command._load_claims fs path in
   fst (load (fst (load s))) = fst (load s)
   /\ snd (load (fst (load s)))
      = match snd (load s) with
        | Return _ => Return 0%nat
        | Raise e => Raise e
        end)
  /\ (forall mode, mode <> "overwrite" ->
      let load := DataUploadView._process_claims_file file mode in
      fst (load (fst (load s))) = fst (load s)
      /\ snd (load (fst (load s))) = snd (load s))
  /\ (forall options, Command.mode options <> "overwrite" ->
      claims (fst (Command.handle fs options (fst (Command.handle fs options s))))
      = claims (fst (Command.handle fs options s)))
  /\ (forall request,
      default "append" (DataUploadView.POST_mode request) <> "overwrite" ->
      claims (fst (DataUploadView.post request
                     (fst (DataUploadView.post request s))))
      = claims (fst (DataUploadView.post request s))).
Proof.
  split; [| split; [| split]].
  - cbn zeta. rewrite !_load_claims_eq.
    destruct (Command.open_read fs path) as [text | e]; [| easy].
    split; [apply run_again_store | apply run_again_created].
  - intros mode Hmode. cbn zeta. rewrite !_process_claims_file_eq.
    apply String.eqb_neq in Hmode. rewrite Hmode. cbn zeta.
    destruct (DataUploadView.read_decode file) as [text | e]; [| easy].
    split; [apply run_again_store | apply run_again_every].
  - intros options. apply handle_append_twice.
  - intros request. apply post_append_twice.
Qed.

End Idempotence.
(** ** The paid-over-billed check *)

Section PaidOverBilled.
Context `{PyLib}.

Lemma from_option_DecimalField_clean (d : Dec) :
  from_option PDec (PDec d) (DecimalField_clean (PDec d)) = PDec d.
Proof.
  destruct (DecimalField_clean (PDec d)) as [d' |] eqn:E; [| reflexivity].
  simpl. now rewrite (DecimalField_clean_PDec _ _ E).
Qed.

(** An instance whose paid amount exceeds a billed amount other than zero
    is refused with a [ValidationError], whatever its other fields hold. *)
Lemma full_clean_paid_over_billed (v n st i : option string) (b p : Dec)
    (dd : date) :
  Dgt p b = true -> coef b <> 0 -> coef p <> 0 ->
  full_clean (instance_of v (mkDefaults n (PDec b) (PDec p) st i dd))
  = Raise ValidationError.
Proof.
  intros Hgt Hb Hp. unfold full_clean. cbn [instance_of o_billed_amount
    o_paid_amount d_billed_amount d_paid_amount].
  rewrite !from_option_DecimalField_clean.
  unfold clean. cbn [o_paid_amount o_billed_amount truthy py_gt obind].
  apply Z.eqb_neq in Hb, Hp. rewrite Hb, Hp. cbn [negb andb]. now rewrite Hgt.
Qed.

(** With a billed amount of zero the comparison is never made. *)
Lemma clean_zero_billed (self : ClaimObj) (b : Dec) :
  o_billed_amount self = PDec b -> coef b = 0 -> clean self = Return tt.
Proof.
  intros Hb Hz. unfold clean. rewrite Hb. cbn [truthy]. rewrite Hz.
  now rewrite andb_false_r.
Qed.

(** The [ValidationError] is none of the exceptions the row handlers name,
    so the command's loop ends at such a row, leaving the rows after it
    unread. *)
Lemma _load_claims_loop_paid_over_billed (row : CsvRow) (rest : list CsvRow)
    (n : nat) (s : Store) (id name st ins : option string) (b p : Dec)
    (dd : date) :
  obind (getitem row "discharge_date") strptime = Return dd ->
  obind (getitem row "billed_amount") Decimal = Return b ->
  obind (getitem row "paid_amount") Decimal = Return p ->
  getitem row "id" = Return id ->
  getitem row "patient_name" = Return name ->
  getitem row "status" = Return st ->
  getitem row "insurer_name" = Return ins ->
  Dgt p b = true -> coef b <> 0 -> coef p <> 0 ->
  Command._load_claims_loop (row :: rest) n s = (s, Raise ValidationError).
Proof.
  intros Hdd Hb Hp Hid Hname Hst Hins Hgt Hbz Hpz.
  rewrite _load_claims_loop_run, fmap_cons. cbn [run].
  unfold Command_claim_of_row. rewrite Hdd, Hb, Hp, Hid, Hname, Hst, Hins.
  cbn [obind]. now rewrite full_clean_paid_over_billed.
Qed.

End PaidOverBilled.

(** ** Stored amounts are never negative *)

Lemma accepted_from (f : CsvRow -> outcome (string * Claim))
    (caught : exn -> bool) (rows : list CsvRow) (kc : string * Claim) :
  kc ∈ accepted caught (f <$> rows) -> exists row, f row = Return kc.
Proof.
  induction rows as [| row rows IH]; intros Hin; [inversion Hin |].
  rewrite fmap_cons in Hin. cbn [accepted] in Hin.
  destruct (f row) as [kc' | e] eqn:Hrow.
  - apply elem_of_cons in Hin as [-> | Hin]; [eauto | now apply IH].
  - destruct (caught e); [now apply IH | inversion Hin].
Qed.

Lemma upsert_all_lookup l s k c :
  claims (upsert_all l s) !! k = Some c -> claims s !! k = Some c \/ (k, c) ∈ l.
Proof.
  revert s. induction l as [| kc l IH]; intros s Hk; [now left |].
  change (upsert_all (kc :: l) s) with (upsert_all l (upsert kc s)) in Hk.
  apply IH in Hk as [Hk | Hk].
  - simpl in Hk. destruct (decide (fst kc = k)) as [<- | Hne].
    + rewrite lookup_insert_eq in Hk. injection Hk as <-.
      right. apply elem_of_cons. left. now destruct kc.
    + left. now rewrite lookup_insert_ne in Hk.
  - right. apply elem_of_cons. now right.
Qed.

Section StoredAmounts.
Context `{PyLib}.

Lemma DecimalField_clean_nonneg (v : pyval) (d : Dec) :
  DecimalField_clean v = Some d -> 0 <= to_cents d.
Proof.
  unfold DecimalField_clean.
  destruct (match v with PNone => None | PStr s => Decimal_of_str s
            | PDec d0 => Some d0 end) as [d' |]; [| discriminate].
  destruct (Z.ltb_spec (coef d') 0); [discriminate |].
  destruct (DecimalValidator 12 2 d'); [| discriminate].
  intros [= <-]. unfold to_cents.
  apply Z.mul_nonneg_nonneg; [assumption |]. apply Z.pow_nonneg. lia.
Qed.

Lemma full_clean_valid (self : ClaimObj) (kc : string * Claim) :
  full_clean self = Return kc -> amounts_valid (snd kc).
Proof.
  intros Hfc. destruct (full_clean_amounts _ _ Hfc) as (b & p & Hb & Hp & Eb & Ep).
  unfold amounts_valid. rewrite Eb, Ep.
  split; eapply DecimalField_clean_nonneg; eassumption.
Qed.

Lemma View_claim_of_row_valid (row : CsvRow) (kc : string * Claim) :
  View_claim_of_row row = Return kc -> amounts_valid (snd kc).
Proof.
  unfold View_claim_of_row. intros Hrow.
  do 7 (apply obind_Return in Hrow as (? & _ & Hrow)).
  now apply full_clean_valid in Hrow.
Qed.

Lemma Command_claim_of_row_valid (row : CsvRow) (kc : string * Claim) :
  Command_claim_of_row row = Return kc -> amounts_valid (snd kc).
Proof.
  intros Hrow. apply claim_of_row_agree in Hrow.
  now apply View_claim_of_row_valid in Hrow.
Qed.

Lemma upsert_all_valid (f : CsvRow -> outcome (string * Claim))
    (caught : exn -> bool) (rows : list CsvRow) (s : Store) :
  (forall row kc, f row = Return kc -> amounts_valid (snd kc)) ->
  claims_valid s ->
  claims_valid (upsert_all (accepted caught (f <$> rows)) s).
Proof.
  intros Hf Hs k c Hk. apply upsert_all_lookup in Hk as [Hk | Hin].
  - exact (Hs k c Hk).
  - apply accepted_from in Hin as (row & Hrow). exact (Hf row (k, c) Hrow).
Qed.

Lemma claims_valid_eq (s t : Store) :
  claims t = claims s -> claims_valid s -> claims_valid t.
Proof. intros E Hs k c Hk. rewrite E in Hk. exact (Hs k c Hk). Qed.

Lemma claims_valid_empty (s : Store) : claims s = ∅ -> claims_valid s.
Proof. intros E k c Hk. rewrite E, lookup_empty in Hk. discriminate. Qed.

Lemma handle_valid (fs : Command.FileSystem) (options : Command.Options)
    (s : Store) :
  claims_valid s -> claims_valid (fst (Command.handle fs options s)).
Proof.
  intros Hs. destruct (handle_claims fs options s) as [-> | (text & _ & E)];
    [exact Hs |].
  eapply claims_valid_eq; [exact E |].
  apply upsert_all_valid; [apply Command_claim_of_row_valid |].
  unfold Command_start. destruct (String.eqb _ _); [| exact Hs].
  now apply claims_valid_empty.
Qed.

Lemma post_valid (request : DataUploadView.Request) (s : Store) :
  claims_valid s -> claims_valid (fst (DataUploadView.post request s)).
Proof.
  intros Hs.
  destruct (DataUploadView.present (DataUploadView.FILES_claims_file request))
    as [cf |] eqn:Hc;
    [destruct (DataUploadView.present (DataUploadView.FILES_details_file request))
       as [df |] eqn:Hd |].
  - eapply claims_valid_eq; [exact (post_claims request cf df s Hc Hd) |].
    rewrite _process_claims_file_eq. cbn zeta.
    assert (Hs0 : claims_valid
                    (if String.eqb (default "append"
                                      (DataUploadView.POST_mode request))
                                   "overwrite"
                     then fst (Claim_objects_all_delete s) else s)).
    { destruct (String.eqb _ _); [now apply claims_valid_empty | exact Hs]. }
    destruct (DataUploadView.read_decode cf) as [text | e]; [| exact Hs0].
    rewrite run_store. now apply upsert_all_valid; [apply View_claim_of_row_valid |].
  - unfold DataUploadView.post. now rewrite Hc, Hd.
  - unfold DataUploadView.post. now rewrite Hc.
Qed.

End StoredAmounts.

(** ** Flags over a history *)

Section Histories.
Context `{PyLib}.

Lemma flags_unique_nil : flags_unique [].
Proof. unfold flags_unique. simpl. constructor. Qed.

(** An import leaves the flags alone or, in overwrite mode, deletes them
    all with the claims they belong to. *)
Lemma handle_flags (fs : Command.FileSystem) (options : Command.Options)
    (s : Store) :
  flags (fst (Command.handle fs options s)) = flags s
  \/ flags (fst (Command.handle fs options s)) = [].
Proof.
  rewrite handle_eq.
  destruct (Command.path_exists _ _ && Command.path_exists _ _); [| now left].
  rewrite handle_body_eq.
  pose proof (_load_claims_frame fs (Command.claims_file options)
                (Command_start options s)) as (_ & Hf1 & _).
  destruct (Command._load_claims _ _ _) as [s1 [cc | e]]; [| now left].
  pose proof (_load_claim_details_frame fs (Command.details_file options) s1)
    as (_ & Hf2 & _).
  destruct (Command._load_claim_details _ _ s1) as [s2 [dc | e]]; [| now left].
  simpl in *. rewrite Hf2, Hf1. unfold Command_start.
  destruct (String.eqb _ _); [now right | now left].
Qed.

Lemma _process_claims_file_flags (file : DataUploadView.UploadedFile)
    (mode : string) (s : Store) :
  flags (fst (DataUploadView._process_claims_file file mode s)) = flags s
  \/ flags (fst (DataUploadView._process_claims_file file mode s)) = [].
Proof.
  rewrite _process_claims_file_eq. cbn zeta.
  destruct (DataUploadView.read_decode file) as [text | e].
  - rewrite run_store.
    destruct (upsert_all_frame
                (accepted View_caught (View_claim_of_row <$> View_reader text))
                (if String.eqb mode "overwrite"
                 then fst (Claim_objects_all_delete s) else s)) as (_ & -> & _).
    destruct (String.eqb mode "overwrite"); [now right | now left].
  - destruct (String.eqb mode "overwrite"); [now right | now left].
Qed.

Lemma post_flags (request : DataUploadView.Request) (s : Store) :
  flags (fst (DataUploadView.post request s)) = flags s
  \/ flags (fst (DataUploadView.post request s)) = [].
Proof.
  destruct (DataUploadView.present (DataUploadView.FILES_claims_file request))
    as [cf |] eqn:Hc;
    [destruct (DataUploadView.present (DataUploadView.FILES_details_file request))
       as [df |] eqn:Hd |].
  - rewrite (post_eq request cf df s Hc Hd).
    pose proof (_process_claims_file_flags cf
                  (default "append" (DataUploadView.POST_mode request)) s) as Hf1.
    destruct (DataUploadView._process_claims_file _ _ s) as [s1 [cc | e]];
      [| exact Hf1].
    pose proof (_process_details_file_frame df s1) as (_ & Hf2 & _).
    destruct (DataUploadView._process_details_file df s1) as [s2 [dc | e]];
      simpl in *; rewrite Hf2; exact Hf1.
  - left. unfold DataUploadView.post. now rewrite Hc, Hd.
  - left. unfold DataUploadView.post. now rewrite Hc.
Qed.

Lemma serve_unique (r : request) (s : Store) :
  flags_unique (flags s) -> flags_unique (flags (serve r s)).
Proof.
  intros Hu. destruct r as [fs options | q | q claim_id | q flag_id]; simpl.
  - destruct (handle_flags fs options s) as [-> | ->];
      [exact Hu | apply flags_unique_nil].
  - destruct (post_flags q s) as [-> | ->]; [exact Hu | apply flags_unique_nil].
  - now apply add_flag_htmx_unique.
  - now apply remove_flag_htmx_unique.
Qed.

(** Whatever was asked of the application since the database was empty,
    no two flags share their (claim, user, flag type) triple. *)
Lemma serve_all_unique (rs : list request) :
  flags_unique (flags (serve_all rs empty_store)).
Proof.
  induction rs as [| r rs IH] using rev_ind.
  - apply flags_unique_nil.
  - unfold serve_all. rewrite foldl_app. simpl. now apply serve_unique.
Qed.

Lemma add_flag_htmx_claims request claim_id s :
  claims (fst (ClaimViews.add_flag_htmx request claim_id s)) = claims s.
Proof.
  unfold ClaimViews.add_flag_htmx, get_claim_or_404, try_except,
    Claim_objects_get, bind, raise, ret.
  destruct (String.eqb (ClaimViews.method request) "POST");
    destruct (decide (is_Some (claims s !! claim_id))); simpl; try reflexivity.
  unfold ClaimViews.ClaimFlag_objects_get_or_create.
  destruct (ClaimViews.matching_from _ _ _ _ _) as [| [pk f] [| x rest]];
    reflexivity.
Qed.

Lemma remove_flag_htmx_claims request flag_id s :
  claims (fst (ClaimViews.remove_flag_htmx request flag_id s)) = claims s.
Proof.
  unfold ClaimViews.remove_flag_htmx.
  destruct (flags s !! flag_id) as [f |]; [| reflexivity].
  destruct (decide _); reflexivity.
Qed.

Lemma serve_valid (r : request) (s : Store) :
  claims_valid s -> claims_valid (serve r s).
Proof.
  intros Hs. destruct r as [fs options | q | q claim_id | q flag_id]; simpl.
  - now apply handle_valid.
  - now apply post_valid.
  - eapply claims_valid_eq; [apply add_flag_htmx_claims | exact Hs].
  - eapply claims_valid_eq; [apply remove_flag_htmx_claims | exact Hs].
Qed.

(** Whatever was asked of the application since the database was empty,
    no stored claim has a negative billed or paid amount. *)
Lemma stored_amounts_valid (rs : list request) (k : string) (c : Claim) :
  claims (serve_all rs empty_store) !! k = Some c ->
  0 <= billed_amount c /\ 0 <= paid_amount c.
Proof.
  revert k c. change (claims_valid (serve_all rs empty_store)).
  induction rs as [| r rs IH] using rev_ind.
  - now apply claims_valid_empty.
  - unfold serve_all. rewrite foldl_app. simpl. now apply serve_valid.
Qed.

(** C9.  In every database the application can reach from the empty one,
    no two flags share their (claim, user, flag type) triple, and they still
    do not after [add_flag_htmx], whatever the request; a POST for a triple
    that already has a flag creates nothing: it leaves the table as it was
    except for that one row, which is made active and given the reason of
    the request. *)
Theorem C9_one_flag_per_triple (history : list request)
    (request : ClaimViews.Request) (claim_id : string) :
  let s := serve_all history empty_store in
  flags_unique (flags s)
  /\ flags_unique (flags (fst (ClaimViews.add_flag_htmx request claim_id s)))
  /\ (ClaimViews.method request = "POST" ->
      is_Some (claims s !! claim_id) ->
      forall pk f,
        flags s !! pk = Some f ->
        flag_key f = (claim_id, ClaimViews.user request,
                      default "review" (ClaimViews.POST_flag_type request)) ->
        ClaimViews.add_flag_htmx request claim_id s
        = (set_flags
             (fun l => <[pk := ClaimViews.assign f true
                                 (default "" (ClaimViews.POST_reason request))]> l)
             s,
           Return "claims/partials/notes_section.html")).
Proof.
  intros s. pose proof (serve_all_unique history) as Hu. fold s in Hu.
  split; [exact Hu |]. split; [now apply add_flag_htmx_unique |].
  intros Hpost Hclaim pk f Hpk Hkey. now apply add_flag_htmx_again.
Qed.

End Histories.

(** * Further properties *)

(** ** The derived properties of a claim, together *)

Lemma Qle_bool_trans_le (a b x : Q) :
  (a <= b)%Q -> Qle_bool b x = true -> Qle_bool a x = true.
Proof.
  intros Hab Hb. apply Qle_bool_iff. apply Qle_bool_iff in Hb.
  now apply Qle_trans with b.
Qed.

(** [is_underpaid] and the severity tier are two readings of the same
    percentage: a claim is underpaid exactly when its tier is ['medium'] or
    ['high']. *)
Theorem underpaid_iff_severity (c : Claim) :
  is_underpaid c = true
  <-> get_underpayment_severity c = "medium"
      \/ get_underpayment_severity c = "high".
Proof.
  unfold is_underpaid, get_underpayment_severity. cbv zeta.
  destruct (Qle_bool 80 (payment_percentage c)) eqn:E80.
  - assert (E95 : Qle_bool 95 (payment_percentage c) = true
                  \/ Qle_bool 95 (payment_percentage c) = false)
      by (destruct (Qle_bool 95 _); auto).
    simpl. split; [discriminate |].
    destruct E95 as [-> | ->]; intros [Hc | Hc]; discriminate.
  - assert (E95 : Qle_bool 95 (payment_percentage c) = false).
    { destruct (Qle_bool 95 (payment_percentage c)) eqn:E; [| reflexivity].
      rewrite <- E80. symmetry. eapply Qle_bool_trans_le; [| exact E].
      unfold Qle. simpl. lia. }
    rewrite E95. simpl. split; [| reflexivity]. intros _.
    destruct (Qle_bool 50 (payment_percentage c)); auto.
Qed.


(** With a billed amount of zero the percentage is 0 whatever was paid:
    the claim is underpaid with the tier ['high'], and at the same time
    fully paid as soon as the paid amount is not negative. *)
Theorem zero_billed_is_high (c : Claim) :
  billed_amount c = 0 ->
  (payment_percentage c == 0)%Q
  /\ get_underpayment_severity c = "high"
  /\ is_underpaid c = true
  /\ (0 <= paid_amount c -> is_fully_paid c = true).
Proof.
  intros Hb.
  assert (Hp : payment_percentage c = 0%Q).
  { unfold payment_percentage. rewrite Hb. reflexivity. }
  repeat split.
  - now rewrite Hp.
  - unfold get_underpayment_severity. rewrite Hp. reflexivity.
  - unfold is_underpaid. rewrite Hp. reflexivity.
  - intros Hpaid. unfold is_fully_paid. apply Z.leb_le. lia.
Qed.


(** ** What every stored claim satisfies *)

Lemma ndigits_fuel_pos (fuel : nat) (n : Z) : 1 <= ndigits_fuel fuel n.
Proof.
  revert n. induction fuel as [| f IH]; intros n; simpl; [lia |].
  destruct (n <? 10); [lia |]. specialize (IH (n / 10)). lia.
Qed.

Lemma ndigits_fuel_bound (fuel : nat) (n : Z) :
  0 <= n < 2 ^ Z.of_nat fuel -> n < 10 ^ ndigits_fuel fuel n.
Proof.
  revert n. induction fuel as [| f IH]; intros n Hn.
  - simpl in *. lia.
  - cbn [ndigits_fuel]. destruct (Z.ltb_spec n 10) as [Hlt | Hge]; [lia |].
    rewrite Nat2Z.inj_succ, Z.pow_succ_r in Hn by lia.
    assert (Hdiv : 0 <= n / 10 < 2 ^ Z.of_nat f).
    { split; [apply Z.div_pos; lia |].
      apply Z.div_lt_upper_bound; lia. }
    specialize (IH (n / 10) Hdiv).
    pose proof (ndigits_fuel_pos f (n / 10)) as Hpos.
    rewrite Z.pow_add_r by lia. change (10 ^ 1) with 10.
    pose proof (Z.div_mod n 10 ltac:(lia)) as Hdm.
    pose proof (Z.mod_pos_bound n 10 ltac:(lia)) as Hmod. lia.
Qed.

Lemma ndigits_bound (n : Z) : 0 <= n -> n < 10 ^ ndigits n.
Proof.
  intros Hn. unfold ndigits. apply ndigits_fuel_bound. split; [exact Hn |].
  rewrite Nat2Z.inj_add, Z2Nat.id by apply Z.log2_nonneg.
  destruct (Z.eq_dec n 0) as [-> | Hne]; [simpl; lia |].
  change (Z.of_nat 1) with 1. apply Z.log2_spec. lia.
Qed.

Lemma DecimalValidator_bound (d : Dec) :
  0 <= coef d -> DecimalValidator 12 2 d = true -> to_cents d < 10 ^ 12.
Proof.
  intros Hc Hv. unfold DecimalValidator in Hv. cbv zeta in Hv.
  apply andb_prop in Hv as [Hv Hw]. apply andb_prop in Hv as [Hd Hp].
  apply negb_true_iff, Z.ltb_ge in Hd, Hp, Hw.
  rewrite Z.abs_eq in * by exact Hc.
  pose proof (ndigits_bound (coef d) Hc) as Hlen.
  pose proof (ndigits_fuel_pos (Z.to_nat (Z.log2 (coef d)) + 1) (coef d)) as Hpos.
  fold (ndigits (coef d)) in Hpos.
  unfold to_cents.
  destruct (Z.eq_dec (coef d) 0) as [E0 | Hne]; [rewrite E0; lia |].
  assert (He : 0 <= dexp d + 2 /\ ndigits (coef d) + (dexp d + 2) <= 12).
  { destruct (Z.leb_spec 0 (dexp d)) as [Hpe | Hne'].
    - destruct (Z.eqb_spec (coef d) 0); lia.
    - destruct (Z.ltb_spec (ndigits (coef d)) (Z.abs (dexp d))); lia. }
  destruct He as (He1 & He2).
  apply Z.lt_le_trans with (10 ^ ndigits (coef d) * 10 ^ (dexp d + 2)).
  - apply Z.mul_lt_mono_pos_r; [apply Z.pow_pos_nonneg; lia | exact Hlen].
  - rewrite <- Z.pow_add_r by lia. apply Z.pow_le_mono_r; lia.
Qed.

Lemma CharField_clean_spec (n : nat) (choices : option (list string))
    (v : option string) (x : string) :
  CharField_clean n choices v = Some x ->
  x <> "" /\ (String.length x <= n)%nat
  /\ (forall cs, choices = Some cs -> x ∈ cs).
Proof.
  unfold CharField_clean. destruct v as [y |]; [| discriminate].
  destruct (String.eqb_spec y "") as [| Hne]; [discriminate |].
  destruct (Nat.ltb_spec n (String.length y)); [discriminate |].
  destruct choices as [cs |].
  - destruct (existsb (String.eqb y) cs) eqn:Hex; [| discriminate].
    intros [= <-]. repeat split; [exact Hne | lia |].
    intros cs' [= <-]. apply existsb_exists in Hex as (z & Hz & Ez).
    apply String.eqb_eq in Ez as ->. now apply list_elem_of_In.
  - intros [= <-]. repeat split; [exact Hne | lia | discriminate].
Qed.

Section StoredClaims.
Context `{PyLib}.

Lemma DecimalField_clean_range (v : pyval) (d : Dec) :
  DecimalField_clean v = Some d -> 0 <= to_cents d < 10 ^ 12.
Proof.
  intros Hd. split; [eapply DecimalField_clean_nonneg, Hd |].
  unfold DecimalField_clean in Hd.
  destruct (match v with PNone => None | PStr s => Decimal_of_str s
            | PDec d0 => Some d0 end) as [d' |]; [| discriminate].
  destruct (Z.ltb_spec (coef d') 0); [discriminate |].
  destruct (DecimalValidator 12 2 d') eqn:Hv; [| discriminate].
  injection Hd as <-. now apply DecimalValidator_bound.
Qed.

Lemma full_clean_fields (self : ClaimObj) (kc : string * Claim) :
  full_clean self = Return kc -> fields_valid (fst kc) (snd kc).
Proof.
  intros Hfc. unfold full_clean in Hfc. cbv zeta in Hfc.
  apply obind_Return in Hfc as ([] & _ & Hfc).
  destruct (CharField_clean 20 None (o_claim_id self)) as [k |] eqn:Hk;
    [| discriminate].
  destruct (CharField_clean 200 None (o_patient_name self)) as [n |] eqn:Hn;
    [| discriminate].
  destruct (DecimalField_clean (o_billed_amount self)) as [b |] eqn:Hb;
    [| discriminate].
  destruct (DecimalField_clean (o_paid_amount self)) as [p |] eqn:Hp;
    [| discriminate].
  destruct (CharField_clean 20 (Some STATUS_CHOICES) (o_status self)) as [st |]
    eqn:Hst; [| discriminate].
  destruct (CharField_clean 100 None (o_insurer_name self)) as [i |] eqn:Hi;
    [| discriminate].
  injection Hfc as <-. unfold fields_valid. cbn.
  apply CharField_clean_spec in Hk as (? & ? & _), Hn as (? & ? & _),
    Hi as (? & ? & _), Hst as (_ & _ & Hst).
  apply DecimalField_clean_range in Hb, Hp.
  repeat split; try assumption; try apply Hb; try apply Hp. now apply Hst.
Qed.




Lemma View_claim_of_row_full_clean (row : CsvRow) (kc : string * Claim) :
  View_claim_of_row row = Return kc -> exists self, full_clean self = Return kc.
Proof.
  unfold View_claim_of_row. intros Hrow.
  do 7 (apply obind_Return in Hrow as (? & _ & Hrow)). eauto.
Qed.

Lemma Command_claim_of_row_full_clean (row : CsvRow) (kc : string * Claim) :
  Command_claim_of_row row = Return kc -> exists self, full_clean self = Return kc.
Proof.
  unfold Command_claim_of_row. intros Hrow.
  do 7 (apply obind_Return in Hrow as (? & _ & Hrow)). eauto.
Qed.


Variable P : string -> Claim -> Prop.
Hypothesis full_clean_P :
  forall self kc, full_clean self = Return kc -> P (fst kc) (snd kc).

Lemma upsert_all_stored (f : CsvRow -> outcome (string * Claim))
    (caught : exn -> bool) (rows : list CsvRow) (s : Store) :
  (forall row kc, f row = Return kc -> exists self, full_clean self = Return kc) ->
  stored P s -> stored P (upsert_all (accepted caught (f <$> rows)) s).
Proof.
  intros Hf Hs k c Hk. apply upsert_all_lookup in Hk as [Hk | Hin].
  - exact (Hs k c Hk).
  - apply accepted_from in Hin as (row & Hrow).
    destruct (Hf row (k, c) Hrow) as (self & Hself).
    exact (full_clean_P self (k, c) Hself).
Qed.

Lemma stored_eq (s t : Store) : claims t = claims s -> stored P s -> stored P t.
Proof. intros E Hs k c Hk. rewrite E in Hk. exact (Hs k c Hk). Qed.

Lemma stored_empty (s : Store) : claims s = ∅ -> stored P s.
Proof. intros E k c Hk. rewrite E, lookup_empty in Hk. discriminate. Qed.

Lemma handle_stored (fs : Command.FileSystem) (options : Command.Options)
    (s : Store) :
  stored P s -> stored P (fst (Command.handle fs options s)).
Proof.
  intros Hs. destruct (handle_claims fs options s) as [-> | (text & _ & E)];
    [exact Hs |].
  eapply stored_eq; [exact E |].
  apply upsert_all_stored; [apply Command_claim_of_row_full_clean |].
  unfold Command_start. destruct (String.eqb _ _); [| exact Hs].
  now apply stored_empty.
Qed.

Lemma post_stored (request : DataUploadView.Request) (s : Store) :
  stored P s -> stored P (fst (DataUploadView.post request s)).
Proof.
  intros Hs.
  destruct (DataUploadView.present (DataUploadView.FILES_claims_file request))
    as [cf |] eqn:Hc;
    [destruct (DataUploadView.present (DataUploadView.FILES_details_file request))
       as [df |] eqn:Hd |].
  - eapply stored_eq; [exact (post_claims request cf df s Hc Hd) |].
    rewrite _process_claims_file_eq. cbn zeta.
    assert (Hs0 : stored P
                    (if String.eqb (default "append"
                                      (DataUploadView.POST_mode request))
                                   "overwrite"
                     then fst (Claim_objects_all_delete s) else s)).
    { destruct (String.eqb _ _); [now apply stored_empty | exact Hs]. }
    destruct (DataUploadView.read_decode cf) as [text | e]; [| exact Hs0].
    rewrite run_store.
    now apply upsert_all_stored; [apply View_claim_of_row_full_clean |].
  - unfold DataUploadView.post. now rewrite Hc, Hd.
  - unfold DataUploadView.post. now rewrite Hc.
Qed.

Lemma serve_stored (r : request) (s : Store) : stored P s -> stored P (serve r s).
Proof.
  intros Hs. destruct r as [fs options | q | q claim_id | q flag_id]; simpl.
  - now apply handle_stored.
  - now apply post_stored.
  - eapply stored_eq; [apply add_flag_htmx_claims | exact Hs].
  - eapply stored_eq; [apply remove_flag_htmx_claims | exact Hs].
Qed.

Lemma serve_all_stored (rs : list request) : stored P (serve_all rs empty_store).
Proof.
  induction rs as [| r rs IH] using rev_ind.
  - now apply stored_empty.
  - unfold serve_all. rewrite foldl_app. simpl. now apply serve_stored.
Qed.

End StoredClaims.



Section ReachableStores.
Context `{PyLib}.


(** Whatever was asked of the application since the database was empty,
    every stored claim satisfies the field declarations of the model: its
    [claim_id], patient name and insurer name are not empty and within their
    [max_length], its status is one of [STATUS_CHOICES], and both amounts
    are from 0.00 up to 9999999999.99. *)
Theorem stored_fields_valid (history : list request) (k : string) (c : Claim) :
  claims (serve_all history empty_store) !! k = Some c ->
  (k <> "" /\ (String.length k <= 20)%nat)
  /\ (patient_name c <> "" /\ (String.length (patient_name c) <= 200)%nat)
  /\ (0 <= billed_amount c < 10 ^ 12)
  /\ (0 <= paid_amount c < 10 ^ 12)
  /\ status c ∈ STATUS_CHOICES
  /\ (insurer_name c <> "" /\ (String.length (insurer_name c) <= 100)%nat).
Proof.
  intros Hk.
  exact (serve_all_stored fields_valid full_clean_fields history k c Hk).
Qed.


(** An overwrite import deletes every flag with the claims, also the
    flags of claims the source brings back under the same [claim_id]: the
    command when it succeeds, the upload as soon as both files are there,
    whether the import then succeeds or not. *)
Theorem overwrite_import_drops_flags (s : Store) :
  (forall fs options s',
      Command.mode options = "overwrite" ->
      Command.handle fs options s = (s', Return tt) ->
      flags s' = [])
  /\ (forall request claims_file details_file,
      DataUploadView.POST_mode request = Some "overwrite" ->
      DataUploadView.present (DataUploadView.FILES_claims_file request)
      = Some claims_file ->
      DataUploadView.present (DataUploadView.FILES_details_file request)
      = Some details_file ->
      flags (fst (DataUploadView.post request s)) = []).
Proof.
  split.
  - intros fs options s' Hmode Hrun. rewrite handle_eq in Hrun.
    destruct (Command.path_exists _ _ && Command.path_exists _ _);
      [| discriminate].
    rewrite handle_body_eq in Hrun.
    pose proof (_load_claims_frame fs (Command.claims_file options)
                  (Command_start options s)) as (_ & Hf1 & _).
    destruct (Command._load_claims _ _ _) as [s1 [cc | e]]; [| discriminate].
    pose proof (_load_claim_details_frame fs (Command.details_file options) s1)
      as (_ & Hf2 & _).
    destruct (Command._load_claim_details _ _ s1) as [s2 [dc | e]];
      [| discriminate].
    injection Hrun as <-. cbn [fst] in *. simpl. rewrite Hf2, Hf1.
    unfold Command_start. now rewrite Hmode.
  - intros request cf df Hmode Hc Hd.
    rewrite (post_eq request cf df s Hc Hd), Hmode. cbn [default from_option id].
    assert (Hf1 : flags (fst (DataUploadView._process_claims_file cf "overwrite"
                                s)) = []).
    { rewrite _process_claims_file_eq. cbn zeta. rewrite String.eqb_refl.
      destruct (DataUploadView.read_decode cf) as [text | e]; [| reflexivity].
      rewrite run_store.
      now destruct (upsert_all_frame
                      (accepted View_caught
                         (View_claim_of_row <$> View_reader text))
                      (fst (Claim_objects_all_delete s))) as (_ & -> & _). }
    destruct (DataUploadView._process_claims_file cf "overwrite" s)
      as [s1 [cc | e]]; [| exact Hf1].
    pose proof (_process_details_file_frame df s1) as (_ & Hf2 & _).
    destruct (DataUploadView._process_details_file df s1) as [s2 [dc | e]];
      cbn [fst] in *; simpl; now rewrite Hf2.
Qed.

End ReachableStores.


(** ** Details and flags belong to stored claims *)

(** What the two flag views do to the tables. *)
Lemma add_flag_htmx_cases (request : ClaimViews.Request) (claim_id : string)
    (s : Store) :
  let s' := fst (ClaimViews.add_flag_htmx request claim_id s) in
  let t := default "review" (ClaimViews.POST_flag_type request) in
  let r := default "" (ClaimViews.POST_reason request) in
  claims s' = claims s /\ details s' = details s /\ uploads s' = uploads s
  /\ (flags s' = flags s
      \/ (ClaimViews.method request = "POST" /\ is_Some (claims s !! claim_id)
          /\ ((claim_id, ClaimViews.user request, t) ∉ flag_key <$> flags s)
          /\ flags s' = (flags s ++ [mkFlag claim_id (ClaimViews.user request)
                                       t r true])%list)
      \/ (ClaimViews.method request = "POST" /\ is_Some (claims s !! claim_id)
          /\ exists pk f,
               flags s !! pk = Some f
               /\ flag_key f = (claim_id, ClaimViews.user request, t)
               /\ flags s' = <[pk := ClaimViews.assign f true r]> (flags s))).
Proof.
  cbv zeta.
  unfold ClaimViews.add_flag_htmx, get_claim_or_404, try_except,
    Claim_objects_get, bind, raise, ret.
  destruct (String.eqb_spec (ClaimViews.method request) "POST") as [Hm | Hm];
    destruct (decide (is_Some (claims s !! claim_id))) as [Hc | Hc]; simpl;
    try (repeat split; try reflexivity; now left).
  unfold ClaimViews.ClaimFlag_objects_get_or_create.
  destruct (ClaimViews.matching_from 0 claim_id (ClaimViews.user request)
              (default "review" (ClaimViews.POST_flag_type request)) (flags s))
    as [| [pk f] [| x rest]] eqn:Hmatch; simpl;
    (repeat split; try reflexivity).
  - right. left. repeat split; try assumption.
    intros Hin. apply (matching_from_found 0) in Hin. contradiction.
  - right. right. repeat split; try assumption.
    assert (Hin : (pk, f) ∈ ClaimViews.matching_from 0 claim_id
                    (ClaimViews.user request)
                    (default "review" (ClaimViews.POST_flag_type request))
                    (flags s))
      by (rewrite Hmatch; apply elem_of_cons; now left).
    apply matching_from_lookup in Hin as (j & -> & Hj & Hk).
    exists j, f. repeat split; assumption.
  - now left.
Qed.

Lemma remove_flag_htmx_cases (request : ClaimViews.Request) (flag_id : nat)
    (s : Store) :
  let s' := fst (ClaimViews.remove_flag_htmx request flag_id s) in
  claims s' = claims s /\ details s' = details s /\ uploads s' = uploads s
  /\ (flags s' = flags s
      \/ exists f, flags s !! flag_id = Some f
                   /\ flag_user f = ClaimViews.user request
                   /\ flags s' = <[flag_id := ClaimViews.assign f false (reason f)]>
                                   (flags s)).
Proof.
  cbv zeta. unfold ClaimViews.remove_flag_htmx.
  destruct (flags s !! flag_id) as [f |] eqn:Hf;
    [| repeat split; now left].
  destruct (decide _) as [Hu | Hu]; simpl; [| repeat split; now left].
  repeat split. right. exists f. repeat split; assumption.
Qed.

Section References.
Context `{PyLib}.

Lemma refs_ok_claims_grow (s t : Store) :
  refs_ok s ->
  (forall k, is_Some (claims s !! k) -> is_Some (claims t !! k)) ->
  details t = details s -> flags t = flags s -> refs_ok t.
Proof.
  intros (Hd & Hf) Hgrow Ed Ef. split.
  - intros k Hk. rewrite Ed in Hk. auto.
  - intros f Hin. rewrite Ef in Hin. auto.
Qed.

Lemma refs_ok_purged (u : list DataUpload) :
  refs_ok {| claims := ∅; details := ∅; flags := []; uploads := u |}.
Proof.
  split; simpl.
  - intros k Hk. rewrite lookup_empty in Hk. now destruct Hk.
  - intros f Hin. inversion Hin.
Qed.

Lemma refs_ok_uploads (f : list DataUpload -> list DataUpload) (s : Store) :
  refs_ok s -> refs_ok (set_uploads f s).
Proof. intros Hs. exact Hs. Qed.

Lemma refs_ok_upsert_all l s : refs_ok s -> refs_ok (upsert_all l s).
Proof.
  intros Hs. destruct (upsert_all_frame l s) as (Ed & Ef & _).
  eapply refs_ok_claims_grow; [exact Hs | | exact Ed | exact Ef].
  intros k. apply upsert_all_present.
Qed.

Lemma refs_ok_detail (k : string) (d : ClaimDetail) (s : Store) :
  refs_ok s -> is_Some (claims s !! k) -> refs_ok (set_details (insert k d) s).
Proof.
  intros (Hd & Hf) Hk. split; simpl; [| exact Hf].
  intros k' Hk'. destruct (decide (k = k')) as [<- | Hne]; [exact Hk |].
  rewrite lookup_insert_ne in Hk' by exact Hne. auto.
Qed.

Lemma detail_of_row_stored (row : CsvRow) (s : Store) (k : string)
    (d : ClaimDetail) :
  detail_of_row row s = Return (Some (k, d)) -> is_Some (claims s !! k).
Proof.
  unfold detail_of_row.
  destruct (row !! "claim_id") as [[k' |] |]; try discriminate.
  destruct (decide (is_Some (claims s !! k'))) as [Hk |]; [| discriminate].
  destruct (dict_get row "cpt_codes" ""); [| discriminate].
  now intros [= <- _].
Qed.

Lemma Command_details_step_refs row n s :
  refs_ok s -> refs_ok (fst (Command_details_step row n s)).
Proof.
  intros Hs. unfold Command_details_step.
  destruct (detail_of_row row s) as [[[k d] |] | e] eqn:Hrow; cbn [fst].
  - apply refs_ok_detail; [exact Hs |]. eapply detail_of_row_stored, Hrow.
  - exact Hs.
  - destruct (caught_by [KeyError] e); exact Hs.
Qed.

Lemma View_details_step_refs row n s :
  refs_ok s -> refs_ok (fst (View_details_step row n s)).
Proof.
  intros Hs. unfold View_details_step.
  destruct (detail_of_row row s) as [[[k d] |] | e] eqn:Hrow; cbn [fst].
  - apply refs_ok_detail; [exact Hs |]. eapply detail_of_row_stored, Hrow.
  - exact Hs.
  - destruct (caught_by [DoesNotExist; KeyError] e); exact Hs.
Qed.

Lemma _load_claim_details_loop_refs rows n s :
  refs_ok s -> refs_ok (fst (Command._load_claim_details_loop rows n s)).
Proof.
  revert n s. induction rows as [| row rows IH]; intros n s Hs; [exact Hs |].
  rewrite _load_claim_details_loop_cons.
  pose proof (Command_details_step_refs row n s Hs) as Hstep.
  destruct (Command_details_step row n s) as [s' [n' | e]]; simpl in *.
  - now apply IH.
  - exact Hstep.
Qed.

Lemma _process_details_loop_refs rows n s :
  refs_ok s -> refs_ok (fst (DataUploadView._process_details_loop rows n s)).
Proof.
  revert n s. induction rows as [| row rows IH]; intros n s Hs; [exact Hs |].
  rewrite _process_details_loop_cons.
  pose proof (View_details_step_refs row n s Hs) as Hstep.
  destruct (View_details_step row n s) as [s' [n' | e]]; simpl in *.
  - now apply IH.
  - exact Hstep.
Qed.

Lemma _load_claim_details_refs fs path s :
  refs_ok s -> refs_ok (fst (Command._load_claim_details fs path s)).
Proof.
  intros Hs. unfold Command._load_claim_details, bind, lift.
  destruct (Command.open_read fs path) as [text | e]; [| exact Hs].
  now apply _load_claim_details_loop_refs.
Qed.

Lemma _process_details_file_refs file s :
  refs_ok s -> refs_ok (fst (DataUploadView._process_details_file file s)).
Proof.
  intros Hs. unfold DataUploadView._process_details_file, bind, lift.
  destruct (DataUploadView.read_decode file) as [text | e]; [| exact Hs].
  destruct (splitlines text); [exact Hs |].
  now apply _process_details_loop_refs.
Qed.

Lemma handle_refs fs options s :
  refs_ok s -> refs_ok (fst (Command.handle fs options s)).
Proof.
  intros Hs. rewrite handle_eq.
  destruct (Command.path_exists _ _ && Command.path_exists _ _); [| exact Hs].
  rewrite handle_body_eq.
  assert (H0 : refs_ok (Command_start options s)).
  { unfold Command_start. destruct (String.eqb _ _);
      [apply refs_ok_purged | exact Hs]. }
  assert (H1 : refs_ok (fst (Command._load_claims fs (Command.claims_file options)
                               (Command_start options s)))).
  { rewrite _load_claims_store.
    destruct (Command.open_read _ _); [now apply refs_ok_upsert_all | exact H0]. }
  destruct (Command._load_claims _ _ _) as [s1 [cc | e]]; [| exact Hs].
  pose proof (_load_claim_details_refs fs (Command.details_file options) s1 H1)
    as H2.
  destruct (Command._load_claim_details _ _ s1) as [s2 [dc | e]]; [| exact Hs].
  exact H2.
Qed.

Lemma _process_claims_file_refs file mode s :
  refs_ok s -> refs_ok (fst (DataUploadView._process_claims_file file mode s)).
Proof.
  intros Hs. rewrite _process_claims_file_eq. cbn zeta.
  assert (H0 : refs_ok (if String.eqb mode "overwrite"
                        then fst (Claim_objects_all_delete s) else s)).
  { destruct (String.eqb _ _); [apply refs_ok_purged | exact Hs]. }
  destruct (DataUploadView.read_decode file) as [text | e]; [| exact H0].
  rewrite run_store. now apply refs_ok_upsert_all.
Qed.

Lemma post_refs request s :
  refs_ok s -> refs_ok (fst (DataUploadView.post request s)).
Proof.
  intros Hs.
  destruct (DataUploadView.present (DataUploadView.FILES_claims_file request))
    as [cf |] eqn:Hc;
    [destruct (DataUploadView.present (DataUploadView.FILES_details_file request))
       as [df |] eqn:Hd |].
  - rewrite (post_eq request cf df s Hc Hd).
    pose proof (_process_claims_file_refs cf
                  (default "append" (DataUploadView.POST_mode request)) s Hs) as H1.
    destruct (DataUploadView._process_claims_file _ _ s) as [s1 [cc | e]];
      [| exact H1].
    pose proof (_process_details_file_refs df s1 H1) as H2.
    destruct (DataUploadView._process_details_file df s1) as [s2 [dc | e]];
      exact H2.
  - unfold DataUploadView.post. now rewrite Hc, Hd.
  - unfold DataUploadView.post. now rewrite Hc.
Qed.

Lemma add_flag_htmx_refs request claim_id s :
  refs_ok s -> refs_ok (fst (ClaimViews.add_flag_htmx request claim_id s)).
Proof.
  intros (Hd & Hf).
  destruct (add_flag_htmx_cases request claim_id s) as (Ec & Ed & _ & Hflags).
  split.
  - intros k Hk. rewrite Ed in Hk. rewrite Ec. auto.
  - intros f Hin. rewrite Ec.
    destruct Hflags as [E | [(_ & Hc & _ & E) | (_ & Hc & pk & f0 & Hpk & Hkey & E)]];
      rewrite E in Hin.
    + auto.
    + apply elem_of_app in Hin as [Hin | Hin]; [auto |].
      apply list_elem_of_singleton in Hin. now subst f.
    + apply list_elem_of_lookup in Hin as (j & Hj).
      destruct (decide (pk = j)) as [<- | Hne].
      * rewrite list_lookup_insert_eq in Hj
          by (now apply lookup_lt_Some with f0).
        injection Hj as <-. simpl. apply Hf.
        apply list_elem_of_lookup. now exists pk.
      * rewrite list_lookup_insert_ne in Hj by exact Hne.
        apply Hf. apply list_elem_of_lookup. now exists j.
Qed.

Lemma remove_flag_htmx_refs request flag_id s :
  refs_ok s -> refs_ok (fst (ClaimViews.remove_flag_htmx request flag_id s)).
Proof.
  intros (Hd & Hf).
  destruct (remove_flag_htmx_cases request flag_id s) as (Ec & Ed & _ & Hflags).
  split.
  - intros k Hk. rewrite Ed in Hk. rewrite Ec. auto.
  - intros f Hin. rewrite Ec.
    destruct Hflags as [E | (f0 & Hpk & _ & E)]; rewrite E in Hin; [auto |].
    apply list_elem_of_lookup in Hin as (j & Hj).
    destruct (decide (flag_id = j)) as [<- | Hne].
    + rewrite list_lookup_insert_eq in Hj
        by (now apply lookup_lt_Some with f0).
      injection Hj as <-. simpl. apply Hf.
      apply list_elem_of_lookup. now exists flag_id.
    + rewrite list_lookup_insert_ne in Hj by exact Hne.
      apply Hf. apply list_elem_of_lookup. now exists j.
Qed.

Lemma serve_refs (r : request) (s : Store) : refs_ok s -> refs_ok (serve r s).
Proof.
  intros Hs. destruct r as [fs options | q | q claim_id | q flag_id]; simpl.
  - now apply handle_refs.
  - now apply post_refs.
  - now apply add_flag_htmx_refs.
  - now apply remove_flag_htmx_refs.
Qed.

(** Whatever was asked of the application since the database was empty,
    every detail and every flag belongs to a claim that is stored. *)
Theorem no_dangling_reference (rs : list request) :
  let s := serve_all rs empty_store in
  (forall k, is_Some (details s !! k) -> is_Some (claims s !! k))
  /\ (forall f, f ∈ flags s -> is_Some (claims s !! flag_claim f)).
Proof.
  cbv zeta. change (refs_ok (serve_all rs empty_store)).
  induction rs as [| r rs IH] using rev_ind.
  - apply refs_ok_purged.
  - unfold serve_all. rewrite foldl_app. simpl. now apply serve_refs.
Qed.

End References.


(** ** Imports that append *)

Lemma upsert_all_other l s k :
  k ∉ l.*1 -> claims (upsert_all l s) !! k = claims s !! k.
Proof.
  intros Hk. rewrite upsert_all_claims, lookup_union.
  rewrite (not_elem_of_list_to_map_1 (reverse l) k).
  - now rewrite (left_id_L None union).
  - rewrite fmap_reverse, elem_of_reverse. exact Hk.
Qed.

Lemma upsert_all_app l1 l2 s :
  upsert_all (l1 ++ l2) s = upsert_all l2 (upsert_all l1 s).
Proof. unfold upsert_all. now rewrite foldl_app. Qed.

Lemma failure_app caught (a b : list (outcome (string * Claim))) :
  failure caught (a ++ b)
  = match failure caught a with
    | Some e => Some e
    | None => failure caught b
    end.
Proof.
  induction a as [| [kc | e] a IH]; simpl; [reflexivity | exact IH |].
  destruct (caught e); [exact IH | reflexivity].
Qed.

Lemma accepted_app caught (a b : list (outcome (string * Claim))) :
  failure caught a = None ->
  accepted caught (a ++ b) = (accepted caught a ++ accepted caught b)%list.
Proof.
  induction a as [| [kc | e] a IH]; simpl; intros Hf; [reflexivity | |].
  - now rewrite IH.
  - destruct (caught e); [now apply IH | discriminate].
Qed.

Lemma failure_elem caught (f : CsvRow -> outcome (string * Claim))
    (rows : list CsvRow) (row : CsvRow) (e : exn) :
  row ∈ rows -> f row = Raise e -> caught e = false ->
  exists e', failure caught (f <$> rows) = Some e' /\ caught e' = false.
Proof.
  intros Hin Hrow Hc. induction rows as [| r rows IH]; [inversion Hin |].
  rewrite fmap_cons. cbn [failure].
  destruct (f r) as [kc | e0] eqn:Hr.
  - apply elem_of_cons in Hin as [-> | Hin]; [congruence | now apply IH].
  - destruct (caught e0) eqn:Hc0.
    + apply elem_of_cons in Hin as [-> | Hin]; [congruence | now apply IH].
    + eauto.
Qed.

Lemma accepted_nil caught (f : CsvRow -> outcome (string * Claim))
    (rows : list CsvRow) :
  (forall row, row ∈ rows -> exists e, f row = Raise e) ->
  accepted caught (f <$> rows) = [].
Proof.
  induction rows as [| r rows IH]; intros Hall; [reflexivity |].
  rewrite fmap_cons. cbn [accepted].
  destruct (Hall r) as (e & ->); [apply elem_of_cons; now left |].
  destruct (caught e); [| reflexivity].
  apply IH. intros row Hin. apply Hall. apply elem_of_cons. now right.
Qed.

Lemma failure_nil caught (f : CsvRow -> outcome (string * Claim))
    (rows : list CsvRow) :
  (forall row, row ∈ rows -> exists e, f row = Raise e /\ caught e = true) ->
  failure caught (f <$> rows) = None.
Proof.
  induction rows as [| r rows IH]; intros Hall; [reflexivity |].
  rewrite fmap_cons. cbn [failure].
  destruct (Hall r) as (e & -> & ->); [apply elem_of_cons; now left |].
  apply IH. intros row Hin. apply Hall. apply elem_of_cons. now right.
Qed.

Lemma run_eq caught every rs n s :
  run caught every rs n s
  = (upsert_all (accepted caught rs) s, snd (run caught every rs n s)).
Proof. rewrite <- (run_store caught every rs n s). now destruct (run _ _ _ _ _). Qed.

Section AppendImports.
Context `{PyLib}.

Lemma Command_claim_of_row_columns (row : CsvRow) (kc : string * Claim) :
  Command_claim_of_row row = Return kc ->
  forall key, key ∈ claim_columns -> is_Some (row !! key).
Proof.
  unfold Command_claim_of_row. intros Hrow.
  apply obind_Return in Hrow as (dd & Hdd & Hrow).
  apply obind_Return in Hdd as (vdd & Hdd & _).
  apply obind_Return in Hrow as (b & Hb & Hrow).
  apply obind_Return in Hb as (vb & Hb & _).
  apply obind_Return in Hrow as (p & Hp & Hrow).
  apply obind_Return in Hp as (vp & Hp & _).
  apply obind_Return in Hrow as (id & Hid & Hrow).
  apply obind_Return in Hrow as (pn & Hpn & Hrow).
  apply obind_Return in Hrow as (st & Hst & Hrow).
  apply obind_Return in Hrow as (ins & Hins & Hrow).
  apply getitem_Return in Hdd, Hb, Hp, Hid, Hpn, Hst, Hins.
  intros key Hkey. unfold claim_columns in Hkey.
  repeat (apply elem_of_cons in Hkey as [-> | Hkey]; [eauto |]).
  inversion Hkey.
Qed.

Lemma View_claim_of_row_columns (row : CsvRow) (kc : string * Claim) :
  View_claim_of_row row = Return kc ->
  forall key, key ∈ claim_columns -> is_Some (row !! key).
Proof.
  intros Hrow. apply claim_of_row_agree in Hrow.
  now apply Command_claim_of_row_columns with kc.
Qed.


(** *** An append import never deletes *)

Lemma kept_refl s : kept s s.
Proof. repeat split; auto. Qed.

Lemma kept_trans s t u : kept s t -> kept t u -> kept s u.
Proof.
  intros (Hc & Hd & Hf) (Hc' & Hd' & Hf'). repeat split; auto. congruence.
Qed.

Lemma kept_upsert_all l s : kept s (upsert_all l s).
Proof.
  destruct (upsert_all_frame l s) as (Ed & Ef & _). repeat split.
  - intros k. apply upsert_all_present.
  - intros k. now rewrite Ed.
  - exact Ef.
Qed.

Lemma kept_detail k d s : kept s (set_details (insert k d) s).
Proof.
  repeat split; auto. intros k' Hk'. simpl.
  destruct (decide (k = k')) as [<- | Hne].
  - rewrite lookup_insert_eq. eauto.
  - now rewrite lookup_insert_ne.
Qed.

Lemma kept_Command_details_step row n s :
  kept s (fst (Command_details_step row n s)).
Proof.
  unfold Command_details_step.
  destruct (detail_of_row row s) as [[[k d] |] | e]; cbn [fst].
  - apply kept_detail.
  - apply kept_refl.
  - destruct (caught_by [KeyError] e); apply kept_refl.
Qed.

Lemma kept_View_details_step row n s :
  kept s (fst (View_details_step row n s)).
Proof.
  unfold View_details_step.
  destruct (detail_of_row row s) as [[[k d] |] | e]; cbn [fst].
  - apply kept_detail.
  - apply kept_refl.
  - destruct (caught_by [DoesNotExist; KeyError] e); apply kept_refl.
Qed.

Lemma kept__load_claim_details_loop rows n s :
  kept s (fst (Command._load_claim_details_loop rows n s)).
Proof.
  revert n s. induction rows as [| row rows IH]; intros n s; [apply kept_refl |].
  rewrite _load_claim_details_loop_cons.
  pose proof (kept_Command_details_step row n s) as Hstep.
  destruct (Command_details_step row n s) as [s' [n' | e]]; cbn [fst] in *.
  - eapply kept_trans; [exact Hstep | apply IH].
  - exact Hstep.
Qed.

Lemma kept__process_details_loop rows n s :
  kept s (fst (DataUploadView._process_details_loop rows n s)).
Proof.
  revert n s. induction rows as [| row rows IH]; intros n s; [apply kept_refl |].
  rewrite _process_details_loop_cons.
  pose proof (kept_View_details_step row n s) as Hstep.
  destruct (View_details_step row n s) as [s' [n' | e]]; cbn [fst] in *.
  - eapply kept_trans; [exact Hstep | apply IH].
  - exact Hstep.
Qed.

Lemma kept__load_claim_details fs path s :
  kept s (fst (Command._load_claim_details fs path s)).
Proof.
  unfold Command._load_claim_details, bind, lift.
  destruct (Command.open_read fs path) as [text | e]; [| apply kept_refl].
  apply kept__load_claim_details_loop.
Qed.

Lemma kept__process_details_file file s :
  kept s (fst (DataUploadView._process_details_file file s)).
Proof.
  unfold DataUploadView._process_details_file, bind, lift.
  destruct (DataUploadView.read_decode file) as [text | e]; [| apply kept_refl].
  destruct (splitlines text); [apply kept_refl |].
  apply kept__process_details_loop.
Qed.

Lemma kept_handle fs options s :
  Command.mode options <> "overwrite" ->
  kept s (fst (Command.handle fs options s)).
Proof.
  intros Hmode. rewrite handle_eq.
  destruct (Command.path_exists _ _ && Command.path_exists _ _);
    [| apply kept_refl].
  rewrite handle_body_eq.
  assert (Hstart : Command_start options s = s).
  { unfold Command_start. apply String.eqb_neq in Hmode. now rewrite Hmode. }
  rewrite Hstart.
  assert (H1 : kept s (fst (Command._load_claims fs (Command.claims_file options)
                              s))).
  { rewrite _load_claims_store.
    destruct (Command.open_read _ _); [apply kept_upsert_all | apply kept_refl]. }
  destruct (Command._load_claims _ _ _) as [s1 [cc | e]]; [| apply kept_refl].
  pose proof (kept__load_claim_details fs (Command.details_file options) s1) as H2.
  destruct (Command._load_claim_details _ _ s1) as [s2 [dc | e]];
    [| apply kept_refl].
  exact (kept_trans _ _ _ H1 H2).
Qed.

Lemma kept_post request s :
  default "append" (DataUploadView.POST_mode request) <> "overwrite" ->
  kept s (fst (DataUploadView.post request s)).
Proof.
  intros Hmode.
  destruct (DataUploadView.present (DataUploadView.FILES_claims_file request))
    as [cf |] eqn:Hc;
    [destruct (DataUploadView.present (DataUploadView.FILES_details_file request))
       as [df |] eqn:Hd |].
  - rewrite (post_eq request cf df s Hc Hd).
    assert (H1 : kept s (fst (DataUploadView._process_claims_file cf
                                (default "append"
                                   (DataUploadView.POST_mode request)) s))).
    { rewrite _process_claims_file_append_store by exact Hmode.
      destruct (DataUploadView.read_decode cf);
        [apply kept_upsert_all | apply kept_refl]. }
    destruct (DataUploadView._process_claims_file _ _ s) as [s1 [cc | e]];
      [| exact H1].
    pose proof (kept__process_details_file df s1) as H2.
    destruct (DataUploadView._process_details_file df s1) as [s2 [dc | e]];
      exact (kept_trans _ _ _ H1 H2).
  - unfold DataUploadView.post. rewrite Hc, Hd. apply kept_refl.
  - unfold DataUploadView.post. rewrite Hc. apply kept_refl.
Qed.

(** An import in a mode other than overwrite deletes nothing, through
    the command and through the upload, whether it succeeds or not: every
    claim and every detail that was stored still has its row, and the flags
    are untouched. *)
Theorem append_import_never_deletes (s : Store) :
  (forall fs options,
      Command.mode options <> "overwrite" ->
      let s' := fst (Command.handle fs options s) in
      (forall k, is_Some (claims s !! k) -> is_Some (claims s' !! k))
      /\ (forall k, is_Some (details s !! k) -> is_Some (details s' !! k))
      /\ flags s' = flags s)
  /\ (forall request,
      default "append" (DataUploadView.POST_mode request) <> "overwrite" ->
      let s' := fst (DataUploadView.post request s) in
      (forall k, is_Some (claims s !! k) -> is_Some (claims s' !! k))
      /\ (forall k, is_Some (details s !! k) -> is_Some (details s' !! k))
      /\ flags s' = flags s).
Proof.
  split.
  - intros fs options Hmode. exact (kept_handle fs options s Hmode).
  - intros request Hmode. exact (kept_post request s Hmode).
Qed.

(** *** Ids the file does not carry *)

(** An import in a mode other than overwrite leaves the claim of every
    [claim_id] that no row of the claims file carries exactly as it was. *)
Theorem append_import_leaves_other_ids (s : Store) (k : string) (text : string) :
  (forall (fs : Command.FileSystem) options,
      Command.mode options <> "overwrite" ->
      fs !! Command.claims_file options = Some (Some text) ->
      Some (Some k) ∉ row_id <$> csv_DictReader text "|"%char ->
      claims (fst (Command.handle fs options s)) !! k = claims s !! k)
  /\ (forall request claims_file details_file,
      default "append" (DataUploadView.POST_mode request) <> "overwrite" ->
      DataUploadView.present (DataUploadView.FILES_claims_file request)
      = Some claims_file ->
      DataUploadView.present (DataUploadView.FILES_details_file request)
      = Some details_file ->
      DataUploadView.decoded claims_file = Some text ->
      Some (Some k) ∉ row_id <$> View_reader text ->
      claims (fst (DataUploadView.post request s)) !! k = claims s !! k).
Proof.
  split.
  - intros fs options Hmode Hfile Hk.
    destruct (handle_append_claims fs options s Hmode) as [-> | (text' & Ht & ->)];
      [reflexivity |].
    unfold Command.open_read in Ht. rewrite Hfile in Ht. injection Ht as <-.
    apply upsert_all_other. intros Hin. apply Hk.
    eapply accepted_ids; [apply Command_claim_of_row_id | exact Hin].
  - intros request cf df Hmode Hc Hd Htext Hk.
    rewrite (post_claims request cf df s Hc Hd).
    rewrite _process_claims_file_append_store by exact Hmode.
    unfold DataUploadView.read_decode. rewrite Htext.
    apply upsert_all_other. intros Hin. apply Hk.
    eapply accepted_ids; [apply View_claim_of_row_id | exact Hin].
Qed.

(** *** The last row wins *)

Lemma run_last_wins (f : CsvRow -> outcome (string * Claim))
    (caught : exn -> bool) (every : bool) (pre post : list CsvRow)
    (row : CsvRow) (n n' : nat) (s s' : Store) (k : string) (c : Claim) :
  (forall r x, f r = Return x -> row_id r = Some (Some (fst x))) ->
  f row = Return (k, c) ->
  Some (Some k) ∉ row_id <$> post ->
  run caught every (f <$> (pre ++ row :: post)%list) n s = (s', Return n') ->
  claims s' !! k = Some c.
Proof.
  intros Hid Hrow Hpost Hrun.
  pose proof (run_Return_failure _ _ _ _ _ _ _ Hrun) as Hfail.
  pose proof (run_store caught every (f <$> (pre ++ row :: post)%list) n s) as Hs.
  rewrite Hrun in Hs. cbn [fst] in Hs. subst s'.
  rewrite fmap_app, fmap_cons in *.
  rewrite failure_app in Hfail.
  destruct (failure caught (f <$> pre)) eqn:Hpre; [discriminate |].
  rewrite accepted_app by exact Hpre. cbn [accepted]. rewrite Hrow.
  rewrite upsert_all_app.
  change (upsert_all ((k, c) :: accepted caught (f <$> post)) ?t)
    with (upsert_all (accepted caught (f <$> post)) (upsert (k, c) t)).
  rewrite upsert_all_other.
  - simpl. now rewrite lookup_insert_eq.
  - intros Hin. apply Hpost. eapply accepted_ids; [exact Hid | exact Hin].
Qed.

(** When a claims loop completes, the claim stored under a [claim_id] is
    the one of the last row of the file that was accepted with that id. *)
Theorem last_row_of_an_id_is_stored (pre post : list CsvRow) (row : CsvRow)
    (n n' : nat) (s s' : Store) (k : string) (c : Claim) :
  Some (Some k) ∉ row_id <$> post ->
  (Command_claim_of_row row = Return (k, c) ->
   Command._load_claims_loop (pre ++ row :: post) n s = (s', Return n') ->
   claims s' !! k = Some c)
  /\ (View_claim_of_row row = Return (k, c) ->
      DataUploadView._process_claims_loop (pre ++ row :: post) n s
      = (s', Return n') ->
      claims s' !! k = Some c).
Proof.
  intros Hpost. split; intros Hrow Hrun.
  - rewrite _load_claims_loop_run in Hrun.
    eapply run_last_wins; [apply Command_claim_of_row_id | exact Hrow
                          | exact Hpost | exact Hrun].
  - rewrite _process_claims_loop_run in Hrun.
    eapply run_last_wins; [apply View_claim_of_row_id | exact Hrow
                          | exact Hpost | exact Hrun].
Qed.

End AppendImports.


(** ** Missing columns and short lines *)

Section MissingCells.
Context `{PyLib}.

(** *** A file without one of the columns *)

Lemma Command_claim_of_row_skipped (row : CsvRow) :
  (exists key, key ∈ claim_columns /\ row !! key = None) ->
  (forall key, row !! key <> Some None) ->
  exists e, Command_claim_of_row row = Raise e /\ Command_caught e = true.
Proof.
  intros (key & Hkey & Hmiss) Hcells.
  unfold Command_claim_of_row, getitem, strptime, Decimal.
  destruct (row !! "discharge_date") as [[ds |] |] eqn:E1;
    [| now destruct (Hcells "discharge_date") | eexists; split; reflexivity].
  cbn [obind]. destruct (strptime_Ymd ds); [| eexists; split; reflexivity].
  cbn [obind].
  destruct (row !! "billed_amount") as [[bs |] |] eqn:E2;
    [| now destruct (Hcells "billed_amount") | eexists; split; reflexivity].
  cbn [obind]. destruct (Decimal_of_str bs); [| eexists; split; reflexivity].
  cbn [obind].
  destruct (row !! "paid_amount") as [[ps |] |] eqn:E3;
    [| now destruct (Hcells "paid_amount") | eexists; split; reflexivity].
  cbn [obind]. destruct (Decimal_of_str ps); [| eexists; split; reflexivity].
  cbn [obind].
  destruct (row !! "id") as [v4 |] eqn:E4; [| eexists; split; reflexivity].
  cbn [obind].
  destruct (row !! "patient_name") as [v5 |] eqn:E5;
    [| eexists; split; reflexivity].
  cbn [obind].
  destruct (row !! "status") as [v6 |] eqn:E6; [| eexists; split; reflexivity].
  cbn [obind].
  destruct (row !! "insurer_name") as [v7 |] eqn:E7;
    [| eexists; split; reflexivity].
  exfalso. unfold claim_columns in Hkey.
  repeat (apply elem_of_cons in Hkey as [-> | Hkey]; [congruence |]).
  inversion Hkey.
Qed.

Lemma View_claim_of_row_skipped (row : CsvRow) :
  (exists key, key ∈ claim_columns /\ row !! key = None) ->
  (forall key, row !! key <> Some None) ->
  exists e, View_claim_of_row row = Raise e /\ View_caught e = true.
Proof.
  intros (key & Hkey & Hmiss) Hcells.
  unfold View_claim_of_row, getitem, strptime.
  destruct (row !! "discharge_date") as [[ds |] |] eqn:E1;
    [| now destruct (Hcells "discharge_date") | eexists; split; reflexivity].
  cbn [obind]. destruct (strptime_Ymd ds); [| eexists; split; reflexivity].
  cbn [obind].
  destruct (row !! "id") as [v4 |] eqn:E4; [| eexists; split; reflexivity].
  cbn [obind].
  destruct (row !! "patient_name") as [v5 |] eqn:E5;
    [| eexists; split; reflexivity].
  cbn [obind].
  destruct (row !! "billed_amount") as [v2 |] eqn:E2;
    [| eexists; split; reflexivity].
  cbn [obind].
  destruct (row !! "paid_amount") as [v3 |] eqn:E3;
    [| eexists; split; reflexivity].
  cbn [obind].
  destruct (row !! "status") as [v6 |] eqn:E6; [| eexists; split; reflexivity].
  cbn [obind].
  destruct (row !! "insurer_name") as [v7 |] eqn:E7;
    [| eexists; split; reflexivity].
  exfalso. unfold claim_columns in Hkey.
  repeat (apply elem_of_cons in Hkey as [-> | Hkey]; [congruence |]).
  inversion Hkey.
Qed.

Lemma missing_column_not_accepted (f : CsvRow -> outcome (string * Claim))
    (row : CsvRow) :
  (forall kc, f row = Return kc ->
              forall key, key ∈ claim_columns -> is_Some (row !! key)) ->
  (exists key, key ∈ claim_columns /\ row !! key = None) ->
  exists e, f row = Raise e.
Proof.
  intros Hcols (key & Hkey & Hmiss).
  destruct (f row) as [kc | e] eqn:Hrow; [| eauto].
  destruct (Hcols kc eq_refl key Hkey) as (v & Hv). congruence.
Qed.

(** Rows that lack one of the seven columns are never written, by
    either loader; when moreover no cell of them is [None] (every line is as
    long as the header), each of them is passed over and the loop completes
    with the count it started with: a file read with the wrong header or
    delimiter imports nothing and reports no error. *)
Theorem file_without_a_column_imports_nothing (rows : list CsvRow) (n : nat)
    (s : Store) :
  (forall row, row ∈ rows ->
               exists key, key ∈ claim_columns /\ row !! key = None) ->
  fst (Command._load_claims_loop rows n s) = s
  /\ fst (DataUploadView._process_claims_loop rows n s) = s
  /\ ((forall row key, row ∈ rows -> row !! key <> Some None) ->
      Command._load_claims_loop rows n s = (s, Return n)
      /\ DataUploadView._process_claims_loop rows n s = (s, Return n)).
Proof.
  intros Hmiss.
  assert (Hc : accepted Command_caught (Command_claim_of_row <$> rows) = []).
  { apply accepted_nil. intros row Hin. apply missing_column_not_accepted.
    - intros kc. apply Command_claim_of_row_columns.
    - now apply Hmiss. }
  assert (Hv : accepted View_caught (View_claim_of_row <$> rows) = []).
  { apply accepted_nil. intros row Hin. apply missing_column_not_accepted.
    - intros kc. apply View_claim_of_row_columns.
    - now apply Hmiss. }
  rewrite _load_claims_loop_run, _process_claims_loop_run, !run_store, Hc, Hv.
  split; [reflexivity |]. split; [reflexivity |].
  intros Hcells. rewrite (run_eq Command_caught), (run_eq View_caught), Hc, Hv.
  split; f_equal.
  - rewrite run_count_created.
    + rewrite Hc. cbn [created_count]. f_equal. lia.
    + apply failure_nil. intros row Hin.
      apply Command_claim_of_row_skipped; [now apply Hmiss |].
      intros key. now apply Hcells.
  - rewrite run_count_every.
    + rewrite Hv. cbn [length]. f_equal. lia.
    + apply failure_nil. intros row Hin.
      apply View_claim_of_row_skipped; [now apply Hmiss |].
      intros key. now apply Hcells.
Qed.

(** *** A line shorter than the header *)

Lemma Command_claim_of_row_short (row : CsvRow) :
  row !! "discharge_date" = Some None ->
  Command_claim_of_row row = Raise TypeError.
Proof. intros E. unfold Command_claim_of_row, getitem. now rewrite E. Qed.

Lemma View_claim_of_row_short (row : CsvRow) :
  row !! "discharge_date" = Some None ->
  View_claim_of_row row = Raise TypeError.
Proof. intros E. unfold View_claim_of_row, getitem. now rewrite E. Qed.

(** A claims row whose [discharge_date] cell is [None] (a line shorter
    than the header) is not passed over: [strptime] raises a [TypeError],
    which no row handler names.  One such row anywhere in the file makes the
    command fail with [CommandError], the database left as it was; the
    upload ends with an error message and records no summary. *)
Theorem short_claims_line_fails_the_import (row : CsvRow) (text : string)
    (s : Store) :
  row !! "discharge_date" = Some None ->
  (forall (fs : Command.FileSystem) options,
      fs !! Command.claims_file options = Some (Some text) ->
      row ∈ csv_DictReader text "|"%char ->
      Command.handle fs options s = (s, Raise CommandError))
  /\ (forall request claims_file details_file,
      DataUploadView.present (DataUploadView.FILES_claims_file request)
      = Some claims_file ->
      DataUploadView.present (DataUploadView.FILES_details_file request)
      = Some details_file ->
      DataUploadView.decoded claims_file = Some text ->
      row ∈ View_reader text ->
      exists e,
        snd (DataUploadView.post request s)
        = Return (DataUploadView.error_uploading e)
        /\ uploads (fst (DataUploadView.post request s)) = uploads s).
Proof.
  intros Hshort. split.
  - intros fs options Hfile Hin. rewrite handle_eq.
    destruct (Command.path_exists _ _ && Command.path_exists _ _);
      [| reflexivity].
    rewrite handle_body_eq, _load_claims_eq.
    unfold Command.open_read. rewrite Hfile.
    destruct (failure_elem Command_caught Command_claim_of_row _ row TypeError
                Hin (Command_claim_of_row_short row Hshort) eq_refl)
      as (e' & Hfail & _).
    pose proof (run_failure Command_caught false _ 0%nat
                  (Command_start options s) e' Hfail) as Hsnd.
    destruct (run Command_caught false _ 0%nat _) as [s1 [cc | e]];
      [discriminate | reflexivity].
  - intros request cf df Hc Hd Htext Hin.
    rewrite (post_eq request cf df s Hc Hd), _process_claims_file_eq.
    cbn zeta. unfold DataUploadView.read_decode. rewrite Htext.
    destruct (failure_elem View_caught View_claim_of_row _ row TypeError
                Hin (View_claim_of_row_short row Hshort) eq_refl)
      as (e' & Hfail & _).
    set (s0 := if String.eqb _ _ then _ else s).
    assert (Hu0 : uploads s0 = uploads s)
      by (unfold s0; now destruct (String.eqb _ _)).
    pose proof (run_failure View_caught true _ 0%nat s0 e' Hfail) as Hsnd.
    pose proof (run_store View_caught true
                  (View_claim_of_row <$> View_reader text) 0%nat s0) as Hfst.
    destruct (run View_caught true _ 0%nat s0) as [s1 [cc | e]];
      [discriminate |].
    cbn [fst snd] in *. exists e. split; [reflexivity |].
    rewrite Hfst.
    destruct (upsert_all_frame
                (accepted View_caught (View_claim_of_row <$> View_reader text)) s0)
      as (_ & _ & ->).
    exact Hu0.
Qed.

End MissingCells.


(** ** Rows the model or the database refuses *)

Section RefusedRows.
Context `{PyLib}.

(** *** A short details line *)

Lemma detail_of_row_raises (row : CsvRow) (s : Store) (e : exn) :
  detail_of_row row s = Raise e -> e = KeyError \/ e = IntegrityError.
Proof.
  unfold detail_of_row.
  destruct (row !! "claim_id") as [[k |] |]; try discriminate.
  - destruct (decide _); [| discriminate].
    destruct (dict_get row "cpt_codes" ""); [discriminate |].
    intros [= <-]. now right.
  - intros [= <-]. now left.
Qed.

Lemma detail_of_row_short (row : CsvRow) (s : Store) (k : string) :
  row !! "claim_id" = Some (Some k) -> is_Some (claims s !! k) ->
  row !! "cpt_codes" = Some None ->
  detail_of_row row s = Raise IntegrityError.
Proof.
  intros Hid Hk Hcodes. unfold detail_of_row, dict_get. rewrite Hid, Hcodes.
  now destruct (decide _).
Qed.

(** A details row for a stored claim whose [cpt_codes] cell is [None]
    (a line shorter than the header) ends both details loops with the
    [IntegrityError] of the database, wherever it stands in the file. *)
Theorem short_details_line_ends_the_load (rows : list CsvRow) (row : CsvRow)
    (k : string) (n : nat) (s : Store) :
  row ∈ rows ->
  row !! "claim_id" = Some (Some k) -> is_Some (claims s !! k) ->
  row !! "cpt_codes" = Some None ->
  snd (Command._load_claim_details_loop rows n s) = Raise IntegrityError
  /\ snd (DataUploadView._process_details_loop rows n s) = Raise IntegrityError.
Proof.
  intros Hin Hid Hk Hcodes. split.
  - revert n s Hk. induction rows as [| r rows IH]; intros n s Hk;
      [inversion Hin |].
    rewrite _load_claim_details_loop_cons.
    pose proof (Command_details_step_frame r n s) as (Hc & _).
    unfold Command_details_step in *.
    destruct (detail_of_row r s) as [[[k' d] |] | e] eqn:Hr.
    + apply elem_of_cons in Hin as [-> | Hin].
      * rewrite (detail_of_row_short _ _ k Hid Hk Hcodes) in Hr. discriminate.
      * apply IH; [exact Hin |]. cbn [fst] in Hc. now rewrite Hc.
    + apply elem_of_cons in Hin as [-> | Hin].
      * rewrite (detail_of_row_short _ _ k Hid Hk Hcodes) in Hr. discriminate.
      * now apply IH.
    + destruct (detail_of_row_raises _ _ _ Hr) as [-> | ->]; cbn.
      * apply elem_of_cons in Hin as [-> | Hin].
        -- rewrite (detail_of_row_short _ _ k Hid Hk Hcodes) in Hr. discriminate.
        -- now apply IH.
      * reflexivity.
  - revert n s Hk. induction rows as [| r rows IH]; intros n s Hk;
      [inversion Hin |].
    rewrite _process_details_loop_cons.
    pose proof (View_details_step_frame r n s) as (Hc & _).
    unfold View_details_step in *.
    destruct (detail_of_row r s) as [[[k' d] |] | e] eqn:Hr.
    + apply elem_of_cons in Hin as [-> | Hin].
      * rewrite (detail_of_row_short _ _ k Hid Hk Hcodes) in Hr. discriminate.
      * apply IH; [exact Hin |]. cbn [fst] in Hc. now rewrite Hc.
    + apply elem_of_cons in Hin as [-> | Hin].
      * rewrite (detail_of_row_short _ _ k Hid Hk Hcodes) in Hr. discriminate.
      * now apply IH.
    + destruct (detail_of_row_raises _ _ _ Hr) as [-> | ->]; cbn.
      * apply elem_of_cons in Hin as [-> | Hin].
        -- rewrite (detail_of_row_short _ _ k Hid Hk Hcodes) in Hr. discriminate.
        -- now apply IH.
      * reflexivity.
Qed.

(** *** Rows the model refuses *)

Lemma clean_outcomes (self : ClaimObj) :
  clean self = Return tt \/ clean self = Raise ValidationError
  \/ clean self = Raise TypeError.
Proof.
  unfold clean. destruct (truthy _ && truthy _); [| now left].
  unfold py_gt.
  destruct (o_paid_amount self) as [| x | x], (o_billed_amount self) as [| y | y];
    cbn [obind]; try (right; now right).
  - destruct (String.ltb y x); [right |]; now left.
  - destruct (Dgt x y); [right |]; now left.
Qed.

Lemma clean_decimals (self : ClaimObj) (b p : Dec) :
  o_billed_amount self = PDec b -> o_paid_amount self = PDec p ->
  clean self = Return tt \/ clean self = Raise ValidationError.
Proof.
  intros Eb Ep. unfold clean. rewrite Eb, Ep.
  destruct (truthy _ && truthy _); [| now left].
  cbn [py_gt obind]. destruct (Dgt p b); [right | left]; reflexivity.
Qed.

Lemma full_clean_refused (self : ClaimObj) :
  field_refused self ->
  full_clean self = Raise ValidationError \/ full_clean self = Raise TypeError.
Proof.
  intros Href. unfold full_clean. cbv zeta.
  match goal with |- obind (clean ?x) _ = _ \/ _ =>
    destruct (clean_outcomes x) as [-> | [-> | ->]] end;
    cbn [obind]; [| now left | now right].
  left. unfold field_refused in Href.
  destruct (CharField_clean 20 None (o_claim_id self)); [| reflexivity].
  destruct (CharField_clean 200 None (o_patient_name self)); [| reflexivity].
  destruct (DecimalField_clean (o_billed_amount self)); [| reflexivity].
  destruct (DecimalField_clean (o_paid_amount self)); [| reflexivity].
  destruct (CharField_clean 20 (Some STATUS_CHOICES) (o_status self));
    [| reflexivity].
  destruct (CharField_clean 100 None (o_insurer_name self)); [| reflexivity].
  destruct Href as [E | [E | [E | [E | [E | E]]]]]; discriminate.
Qed.

Lemma full_clean_refused_decimals (self : ClaimObj) (b p : Dec) :
  o_billed_amount self = PDec b -> o_paid_amount self = PDec p ->
  field_refused self -> full_clean self = Raise ValidationError.
Proof.
  intros Eb Ep Href.
  destruct (full_clean_refused self Href) as [E | E]; [exact E |].
  exfalso. unfold full_clean in E. cbv zeta in E.
  match type of E with obind (clean ?x) _ = _ =>
    destruct (clean_decimals x
                (default b (DecimalField_clean (o_billed_amount self)))
                (default p (DecimalField_clean (o_paid_amount self))))
      as [Hc | Hc] end.
  - cbn [o_billed_amount]. rewrite Eb.
    destruct (DecimalField_clean (PDec b)); reflexivity.
  - cbn [o_paid_amount]. rewrite Ep.
    destruct (DecimalField_clean (PDec p)); reflexivity.
  - rewrite Hc in E. cbn [obind] in E.
    repeat match type of E with
           | match ?x with _ => _ end = _ => destruct x; try discriminate
           end.
  - rewrite Hc in E. discriminate.
Qed.


(** A row that parses but whose instance fails the validation of one of
    its fields (an unknown status, a blank or too long text, a negative
    amount or one with too many digits) is not passed over: it ends the
    command's loop with [ValidationError] and the upload's loop with
    [ValidationError] or [TypeError], the database as it was before the
    row. *)
Theorem row_refused_by_validation_ends_the_load (row : CsvRow)
    (rest : list CsvRow) (n : nat) (s : Store) (id name st ins : option string)
    (bs ps : string) (b p : Dec) (dd : date) :
  obind (getitem row "discharge_date") strptime = Return dd ->
  row !! "billed_amount" = Some (Some bs) -> Decimal_of_str bs = Some b ->
  row !! "paid_amount" = Some (Some ps) -> Decimal_of_str ps = Some p ->
  row !! "id" = Some id -> row !! "patient_name" = Some name ->
  row !! "status" = Some st -> row !! "insurer_name" = Some ins ->
  field_refused (instance_of id (mkDefaults name (PDec b) (PDec p) st ins dd)) ->
  Command._load_claims_loop (row :: rest) n s = (s, Raise ValidationError)
  /\ exists e,
       DataUploadView._process_claims_loop (row :: rest) n s = (s, Raise e)
       /\ (e = ValidationError \/ e = TypeError).
Proof.
  intros Hdd Hb Eb Hp Ep Hid Hname Hst Hins Href. split.
  - rewrite _load_claims_loop_run, fmap_cons. cbn [run].
    unfold Command_claim_of_row, getitem, Decimal in *.
    rewrite Hdd, Hb, Hp, Hid, Hname, Hst, Hins. cbn [obind].
    rewrite Eb, Ep. cbn [obind].
    now rewrite (full_clean_refused_decimals
                   (instance_of id (mkDefaults name (PDec b) (PDec p) st ins dd))
                   b p eq_refl eq_refl Href).
  - rewrite _process_claims_loop_run, fmap_cons. cbn [run].
    unfold View_claim_of_row, getitem in *.
    rewrite Hdd, Hb, Hp, Hid, Hname, Hst, Hins. cbn [obind raw_cell].
    assert (Href' : field_refused
                      (instance_of id
                         (mkDefaults name (PStr bs) (PStr ps) st ins dd))).
    { unfold field_refused in *.
      cbn [instance_of o_claim_id o_patient_name o_billed_amount o_paid_amount
           o_status o_insurer_name d_patient_name d_billed_amount d_paid_amount
           d_status d_insurer_name] in *.
      now rewrite (DecimalField_clean_parsed bs b Eb),
        (DecimalField_clean_parsed ps p Ep). }
    destruct (full_clean_refused _ Href') as [-> | ->]; eexists;
      (split; [reflexivity |]); [now left | now right].
Qed.

(** *** An amount that is not a number *)

(** A row that is complete and whose date parses, but one of whose
    amounts is not a number, is passed over by the command ([Decimal] raises
    [InvalidOperation]) and ends the upload's loop, which hands the raw text
    to the model. *)
Theorem unparsable_amount_skipped_or_fatal (row : CsvRow) (rest : list CsvRow)
    (n : nat) (s : Store) (id name st ins : option string) (bs ps : string)
    (dd : date) :
  obind (getitem row "discharge_date") strptime = Return dd ->
  row !! "billed_amount" = Some (Some bs) ->
  row !! "paid_amount" = Some (Some ps) ->
  row !! "id" = Some id -> row !! "patient_name" = Some name ->
  row !! "status" = Some st -> row !! "insurer_name" = Some ins ->
  Decimal_of_str bs = None \/ Decimal_of_str ps = None ->
  Command._load_claims_loop (row :: rest) n s
  = Command._load_claims_loop rest n s
  /\ exists e,
       DataUploadView._process_claims_loop (row :: rest) n s = (s, Raise e)
       /\ (e = ValidationError \/ e = TypeError).
Proof.
  intros Hdd Hb Hp Hid Hname Hst Hins Hbad. split.
  - rewrite !_load_claims_loop_run, fmap_cons. cbn [run].
    unfold Command_claim_of_row, getitem, Decimal in *.
    rewrite Hdd, Hb, Hp. cbn [obind].
    destruct (Decimal_of_str bs) as [b |] eqn:Eb; [| reflexivity].
    cbn [obind]. destruct Hbad as [Hbad | ->]; [discriminate | reflexivity].
  - rewrite _process_claims_loop_run, fmap_cons. cbn [run].
    unfold View_claim_of_row, getitem in *.
    rewrite Hdd, Hb, Hp, Hid, Hname, Hst, Hins. cbn [obind raw_cell].
    assert (Href : field_refused
                     (instance_of id
                        (mkDefaults name (PStr bs) (PStr ps) st ins dd))).
    { unfold field_refused.
      cbn [instance_of o_billed_amount o_paid_amount d_billed_amount
           d_paid_amount].
      unfold DecimalField_clean.
      destruct Hbad as [-> | ->]; [right; right; now left |].
      right; right; right; now left. }
    destruct (full_clean_refused _ Href) as [-> | ->]; eexists;
      (split; [reflexivity |]); [now left | now right].
Qed.

End RefusedRows.


(** ** The upload request *)

Section UploadRequests.
Context `{PyLib}.

Lemma _process_claims_file_mode (file : DataUploadView.UploadedFile)
    (m : string) (s : Store) :
  m <> "overwrite" ->
  DataUploadView._process_claims_file file m s
  = DataUploadView._process_claims_file file "append" s.
Proof.
  intros Hm. rewrite !_process_claims_file_eq.
  apply String.eqb_neq in Hm. now rewrite Hm.
Qed.

Lemma _process_claims_file_uploads (file : DataUploadView.UploadedFile)
    (mode : string) (s : Store) :
  uploads (fst (DataUploadView._process_claims_file file mode s)) = uploads s.
Proof.
  rewrite _process_claims_file_eq. cbn zeta.
  set (s0 := if String.eqb _ _ then _ else s).
  assert (Hu0 : uploads s0 = uploads s)
    by (unfold s0; now destruct (String.eqb _ _)).
  destruct (DataUploadView.read_decode file) as [text | e]; [| exact Hu0].
  rewrite run_store.
  destruct (upsert_all_frame
              (accepted View_caught (View_claim_of_row <$> View_reader text)) s0)
    as (_ & _ & ->).
  exact Hu0.
Qed.

(** The upload view does not validate [mode]: any value other than
    ['overwrite'] gives the claims, details, flags and message of an append
    upload, and is recorded as the [upload_type] of the summary when one is
    written. *)
Theorem upload_mode_other_than_overwrite_appends
    (cf df : option DataUploadView.UploadedFile) (u : nat) (m : string)
    (s : Store) :
  m <> "overwrite" ->
  let request := DataUploadView.mkRequest cf df (Some m) u in
  let append := DataUploadView.mkRequest cf df (Some "append") u in
  claims (fst (DataUploadView.post request s))
  = claims (fst (DataUploadView.post append s))
  /\ details (fst (DataUploadView.post request s))
     = details (fst (DataUploadView.post append s))
  /\ flags (fst (DataUploadView.post request s))
     = flags (fst (DataUploadView.post append s))
  /\ snd (DataUploadView.post request s) = snd (DataUploadView.post append s)
  /\ (uploads (fst (DataUploadView.post request s)) = uploads s
      \/ exists x, uploads (fst (DataUploadView.post request s)) = x :: uploads s
                   /\ upload_type x = m).
Proof.
  intros Hm. cbv zeta.
  destruct (DataUploadView.present cf) as [cfile |] eqn:Hc;
    [destruct (DataUploadView.present df) as [dfile |] eqn:Hd |].
  - rewrite (post_eq (DataUploadView.mkRequest cf df (Some m) u) cfile dfile s
               Hc Hd),
      (post_eq (DataUploadView.mkRequest cf df (Some "append") u) cfile dfile s
         Hc Hd).
    cbn [DataUploadView.POST_mode from_option id].
    rewrite (_process_claims_file_mode cfile m s Hm).
    pose proof (_process_claims_file_uploads cfile "append" s) as Hu1.
    destruct (DataUploadView._process_claims_file cfile "append" s)
      as [s1 [cc | e]]; [| repeat split; now left].
    pose proof (_process_details_file_frame dfile s1) as (_ & _ & Hu2).
    destruct (DataUploadView._process_details_file dfile s1) as [s2 [dc | e]];
      cbn [fst snd] in *.
    + repeat split. right. eexists. split.
      * cbn. rewrite Hu2, Hu1. reflexivity.
      * reflexivity.
    + repeat split. left. now rewrite Hu2.
  - unfold DataUploadView.post. cbn. rewrite Hc, Hd. repeat split. now left.
  - unfold DataUploadView.post. cbn. rewrite Hc. repeat split. now left.
Qed.

(** [post] never lets an exception out.  When it reports success it has
    written exactly one summary, with the reported claims count, the mode,
    the user and the two counts in its notes; otherwise (a missing file or
    an error) the upload table is as it was. *)
Theorem upload_is_recorded_iff_it_succeeds (request : DataUploadView.Request)
    (s : Store) :
  exists m,
    snd (DataUploadView.post request s) = Return m
    /\ match m with
       | DataUploadView.success claims_count details_count =>
           exists x,
             uploads (fst (DataUploadView.post request s)) = x :: uploads s
             /\ records_processed x = claims_count
             /\ upload_type x = default "append" (DataUploadView.POST_mode request)
             /\ upload_user x = Some (DataUploadView.user request)
             /\ notes x = "Claims: " +:+ pretty claims_count
                            +:+ ", Details: " +:+ pretty details_count
       | _ => uploads (fst (DataUploadView.post request s)) = uploads s
       end.
Proof.
  destruct (DataUploadView.present (DataUploadView.FILES_claims_file request))
    as [cf |] eqn:Hc;
    [destruct (DataUploadView.present (DataUploadView.FILES_details_file request))
       as [df |] eqn:Hd |].
  - rewrite (post_eq request cf df s Hc Hd).
    pose proof (_process_claims_file_uploads cf
                  (default "append" (DataUploadView.POST_mode request)) s) as Hu1.
    destruct (DataUploadView._process_claims_file cf _ s) as [s1 [cc | e]];
      [| eexists; split; [reflexivity | exact Hu1]].
    pose proof (_process_details_file_frame df s1) as (_ & _ & Hu2).
    destruct (DataUploadView._process_details_file df s1) as [s2 [dc | e]];
      cbn [fst snd] in *.
    + eexists. split; [reflexivity |]. eexists. split.
      * cbn. rewrite Hu2, Hu1. reflexivity.
      * repeat split.
    + eexists. split; [reflexivity |]. now rewrite Hu2.
  - unfold DataUploadView.post. rewrite Hc, Hd. eexists. split; reflexivity.
  - unfold DataUploadView.post. rewrite Hc. eexists. split; reflexivity.
Qed.

End UploadRequests.


(** ** The summary of the command *)

Section CommandSummary.
Context `{PyLib}.

Lemma _load_claims_size (fs : Command.FileSystem) (path : string) (s s1 : Store)
    (n : nat) :
  Command._load_claims fs path s = (s1, Return n) ->
  size (claims s1) = (size (claims s) + n)%nat.
Proof.
  rewrite _load_claims_eq.
  destruct (Command.open_read fs path) as [text | e]; [| discriminate].
  intros Hrun.
  pose proof (run_Return_failure _ _ _ _ _ _ _ Hrun) as Hfail.
  pose proof (run_store Command_caught false
                (Command_claim_of_row <$> csv_DictReader text "|"%char) 0%nat s)
    as Hstore.
  pose proof (run_count_created Command_caught
                (Command_claim_of_row <$> csv_DictReader text "|"%char) 0%nat s
                Hfail) as Hcount.
  rewrite Hrun in Hstore, Hcount. cbn [fst snd] in *.
  injection Hcount as ->. rewrite Hstore. apply created_count_size.
Qed.

(** When the command succeeds it has written exactly one summary, without a
    user and with the mode as its type, and the count the summary records
    is the number of claims the import added: to the claims that were
    stored in append mode, to none in overwrite mode. *)
Theorem command_summary_counts_new_claims (fs : Command.FileSystem)
    (options : Command.Options) (s s' : Store) :
  Command.handle fs options s = (s', Return tt) ->
  exists u,
    uploads s' = u :: uploads s
    /\ upload_user u = None
    /\ upload_type u = (if String.eqb (Command.mode options) "overwrite"
                        then "overwrite" else "append")
    /\ size (claims s')
       = ((if String.eqb (Command.mode options) "overwrite" then 0
           else size (claims s)) + records_processed u)%nat.
Proof.
  intros Hrun. rewrite handle_eq in Hrun.
  destruct (Command.path_exists _ _ && Command.path_exists _ _);
    [| discriminate].
  rewrite handle_body_eq in Hrun.
  pose proof (_load_claims_frame fs (Command.claims_file options)
                (Command_start options s)) as (_ & _ & Hu1).
  destruct (Command._load_claims fs (Command.claims_file options)
              (Command_start options s)) as [s1 [cc | e]] eqn:Hload;
    [| discriminate].
  apply _load_claims_size in Hload.
  pose proof (_load_claim_details_frame fs (Command.details_file options) s1)
    as (Hc2 & _ & Hu2).
  destruct (Command._load_claim_details _ _ s1) as [s2 [dc | e]];
    [| discriminate].
  injection Hrun as <-. cbn [fst] in *.
  exists (Command_summary options cc dc). repeat split.
  - simpl. rewrite Hu2, Hu1. unfold Command_start.
    now destruct (String.eqb _ _).
  - simpl. rewrite Hc2, Hload. unfold Command_start.
    now destruct (String.eqb _ _).
Qed.

End CommandSummary.


(** ** Loading the details twice *)

Lemma write_details_union l m :
  write_details l m = list_to_map (reverse l) ∪ m.
Proof.
  induction l as [| kd l IH] using rev_ind.
  - simpl. now rewrite (left_id_L ∅ (∪)).
  - unfold write_details in *. rewrite foldl_app, reverse_snoc. simpl.
    rewrite IH. now rewrite insert_union_l.
Qed.

Lemma write_details_idemp l m :
  write_details l (write_details l m) = write_details l m.
Proof.
  rewrite !write_details_union, (assoc_L (∪)). f_equal. apply (idemp_L (∪)).
Qed.

Lemma write_details_present l m kd :
  kd ∈ l -> is_Some (write_details l m !! fst kd).
Proof.
  induction l as [| kd' l IH] using rev_ind; intros Hin; [inversion Hin |].
  unfold write_details in *. rewrite foldl_app. simpl.
  apply elem_of_app in Hin as [Hin | Hin].
  - destruct (decide (fst kd' = fst kd)) as [-> | Hne].
    + rewrite lookup_insert_eq. eauto.
    + rewrite lookup_insert_ne by exact Hne. now apply IH.
  - apply list_elem_of_singleton in Hin as ->. rewrite lookup_insert_eq. eauto.
Qed.

Lemma details_written_claims rows s t :
  claims s = claims t -> details_written rows s = details_written rows t.
Proof.
  intros E. induction rows as [| row rows IH]; [reflexivity |].
  cbn [details_written]. now rewrite (detail_of_row_claims row s t E), IH.
Qed.

Lemma details_failure_claims rows s t :
  claims s = claims t -> details_failure rows s = details_failure rows t.
Proof.
  intros E. induction rows as [| row rows IH]; [reflexivity |].
  cbn [details_failure]. now rewrite (detail_of_row_claims row s t E), IH.
Qed.

Lemma View_details_step_caught row n s :
  View_details_step row n s
  = match detail_of_row row s with
    | Return (Some (k, d)) => (set_details (insert k d) s, Return (S n))
    | Return None => (s, Return n)
    | Raise e => if caught_by [KeyError] e then (s, Return n) else (s, Raise e)
    end.
Proof.
  unfold View_details_step.
  destruct (detail_of_row row s) as [[[k d] |] | e] eqn:Hrow; try reflexivity.
  now destruct (detail_of_row_raises _ _ _ Hrow) as [-> | ->].
Qed.

Lemma _load_claim_details_loop_store rows n s :
  fst (Command._load_claim_details_loop rows n s)
  = set_details (write_details (details_written rows s)) s.
Proof.
  revert n s. induction rows as [| row rows IH]; intros n s;
    [now destruct s |].
  rewrite _load_claim_details_loop_cons. unfold Command_details_step.
  cbn [details_written].
  destruct (detail_of_row row s) as [[[k d] |] | e] eqn:Hrow.
  - rewrite IH.
    rewrite (details_written_claims rows (set_details (insert k d) s) s eq_refl).
    reflexivity.
  - apply IH.
  - destruct (caught_by [KeyError] e); [apply IH | now destruct s].
Qed.

Lemma _process_details_loop_store rows n s :
  fst (DataUploadView._process_details_loop rows n s)
  = set_details (write_details (details_written rows s)) s.
Proof.
  revert n s. induction rows as [| row rows IH]; intros n s;
    [now destruct s |].
  rewrite _process_details_loop_cons, View_details_step_caught.
  cbn [details_written].
  destruct (detail_of_row row s) as [[[k d] |] | e] eqn:Hrow.
  - rewrite IH.
    rewrite (details_written_claims rows (set_details (insert k d) s) s eq_refl).
    reflexivity.
  - apply IH.
  - destruct (caught_by [KeyError] e); [apply IH | now destruct s].
Qed.

Lemma details_loops_failure rows n s e :
  details_failure rows s = Some e ->
  snd (Command._load_claim_details_loop rows n s) = Raise e
  /\ snd (DataUploadView._process_details_loop rows n s) = Raise e.
Proof.
  revert n s. induction rows as [| row rows IH]; intros n s Hf; [discriminate |].
  rewrite _load_claim_details_loop_cons, _process_details_loop_cons,
    View_details_step_caught.
  unfold Command_details_step. cbn [details_failure] in Hf.
  destruct (detail_of_row row s) as [[[k d] |] | e0] eqn:Hrow.
  - assert (Hf' : details_failure rows (set_details (insert k d) s) = Some e)
      by (rewrite <- Hf; apply details_failure_claims; reflexivity).
    split; [exact (proj1 (IH _ _ Hf')) | exact (proj2 (IH _ _ Hf'))].
  - now apply IH.
  - destruct (caught_by [KeyError] e0); [now apply IH |].
    injection Hf as ->. split; reflexivity.
Qed.

Lemma _process_details_loop_count rows n s :
  details_failure rows s = None ->
  snd (DataUploadView._process_details_loop rows n s)
  = Return (n + length (details_written rows s))%nat.
Proof.
  revert n s. induction rows as [| row rows IH]; intros n s Hf.
  - cbn. f_equal. lia.
  - rewrite _process_details_loop_cons, View_details_step_caught.
    cbn [details_failure details_written] in *.
    destruct (detail_of_row row s) as [[[k d] |] | e0] eqn:Hrow.
    + rewrite IH
        by (rewrite <- Hf; apply details_failure_claims; reflexivity).
      rewrite (details_written_claims rows (set_details (insert k d) s) s
                 eq_refl).
      cbn [length]. f_equal. lia.
    + now apply IH.
    + destruct (caught_by [KeyError] e0); [now apply IH | discriminate].
Qed.

Lemma _load_claim_details_loop_returns rows n s :
  details_failure rows s = None ->
  exists n', snd (Command._load_claim_details_loop rows n s) = Return n'.
Proof.
  revert n s. induction rows as [| row rows IH]; intros n s Hf; [cbn; eauto |].
  rewrite _load_claim_details_loop_cons. unfold Command_details_step.
  cbn [details_failure] in Hf.
  destruct (detail_of_row row s) as [[[k d] |] | e0] eqn:Hrow.
  - apply IH.
    rewrite <- Hf. apply details_failure_claims. reflexivity.
  - now apply IH.
  - destruct (caught_by [KeyError] e0); [now apply IH | discriminate].
Qed.

Lemma _load_claim_details_loop_present rows n s :
  details_failure rows s = None ->
  (forall kd, kd ∈ details_written rows s -> is_Some (details s !! fst kd)) ->
  snd (Command._load_claim_details_loop rows n s) = Return n.
Proof.
  revert n s. induction rows as [| row rows IH]; intros n s Hf Hall;
    [reflexivity |].
  rewrite _load_claim_details_loop_cons. unfold Command_details_step.
  cbn [details_failure details_written] in *.
  destruct (detail_of_row row s) as [[[k d] |] | e0] eqn:Hrow.
  - destruct (Hall (k, d)) as (d0 & Hd0); [apply elem_of_cons; now left |].
    cbn [fst] in Hd0. rewrite Hd0.
    rewrite bool_decide_eq_false_2 by discriminate.
    apply IH.
    + rewrite <- Hf. apply details_failure_claims. reflexivity.
    + rewrite (details_written_claims rows (set_details (insert k d) s) s eq_refl).
      intros kd Hin. simpl.
      destruct (decide (k = fst kd)) as [<- | Hne].
      * rewrite lookup_insert_eq. eauto.
      * rewrite lookup_insert_ne by exact Hne. apply Hall.
        apply elem_of_cons. now right.
  - now apply IH.
  - destruct (caught_by [KeyError] e0); [now apply IH | discriminate].
Qed.

Section DetailsTwice.
Context `{PyLib}.

Lemma _load_claim_details_loop_twice rows n m s :
  let load k := Command._load_claim_details_loop rows k in
  fst (load m (fst (load n s))) = fst (load n s)
  /\ snd (load m (fst (load n s)))
     = match snd (load n s) with
       | Return _ => Return m
       | Raise e => Raise e
       end.
Proof.
  cbv zeta. rewrite !_load_claim_details_loop_store.
  set (W := details_written rows s).
  assert (EW : details_written rows (set_details (write_details W) s) = W)
    by (unfold W; apply details_written_claims; reflexivity).
  rewrite EW. split.
  - apply Store_eq; try reflexivity. simpl. apply write_details_idemp.
  - destruct (details_failure rows s) as [e |] eqn:Hf.
    + destruct (details_loops_failure rows n s e Hf) as (-> & _).
      apply details_loops_failure.
      rewrite <- Hf. apply details_failure_claims. reflexivity.
    + destruct (_load_claim_details_loop_returns rows n s Hf) as (n' & ->).
      apply _load_claim_details_loop_present.
      * rewrite <- Hf. apply details_failure_claims. reflexivity.
      * rewrite EW. intros kd Hin. simpl. now apply write_details_present.
Qed.

Lemma _process_details_loop_twice rows n s :
  let load := DataUploadView._process_details_loop rows n in
  fst (load (fst (load s))) = fst (load s)
  /\ snd (load (fst (load s))) = snd (load s).
Proof.
  cbv zeta. rewrite !_process_details_loop_store.
  set (W := details_written rows s).
  assert (EW : details_written rows (set_details (write_details W) s) = W)
    by (unfold W; apply details_written_claims; reflexivity).
  rewrite EW. split.
  - apply Store_eq; try reflexivity. simpl. apply write_details_idemp.
  - destruct (details_failure rows s) as [e |] eqn:Hf.
    + destruct (details_loops_failure rows n s e Hf) as (_ & ->).
      apply details_loops_failure.
      rewrite <- Hf. apply details_failure_claims. reflexivity.
    + assert (Hf' : details_failure rows (set_details (write_details W) s) = None)
        by (rewrite <- Hf; apply details_failure_claims; reflexivity).
      rewrite (_process_details_loop_count rows n s Hf).
      rewrite (_process_details_loop_count rows n _ Hf'), EW. reflexivity.
Qed.

(** Loading a details source a second time changes nothing: the
    database after the second run is the database after the first; the
    command then reports 0 created details and the upload the same count as
    before, and a run that ended with an exception ends with it again. *)
Theorem details_import_idempotent (fs : Command.FileSystem) (path : string)
    (file : DataUploadView.UploadedFile) (s : Store) :
  (let load := Command._load_claim_details fs path in
   fst (load (fst (load s))) = fst (load s)
   /\ snd (load (fst (load s)))
      = match snd (load s) with
        | Return _ => Return 0%nat
        | Raise e => Raise e
        end)
  /\ (let load := DataUploadView._process_details_file file in
      fst (load (fst (load s))) = fst (load s)
      /\ snd (load (fst (load s))) = snd (load s)).
Proof.
  split; cbv zeta.
  - unfold Command._load_claim_details, bind, lift.
    destruct (Command.open_read fs path) as [text | e]; [| split; reflexivity].
    apply (_load_claim_details_loop_twice (csv_DictReader text "|"%char)
             0%nat 0%nat s).
  - unfold DataUploadView._process_details_file, bind, lift.
    destruct (DataUploadView.read_decode file) as [text | e];
      [| split; reflexivity].
    destruct (splitlines text); [split; reflexivity |].
    apply _process_details_loop_twice.
Qed.

End DetailsTwice.


(** ** The flag views *)

Lemma add_flag_htmx_rows (request : ClaimViews.Request) (claim_id : string)
    (s : Store) (pk : nat) (f : ClaimFlag) :
  flags s !! pk = Some f ->
  let added := flags (fst (ClaimViews.add_flag_htmx request claim_id s)) in
  (exists f', added !! pk = Some f' /\ flag_key f' = flag_key f)
  /\ (flag_user f <> ClaimViews.user request -> added !! pk = Some f).
Proof.
  intros Hpk. cbv zeta.
  assert (Hlt : (pk < length (flags s))%nat) by now apply lookup_lt_Some with f.
  destruct (add_flag_htmx_cases request claim_id s)
    as (_ & _ & _ & [-> | [(_ & _ & _ & ->) | (_ & _ & j & f0 & Hj & Hkey & ->)]]).
  - split; [now exists f | now intros _].
  - rewrite lookup_app_l by exact Hlt. split; [now exists f | now intros _].
  - destruct (decide (j = pk)) as [-> | Hne].
    + rewrite list_lookup_insert_eq by exact Hlt.
      assert (f0 = f) as -> by congruence. split.
      * eexists. split; reflexivity.
      * intros Hu. exfalso. apply Hu. unfold flag_key in Hkey. congruence.
    + rewrite list_lookup_insert_ne by exact Hne.
      split; [now exists f | now intros _].
Qed.

Lemma remove_flag_htmx_rows (request : ClaimViews.Request) (flag_id : nat)
    (s : Store) (pk : nat) (f : ClaimFlag) :
  flags s !! pk = Some f ->
  let removed := flags (fst (ClaimViews.remove_flag_htmx request flag_id s)) in
  (exists f', removed !! pk = Some f' /\ flag_key f' = flag_key f
              /\ reason f' = reason f)
  /\ length removed = length (flags s)
  /\ (flag_user f <> ClaimViews.user request -> removed !! pk = Some f).
Proof.
  intros Hpk. cbv zeta.
  assert (Hlt : (pk < length (flags s))%nat) by now apply lookup_lt_Some with f.
  destruct (remove_flag_htmx_cases request flag_id s)
    as (_ & _ & _ & [-> | (f1 & Hf1 & Hu1 & ->)]).
  - split; [now exists f |]. split; [reflexivity | now intros _].
  - rewrite length_insert. destruct (decide (flag_id = pk)) as [-> | Hne].
    + rewrite list_lookup_insert_eq by exact Hlt.
      assert (f1 = f) as -> by congruence. split.
      * eexists. split; [reflexivity |]. split; reflexivity.
      * split; [reflexivity |]. intros Hu. contradiction.
    + rewrite list_lookup_insert_ne by exact Hne.
      split; [now exists f |]. split; [reflexivity | now intros _].
Qed.

(** The two flag views never delete a row and never change which
    (claim, user, flag type) triple a primary key stands for;
    [remove_flag_htmx] also leaves every reason as it was.  A flag of
    another user than the one of the request is left exactly as it was. *)
Theorem flag_views_keep_other_users_flags (request : ClaimViews.Request)
    (claim_id : string) (flag_id : nat) (s : Store) (pk : nat) (f : ClaimFlag) :
  flags s !! pk = Some f ->
  let added := flags (fst (ClaimViews.add_flag_htmx request claim_id s)) in
  let removed := flags (fst (ClaimViews.remove_flag_htmx request flag_id s)) in
  (exists f', added !! pk = Some f' /\ flag_key f' = flag_key f)
  /\ (exists f', removed !! pk = Some f' /\ flag_key f' = flag_key f
                 /\ reason f' = reason f)
  /\ length removed = length (flags s)
  /\ (flag_user f <> ClaimViews.user request ->
      added !! pk = Some f /\ removed !! pk = Some f).
Proof.
  intros Hpk. cbv zeta.
  destruct (add_flag_htmx_rows request claim_id s pk f Hpk) as (Ha1 & Ha2).
  destruct (remove_flag_htmx_rows request flag_id s pk f Hpk) as (Hr1 & Hr2 & Hr3).
  repeat split; auto.
Qed.

(** The flag views answer a request they cannot serve with a 404 and write
    nothing: [add_flag_htmx] for a [claim_id] that is not stored, whatever
    the method, and [remove_flag_htmx] for a flag that does not exist or
    belongs to another user.  A request of [add_flag_htmx] that is not a
    POST never writes. *)
Theorem flag_views_refuse_without_writing (request : ClaimViews.Request)
    (claim_id : string) (flag_id : nat) (s : Store) :
  (ClaimViews.method request <> "POST" ->
   fst (ClaimViews.add_flag_htmx request claim_id s) = s)
  /\ (claims s !! claim_id = None ->
      ClaimViews.add_flag_htmx request claim_id s = (s, Raise Http404))
  /\ (flags s !! flag_id = None ->
      ClaimViews.remove_flag_htmx request flag_id s = (s, Raise Http404))
  /\ (forall f, flags s !! flag_id = Some f ->
                flag_user f <> ClaimViews.user request ->
                ClaimViews.remove_flag_htmx request flag_id s
                = (s, Raise Http404)).
Proof.
  split; [| split; [| split]].
  - intros Hm. apply String.eqb_neq in Hm.
    unfold ClaimViews.add_flag_htmx, get_claim_or_404, try_except,
      Claim_objects_get, bind, raise, ret. rewrite Hm.
    now destruct (decide (is_Some (claims s !! claim_id))).
  - intros Hnone.
    unfold ClaimViews.add_flag_htmx, get_claim_or_404, try_except,
      Claim_objects_get, bind, raise, ret.
    destruct (String.eqb _ _);
      (destruct (decide (is_Some (claims s !! claim_id))) as [[c Hc] | _];
       [congruence | reflexivity]).
  - intros Hnone. unfold ClaimViews.remove_flag_htmx. now rewrite Hnone.
  - intros f Hf Hu. unfold ClaimViews.remove_flag_htmx. rewrite Hf.
    now destruct (decide _).
Qed.


(** ** The flagged claims of the dashboard *)

Lemma elem_of_flagged (s : Store) (k : string) :
  k ∈ dom (DashboardView.flagged s)
  <-> is_Some (claims s !! k)
      /\ exists f, f ∈ flags s /\ flag_claim f = k /\ is_active f = true.
Proof.
  unfold DashboardView.flagged. rewrite elem_of_dom. unfold is_Some.
  setoid_rewrite map_lookup_filter_Some. unfold DashboardView.has_active_flag.
  setoid_rewrite Exists_exists. cbn [fst]. split.
  - intros (c & Hc & Hex). split; [eauto | exact Hex].
  - intros ((c & Hc) & Hex). exists c. split; [exact Hc | exact Hex].
Qed.

Lemma flagged_claims_le (s : Store) :
  (DashboardView.flagged_claims s <= size (claims s))%nat.
Proof.
  unfold DashboardView.flagged_claims, DashboardView.flagged.
  apply map_subseteq_size, map_filter_subseteq.
Qed.

Lemma add_flag_htmx_new (request : ClaimViews.Request) (claim_id : string)
    (s : Store) :
  ClaimViews.method request = "POST" ->
  is_Some (claims s !! claim_id) ->
  (claim_id, ClaimViews.user request,
   default "review" (ClaimViews.POST_flag_type request)) ∉ flag_key <$> flags s ->
  flags (fst (ClaimViews.add_flag_htmx request claim_id s))
  = (flags s ++ [mkFlag claim_id (ClaimViews.user request)
                   (default "review" (ClaimViews.POST_flag_type request))
                   (default "" (ClaimViews.POST_reason request)) true])%list.
Proof.
  intros Hpost Hclaim Hnew.
  unfold ClaimViews.add_flag_htmx, get_claim_or_404, try_except,
    Claim_objects_get, bind, raise, ret.
  rewrite Hpost. simpl.
  destruct (decide (is_Some (claims s !! claim_id))); [| contradiction].
  unfold ClaimViews.ClaimFlag_objects_get_or_create.
  now rewrite (matching_from_nil 0 _ _ _ _ Hnew).
Qed.

Section FlaggedClaims.
Context `{PyLib}.

(** In every database the application can reach, the dashboard's count
    of flagged claims is at most the number of claims; a POST of
    [add_flag_htmx] for a stored claim makes that claim a flagged one and
    changes the standing of no other claim; [remove_flag_htmx] adds no
    claim to the flagged ones, and only the claim of the flag it names can
    leave them. *)
Theorem flagged_claims_follow_the_flags (history : list request)
    (request : ClaimViews.Request) (claim_id : string) (flag_id : nat) :
  let s := serve_all history empty_store in
  let added := fst (ClaimViews.add_flag_htmx request claim_id s) in
  let removed := fst (ClaimViews.remove_flag_htmx request flag_id s) in
  (DashboardView.flagged_claims s <= DashboardView.total_claims
                         (DashboardView.get_context_data s))%nat
  /\ (ClaimViews.method request = "POST" -> is_Some (claims s !! claim_id) ->
      dom (DashboardView.flagged added)
      = dom (DashboardView.flagged s) ∪ {[claim_id]})
  /\ dom (DashboardView.flagged removed) ⊆ dom (DashboardView.flagged s)
  /\ (forall f, flags s !! flag_id = Some f ->
                dom (DashboardView.flagged s) ∖ {[flag_claim f]}
                ⊆ dom (DashboardView.flagged removed)).
Proof.
  intros s added removed. split; [apply flagged_claims_le |].
  pose proof (serve_all_unique history) as Hu. fold s in Hu.
  split; [| split].
  - intros Hpost Hclaim.
    set (t := default "review" (ClaimViews.POST_flag_type request)).
    set (r := default "" (ClaimViews.POST_reason request)).
    pose proof (add_flag_htmx_claims request claim_id s) as Ec. fold added in Ec.
    assert (Hflags :
      flags added = (flags s ++ [mkFlag claim_id (ClaimViews.user request) t r
                                   true])%list
      \/ exists pk f, flags s !! pk = Some f /\ flag_claim f = claim_id
                      /\ flags added = <[pk := ClaimViews.assign f true r]> (flags s)).
    { destruct (decide ((claim_id, ClaimViews.user request, t)
                        ∈ flag_key <$> flags s)) as [Hin | Hnotin].
      - right. apply list_elem_of_fmap in Hin as (f & Hkey & Hin).
        apply list_elem_of_lookup in Hin as (pk & Hpk).
        exists pk, f. split; [exact Hpk |].
        split; [unfold flag_key in Hkey; congruence |].
        unfold added.
        now rewrite (add_flag_htmx_again request claim_id s pk f Hu Hpost Hclaim
                       Hpk (eq_sym Hkey)).
      - left. now apply add_flag_htmx_new. }
    apply set_eq. intros k.
    rewrite elem_of_union, elem_of_singleton, !elem_of_flagged, Ec.
    destruct Hflags as [-> | (pk & f0 & Hpk & Hc0 & ->)].
    + setoid_rewrite elem_of_app. setoid_rewrite list_elem_of_singleton. split.
      * intros (Hk & f & [Hin | ->] & Hfk & Hact).
        -- left. split; [exact Hk |]. now exists f.
        -- right. now rewrite <- Hfk.
      * intros [(Hk & f & Hin & Hfk & Hact) | ->].
        -- split; [exact Hk |]. exists f. auto.
        -- split; [exact Hclaim |]. eexists. split; [now right |]. now split.
    + assert (Hlt : (pk < length (flags s))%nat)
        by now apply lookup_lt_Some with f0.
      split.
      * intros (Hk & f & Hin & Hfk & Hact).
        apply list_elem_of_lookup in Hin as (j & Hj).
        destruct (decide (pk = j)) as [<- | Hne].
        -- rewrite list_lookup_insert_eq in Hj by exact Hlt.
           injection Hj as <-. right. simpl in Hfk. congruence.
        -- rewrite list_lookup_insert_ne in Hj by exact Hne.
           left. split; [exact Hk |]. exists f.
           split; [apply list_elem_of_lookup; now exists j | now split].
      * intros [(Hk & f & Hin & Hfk & Hact) | ->].
        -- split; [exact Hk |].
           apply list_elem_of_lookup in Hin as (j & Hj).
           destruct (decide (pk = j)) as [<- | Hne].
           ++ exists (ClaimViews.assign f0 true r). split.
              ** apply list_elem_of_lookup. exists pk.
                 now rewrite list_lookup_insert_eq by exact Hlt.
              ** assert (f = f0) as -> by congruence. now split.
           ++ exists f. split; [| now split].
              apply list_elem_of_lookup. exists j.
              now rewrite list_lookup_insert_ne by exact Hne.
        -- split; [exact Hclaim |].
           exists (ClaimViews.assign f0 true r). split.
           ++ apply list_elem_of_lookup. exists pk.
              now rewrite list_lookup_insert_eq by exact Hlt.
           ++ now split.
  - intros k. rewrite !elem_of_flagged.
    destruct (remove_flag_htmx_cases request flag_id s)
      as (Ec & _ & _ & Hflags).
    fold removed in Ec, Hflags. rewrite Ec.
    destruct Hflags as [-> | (f1 & Hf1 & _ & ->)]; [tauto |].
    intros (Hk & f & Hin & Hfk & Hact). split; [exact Hk |].
    apply list_elem_of_lookup in Hin as (j & Hj).
    destruct (decide (flag_id = j)) as [<- | Hne].
    + rewrite list_lookup_insert_eq in Hj by now apply lookup_lt_Some with f1.
      injection Hj as <-. discriminate.
    + rewrite list_lookup_insert_ne in Hj by exact Hne.
      exists f. split; [apply list_elem_of_lookup; now exists j | now split].
  - intros f Hf k. rewrite elem_of_difference, elem_of_singleton, !elem_of_flagged.
    destruct (remove_flag_htmx_cases request flag_id s)
      as (Ec & _ & _ & Hflags).
    fold removed in Ec, Hflags. rewrite Ec.
    destruct Hflags as [-> | (f1 & Hf1 & _ & ->)]; [tauto |].
    assert (f1 = f) as -> by congruence.
    intros ((Hk & f2 & Hin & Hfk & Hact) & Hne). split; [exact Hk |].
    apply list_elem_of_lookup in Hin as (j & Hj).
    exists f2. split; [| now split].
    apply list_elem_of_lookup. exists j.
    rewrite list_lookup_insert_ne; [exact Hj |].
    intros <-. apply Hne. congruence.
Qed.

End FlaggedClaims.


(** ** The status breakdown of the dashboard *)

#[local] Instance status_le_total : Total DashboardView.status_le.
Proof. intros a b. apply String.leb_total. Qed.









(** ** CPT codes *)

Lemma split_on_length (c : ascii) (cur : list ascii) (s : string) :
  length (split_on c cur s) = S (count_char c s).
Proof.
  revert cur. induction s as [| a s IH]; intros cur; [reflexivity |].
  cbn [split_on count_char]. destruct (Ascii.eqb a c).
  - cbn [length]. now rewrite IH.
  - now rewrite IH.
Qed.

Lemma lstrip_idemp (l : list ascii) : lstrip (lstrip l) = lstrip l.
Proof.
  induction l as [| c l IH]; [reflexivity |]. cbn [lstrip].
  destruct (is_space c) eqn:E; [exact IH |]. cbn [lstrip]. now rewrite E.
Qed.

Lemma lstrip_suffix (l : list ascii) :
  exists sp, l = (sp ++ lstrip l)%list /\ Forall (fun c => is_space c = true) sp.
Proof.
  induction l as [| c l (sp & E & Hsp)]; [now exists [] |]. cbn [lstrip].
  destruct (is_space c) eqn:Ec.
  - exists (c :: sp). split; [simpl; now rewrite <- E | now constructor].
  - now exists [].
Qed.

Lemma lstrip_head (l : list ascii) (c : ascii) (rest : list ascii) :
  lstrip l = c :: rest -> is_space c = false.
Proof.
  induction l as [| a l IH]; [discriminate |]. cbn [lstrip].
  destruct (is_space a) eqn:E; [exact IH |]. now intros [= <- _].
Qed.

Lemma lstrip_id (l : list ascii) :
  match l with [] => True | c :: _ => is_space c = false end -> lstrip l = l.
Proof. destruct l as [| c l]; [reflexivity |]. cbn. now intros ->. Qed.

(** The characters [strip] leaves start and end with no space. *)
Lemma strip_chars (l : list ascii) :
  let r := rev (lstrip (rev (lstrip l))) in
  lstrip r = r /\ lstrip (rev r) = rev r.
Proof.
  cbv zeta. set (k := lstrip l). split.
  - destruct (lstrip_suffix (rev k)) as (sp & E & Hsp).
    set (m := lstrip (rev k)) in *.
    apply lstrip_id.
    destruct (rev m) as [| c rest] eqn:Hrev; [exact I |].
    assert (Ek : k = ((c :: rest) ++ rev sp)%list).
    { rewrite <- Hrev, <- rev_app_distr, <- E. now rewrite rev_involutive. }
    unfold k in Ek. simpl in Ek. now apply lstrip_head in Ek.
  - rewrite rev_involutive. apply lstrip_idemp.
Qed.

Lemma strip_idemp (s : string) : strip (strip s) = strip s.
Proof.
  unfold strip. rewrite list_ascii_of_string_of_list_ascii.
  destruct (strip_chars (list_ascii_of_string s)) as (E1 & E2).
  now rewrite E1, E2, rev_involutive.
Qed.

Lemma mem_char_app (c : ascii) (a b : string) :
  mem_char c (a +:+ b) = mem_char c a || mem_char c b.
Proof.
  induction a as [| x a IH]; [reflexivity |]. simpl.
  now rewrite IH, orb_assoc.
Qed.

Lemma mem_char_of_list (c : ascii) (l : list ascii) :
  mem_char c (string_of_list_ascii l) = true <-> c ∈ l.
Proof.
  rewrite mem_char_In, list_ascii_of_string_of_list_ascii. symmetry.
  apply list_elem_of_In.
Qed.

Lemma mem_char_false (c : ascii) (s : string) :
  mem_char c s = false <-> c ∉ list_ascii_of_string s.
Proof.
  rewrite <- not_true_iff_false, mem_char_In, list_elem_of_In. reflexivity.
Qed.

Lemma elem_of_rev {A} (l : list A) (x : A) : x ∈ rev l <-> x ∈ l.
Proof. rewrite !list_elem_of_In. symmetry. apply in_rev. Qed.

Lemma split_on_pieces (c : ascii) (cur : list ascii) (s : string) (x : string) :
  c ∉ cur -> x ∈ split_on c cur s -> mem_char c x = false.
Proof.
  revert cur. induction s as [| a s IH]; intros cur Hcur Hin.
  - cbn [split_on] in Hin. apply list_elem_of_singleton in Hin as ->.
    apply not_true_iff_false. now rewrite mem_char_of_list, elem_of_rev.
  - cbn [split_on] in Hin. destruct (Ascii.eqb_spec a c) as [-> | Hne].
    + apply elem_of_cons in Hin as [-> | Hin].
      * apply not_true_iff_false. now rewrite mem_char_of_list, elem_of_rev.
      * apply (IH []); [apply not_elem_of_nil | exact Hin].
    + apply (IH (a :: cur)); [| exact Hin].
      apply not_elem_of_cons. split; [congruence | exact Hcur].
Qed.

Lemma lstrip_subseteq (l : list ascii) (c : ascii) : c ∈ lstrip l -> c ∈ l.
Proof.
  induction l as [| a l IH]; [easy |]. cbn [lstrip].
  destruct (is_space a); [| easy]. intros Hin. apply elem_of_cons. right. auto.
Qed.

Lemma strip_chars_subseteq (s : string) (c : ascii) :
  mem_char c s = false -> mem_char c (strip s) = false.
Proof.
  rewrite !mem_char_false. intros Hs Hin. apply Hs. unfold strip in Hin.
  rewrite list_ascii_of_string_of_list_ascii in Hin.
  apply elem_of_rev, lstrip_subseteq, elem_of_rev, lstrip_subseteq in Hin.
  exact Hin.
Qed.

(** [cpt_codes_list] is empty for an empty [cpt_codes]; otherwise it has
    one more code than [cpt_codes] has commas (empty codes included), and
    each code holds no comma and is left unchanged by [strip]. *)
Theorem cpt_codes_list_shape (self : ClaimDetail) :
  (cpt_codes self = "" -> cpt_codes_list self = [])
  /\ (cpt_codes self <> "" ->
      length (cpt_codes_list self) = S (count_char "," (cpt_codes self)))
  /\ (forall code, code ∈ cpt_codes_list self ->
                   mem_char "," code = false /\ strip code = code).
Proof.
  unfold cpt_codes_list. split; [| split].
  - now intros ->.
  - intros Hne. apply String.eqb_neq in Hne. rewrite Hne.
    now rewrite length_fmap, split_on_length.
  - intros code Hin.
    destruct (String.eqb (cpt_codes self) ""); [inversion Hin |].
    apply list_elem_of_fmap in Hin as (piece & -> & Hin).
    split; [| apply strip_idemp].
    apply strip_chars_subseteq.
    eapply split_on_pieces; [apply not_elem_of_nil | exact Hin].
Qed.

Lemma split_on_whole (c : ascii) (cur : list ascii) (x : string) :
  mem_char c x = false ->
  split_on c cur x = [string_of_list_ascii (rev cur ++ list_ascii_of_string x)].
Proof.
  revert cur. induction x as [| a x IH]; intros cur Hx.
  - cbn. now rewrite app_nil_r.
  - cbn [mem_char] in Hx. apply orb_false_elim in Hx as [Ha Hx].
    cbn [split_on]. rewrite Ha, (IH _ Hx). cbn [rev list_ascii_of_string].
    now rewrite <- app_assoc.
Qed.

Lemma split_on_first (c : ascii) (cur : list ascii) (x rest : string) :
  mem_char c x = false ->
  split_on c cur (x +:+ String c rest)
  = string_of_list_ascii (rev cur ++ list_ascii_of_string x)
    :: split_on c [] rest.
Proof.
  revert cur. induction x as [| a x IH]; intros cur Hx.
  - simpl. rewrite Ascii.eqb_refl. now rewrite app_nil_r.
  - cbn [mem_char] in Hx. apply orb_false_elim in Hx as [Ha Hx].
    change (String a x +:+ String c rest) with (String a (x +:+ String c rest)).
    cbn [split_on]. rewrite Ha, (IH _ Hx).
    cbn [rev list_ascii_of_string]. now rewrite <- app_assoc.
Qed.

Lemma append_assoc (a b c : string) : (a +:+ b) +:+ c = a +:+ (b +:+ c).
Proof.
  induction a as [| x a IH]; [reflexivity |].
  change (String x ((a +:+ b) +:+ c) = String x (a +:+ (b +:+ c))).
  now rewrite IH.
Qed.

Lemma split_on_padded (pad : string) (codes : list string) (y : string) :
  mem_char "," pad = false ->
  (forall code, code ∈ y :: codes -> mem_char "," code = false) ->
  split_on "," [] (pad +:+ String.concat (String "," pad) (y :: codes))
  = (fun code => pad +:+ code) <$> (y :: codes).
Proof.
  intros Hpad. revert y. induction codes as [| z codes IH]; intros y Hall.
  - cbn [String.concat]. rewrite split_on_whole.
    + cbn [rev app]. now rewrite string_of_list_ascii_of_string.
    + rewrite mem_char_app, Hpad. cbn [orb]. apply Hall, elem_of_cons. now left.
  - change (String.concat (String "," pad) (y :: z :: codes))
      with (y +:+ String "," (pad +:+ String.concat (String "," pad)
                                          (z :: codes))).
    rewrite <- append_assoc, split_on_first.
    + cbn [rev app]. rewrite string_of_list_ascii_of_string, fmap_cons.
      f_equal. apply IH. intros code Hc. apply Hall, elem_of_cons. now right.
    + rewrite mem_char_app, Hpad. cbn [orb]. apply Hall, elem_of_cons. now left.
Qed.

Lemma split_on_concat (pad : string) (codes : list string) (x : string) :
  mem_char "," pad = false ->
  (forall code, code ∈ x :: codes -> mem_char "," code = false) ->
  split_on "," [] (String.concat (String "," pad) (x :: codes))
  = x :: ((fun code => pad +:+ code) <$> codes).
Proof.
  intros Hpad Hall. destruct codes as [| y codes].
  - cbn [String.concat]. rewrite split_on_whole
      by (apply Hall, elem_of_cons; now left).
    cbn. now rewrite string_of_list_ascii_of_string.
  - change (String.concat (String "," pad) (x :: y :: codes))
      with (x +:+ String "," (pad +:+ String.concat (String "," pad)
                                          (y :: codes))).
    rewrite split_on_first by (apply Hall, elem_of_cons; now left).
    cbn [rev app]. rewrite string_of_list_ascii_of_string. f_equal.
    apply split_on_padded; [exact Hpad |].
    intros code Hc. apply Hall, elem_of_cons. now right.
Qed.

Lemma lstrip_spaces (sp l : list ascii) :
  Forall (fun c => is_space c = true) sp -> lstrip (sp ++ l) = lstrip l.
Proof.
  induction 1 as [| c sp Hc Hsp IH]; [reflexivity |]. cbn [app lstrip].
  now rewrite Hc.
Qed.

Lemma list_ascii_of_string_app (a b : string) :
  list_ascii_of_string (a +:+ b)
  = (list_ascii_of_string a ++ list_ascii_of_string b)%list.
Proof.
  induction a as [| x a IH]; [reflexivity |].
  change (String x a +:+ b) with (String x (a +:+ b)).
  cbn [list_ascii_of_string app]. now rewrite IH.
Qed.

Lemma strip_padded (pad code : string) :
  Forall (fun c => is_space c = true) (list_ascii_of_string pad) ->
  strip (pad +:+ code) = strip code.
Proof.
  intros Hpad. unfold strip.
  now rewrite list_ascii_of_string_app, lstrip_spaces.
Qed.

(** Codes that hold no comma and no surrounding blank, joined by a
    comma or by a comma and a space, are read back by [cpt_codes_list] as
    they were (the list of the single empty code apart, whose text is
    empty). *)
Theorem cpt_codes_list_of_joined (pad : string) (codes : list string)
    (denial : option string) :
  pad = "" \/ pad = " " ->
  codes <> [] -> codes <> [""] ->
  (forall code, code ∈ codes -> mem_char "," code = false /\ strip code = code) ->
  cpt_codes_list {| denial_reason := denial;
                    cpt_codes := String.concat (String "," pad) codes |}
  = codes.
Proof.
  intros Hpad Hne Hne' Hall.
  assert (Hcomma : mem_char "," pad = false)
    by (destruct Hpad as [-> | ->]; reflexivity).
  assert (Hspaces : Forall (fun c => is_space c = true) (list_ascii_of_string pad)).
  { destruct Hpad as [-> | ->]; [constructor |]. repeat constructor. }
  destruct codes as [| x codes]; [contradiction |].
  unfold cpt_codes_list. cbn [cpt_codes].
  assert (Hjoined : String.concat (String "," pad) (x :: codes) <> "").
  { destruct codes as [| y codes].
    - cbn. intros ->. contradiction.
    - change (String.concat (String "," pad) (x :: y :: codes))
        with (x +:+ String "," (pad +:+ String.concat (String "," pad)
                                            (y :: codes))).
      destruct x; discriminate. }
  apply String.eqb_neq in Hjoined. rewrite Hjoined.
  rewrite split_on_concat; [| exact Hcomma | intros code Hc; now apply Hall].
  rewrite fmap_cons. f_equal; [apply Hall, elem_of_cons; now left |].
  rewrite <- list_fmap_compose.
  rewrite <- (list_fmap_id codes) at 2. apply list_fmap_ext.
  intros i code Hi. unfold compose. rewrite strip_padded by exact Hspaces.
  apply Hall. apply elem_of_cons. right.
  apply list_elem_of_lookup. now exists i.
Qed.


(** ** Pagination *)

Lemma ceil_div_spec (a b : Z) :
  0 < b -> (- (- a / b) - 1) * b < a /\ a <= - (- a / b) * b.
Proof.
  intros Hb. pose proof (Z.div_mod (- a) b ltac:(lia)) as Hdm.
  pose proof (Z.mod_pos_bound (- a) b Hb) as Hmod. nia.
Qed.

Section Pages.
Context {A : Type}.
Variable int_of_str : string -> option Z.

Lemma page_valid (queryset : list A) (per_page n last : Z) :
  0 < per_page ->
  PaginationMixin.num_pages queryset per_page = inr last ->
  1 <= n <= last ->
  exists p,
    PaginationMixin.page queryset per_page (Some n) = inr p
    /\ PaginationMixin.number p = n
    /\ PaginationMixin.object_list p
       = take (Z.to_nat per_page) (drop (Z.to_nat ((n - 1) * per_page)) queryset)
    /\ (queryset <> [] -> PaginationMixin.object_list p <> []).
Proof.
  intros Hpp Hlast Hn. unfold PaginationMixin.page. rewrite Hlast.
  destruct (Z.ltb_spec n 1); [lia |]. destruct (Z.ltb_spec last n); [lia |].
  eexists. split; [reflexivity |]. cbn [PaginationMixin.number
    PaginationMixin.object_list]. split; [reflexivity |].
  unfold PaginationMixin.num_pages in Hlast.
  destruct (Z.eqb_spec per_page 0); [lia |]. injection Hlast as Hlast.
  pose proof (ceil_div_spec (Z.max 1 (Z.of_nat (length queryset))) per_page Hpp)
    as (Hlo & Hhi).
  rewrite Hlast in Hlo, Hhi.
  set (count := Z.of_nat (length queryset)) in *.
  set (bottom := (n - 1) * per_page).
  assert (Hb0 : 0 <= bottom) by (unfold bottom; nia).
  split.
  - destruct (Z.leb_spec count (bottom + per_page)) as [Hle | Hgt].
    + rewrite !take_ge; [reflexivity | |]; rewrite length_drop; unfold count in *;
        lia.
    + f_equal. lia.
  - intros Hne.
    assert (Hcount : 1 <= count)
      by (unfold count; destruct queryset; [contradiction | simpl; lia]).
    assert (Hlt : bottom < count) by (unfold bottom; nia).
    intros Hnil. apply (f_equal length) in Hnil.
    rewrite length_take, length_drop in Hnil. cbn [length] in Hnil.
    destruct (Z.leb_spec count (bottom + per_page)); unfold count in *; lia.
Qed.

(** With a page size above zero [paginate_queryset] always returns a
    page, whatever the [page] parameter holds: the page asked for when its
    number is between 1 and the number of pages, the first page when the
    parameter is absent or not an integer, the last page otherwise (numbers
    below 1 included).  The page holds the slice of the queryset that starts
    at [(number - 1) * page_size], at most [page_size] objects, and is not
    empty unless the queryset is. *)
Theorem paginate_queryset_never_fails (paginate_by : Z)
    (GET_page : option string) (queryset : list A) (page_size : option Z) :
  0 < default paginate_by page_size ->
  let size := default paginate_by page_size in
  exists p last,
    PaginationMixin.paginate_queryset int_of_str paginate_by GET_page queryset
      page_size = inr p
    /\ PaginationMixin.num_pages queryset size = inr last
    /\ 1 <= PaginationMixin.number p <= last
    /\ PaginationMixin.number p
       = match GET_page ≫= int_of_str with
         | None => 1
         | Some n => if (1 <=? n) && (n <=? last) then n else last
         end
    /\ PaginationMixin.object_list p
       = take (Z.to_nat size)
           (drop (Z.to_nat ((PaginationMixin.number p - 1) * size)) queryset)
    /\ (queryset <> [] -> PaginationMixin.object_list p <> []).
Proof.
  intros Hsize. cbv zeta. set (size := default paginate_by page_size) in *.
  unfold PaginationMixin.paginate_queryset. fold size.
  assert (Hlast : exists last,
             PaginationMixin.num_pages queryset size = inr last /\ 1 <= last).
  { unfold PaginationMixin.num_pages.
    destruct (Z.eqb_spec size 0); [lia |]. eexists. split; [reflexivity |].
    pose proof (ceil_div_spec (Z.max 1 (Z.of_nat (length queryset))) size Hsize).
    nia. }
  destruct Hlast as (last & Hlast & Hone).
  assert (Hfirst := page_valid queryset size 1 last Hsize Hlast ltac:(lia)).
  assert (Hend := page_valid queryset size last last Hsize Hlast ltac:(lia)).
  destruct (GET_page ≫= int_of_str) as [n |] eqn:Hn.
  - destruct (Z.leb_spec 1 n) as [H1 | H1];
      [destruct (Z.leb_spec n last) as [H2 | H2] |]; cbn [andb].
    + destruct (page_valid queryset size n last Hsize Hlast ltac:(lia))
        as (p & -> & En & Eo & Hne).
      exists p, last. rewrite En. repeat split; auto; try lia;
        destruct (Z.leb_spec 1 n); destruct (Z.leb_spec n last); cbn [andb]; lia.
    + unfold PaginationMixin.page at 1. rewrite Hlast.
      destruct (Z.ltb_spec n 1); [lia |]. destruct (Z.ltb_spec last n); [| lia].
      destruct Hend as (p & -> & En & Eo & Hne).
      exists p, last. rewrite En. repeat split; auto; try lia;
        destruct (Z.leb_spec 1 n); destruct (Z.leb_spec n last); cbn [andb]; lia.
    + unfold PaginationMixin.page at 1.
      destruct (Z.ltb_spec n 1); [| lia]. rewrite Hlast.
      destruct Hend as (p & -> & En & Eo & Hne).
      exists p, last. rewrite En. repeat split; auto; try lia;
        destruct (Z.leb_spec 1 n); destruct (Z.leb_spec n last); cbn [andb]; lia.
  - unfold PaginationMixin.page at 1. cbv beta iota.
    destruct Hfirst as (p & Hp & En & Eo & Hne).
    rewrite Hp. exists p, last. rewrite En. repeat split; auto; lia.
Qed.

End Pages.

(** * Scenarios

    Runs of the loaders on small files, with the concrete instance of the
    library functions. *)

(** C1 (the code departs from it).  A row with paid 80.00 over billed 50.00
    raises a [ValidationError] that no row handler names: the command's
    loader stops at it and never reads the valid row after it, the command
    turns that into [CommandError] with nothing imported, and the upload's
    loader stops in the same way, while the file without that row loads
    its one claim.  And a row with paid 5.00 over billed 0.00 is not
    refused at all: it is saved. *)
Theorem C1_paid_over_billed_row_ends_the_load :
  let fs : Command.FileSystem :=
    {[ "claims.csv" := Some paid_over_billed_file;
       "details.csv" := Some (file_of [details_header]) ]} in
  @Command._load_claims plain_lib fs "claims.csv" empty_store
  = (empty_store, Raise ValidationError)
  /\ @Command.handle plain_lib fs
       (Command.mkOptions "claims.csv" "details.csv" "append") empty_store
     = (empty_store, Raise CommandError)
  /\ @DataUploadView._process_claims_file plain_lib
       (DataUploadView.mkFile "claims.csv" (Some paid_over_billed_file))
       "append" empty_store
     = (empty_store, Raise ValidationError)
  /\ @Command._load_claims plain_lib
       {[ "claims.csv" := Some valid_row_file ]} "claims.csv" empty_store
     = ({| claims := {[ "C2" := john ]}; details := ∅; flags := [];
           uploads := [] |}, Return 1%nat)
  /\ @Command._load_claims plain_lib
       {[ "claims.csv" := Some paid_over_zero_file ]} "claims.csv" empty_store
     = ({| claims := {[ "C3" := mkClaim "Ann Poe" 0 500 "Paid" "Acme"
                                  (mkdate 2024 1 3) ]};
           details := ∅; flags := []; uploads := [] |},
        Return 1%nat).
Proof. repeat split; vm_compute; reflexivity. Qed.



(** Counterexample to C3 as stated: the header line of the file holds no
    pipe, yet the command reads it with the pipe delimiter and finds no
    claim in it; read with the comma, as the upload reads it, the file
    holds the claim C1. *)
Lemma C3_counterexample_command_reads_with_pipe :
  splitlines comma_file = [comma_header; comma_row]
  /\ mem_char "|" comma_header = false
  /\ @Command._load_claims plain_lib {[ "claims.csv" := Some comma_file ]}
       "claims.csv" empty_store
     = (empty_store, Return 0%nat)
  /\ @Command._load_claims_loop plain_lib
       (plain_DictReader comma_file ","%char) 0%nat empty_store
     = (jane_store, Return 1%nat)
  /\ @DataUploadView._process_claims_file plain_lib
       (DataUploadView.mkFile "claims.csv" (Some comma_file)) "append" empty_store
     = (jane_store, Return 1%nat).
Proof. repeat split; vm_compute; reflexivity. Qed.

Lemma C3_witness_comma_file :
  splitlines comma_file = [comma_header; comma_row]
  /\ @DataUploadView._process_claims_file plain_lib
       (DataUploadView.mkFile "claims.csv" (Some comma_file)) "append" empty_store
     = @DataUploadView._process_claims_loop plain_lib
         (plain_DictReader comma_file ","%char) 0%nat empty_store.
Proof.
  assert (Hlines : splitlines comma_file = [comma_header; comma_row])
    by (vm_compute; reflexivity).
  split; [exact Hlines |].
  destruct (@C3_delimiter_by_path plain_lib comma_file comma_header [comma_row]
              Hlines) as (Hweb & _).
  rewrite (Hweb "claims.csv" "append" empty_store). reflexivity.
Defined.





Lemma C6_witness_orphan_between_rows :
  let pre := [detail_row "C1" "missing auth" "99213"] in
  let row := detail_row "C9" "no such claim" "99214" in
  let post := [detail_row "C1" "late filing" "99215"] in
  orphan row jane_store
  /\ @Command._load_claim_details_loop (pre ++ row :: post) 0%nat jane_store
     = @Command._load_claim_details_loop (pre ++ post) 0%nat jane_store
  /\ @DataUploadView._process_details_loop (pre ++ row :: post) 0%nat jane_store
     = @DataUploadView._process_details_loop (pre ++ post) 0%nat jane_store.
Proof.
  intros pre row post.
  assert (Horphan : orphan row jane_store).
  { exists (Some "C9"). split; [vm_compute; reflexivity |].
    intros k [= <-]. vm_compute. reflexivity. }
  split; [exact Horphan |].
  exact (C6_orphan_detail_row_is_skipped pre post row 0%nat jane_store Horphan).
Defined.

Lemma C9_witness_flag_again :
  let history :=
    [Upload (DataUploadView.mkRequest
               (Some (DataUploadView.mkFile "claims.csv" (Some jane_file)))
               (Some (DataUploadView.mkFile "details.csv"
                        (Some (file_of [details_header]))))
               (Some "append") 7%nat);
     AddFlag (ClaimViews.mkRequest "POST" (Some "urgent") (Some "first look") 7)
       "C1";
     RemoveFlag (ClaimViews.mkRequest "POST" None None 7) 0] in
  let request :=
    ClaimViews.mkRequest "POST" (Some "urgent") (Some "second look") 7 in
  let s := @serve_all plain_lib history empty_store in
  flags s = [mkFlag "C1" 7 "urgent" "first look" false]
  /\ flags (fst (ClaimViews.add_flag_htmx request "C1" s))
     = [mkFlag "C1" 7 "urgent" "second look" true].
Proof.
  intros history request s.
  assert (Hflags : flags s = [mkFlag "C1" 7 "urgent" "first look" false])
    by (vm_compute; reflexivity).
  split; [exact Hflags |].
  destruct (@C9_one_flag_per_triple plain_lib history request "C1")
    as (_ & _ & Hagain).
  fold s in Hagain.
  rewrite (Hagain eq_refl (ltac:(vm_compute; eauto)) 0%nat
             (mkFlag "C1" 7 "urgent" "first look" false)
             (ltac:(vm_compute; reflexivity)) eq_refl).
  vm_compute. reflexivity.
Defined.

Lemma C4_witness_append_twice :
  let options := Command.mkOptions "claims.csv" "details.csv" "append" in
  let fs : Command.FileSystem :=
    {[ "claims.csv" := Some jane_file;
       "details.csv" := Some (file_of [details_header]) ]} in
  Command.mode options <> "overwrite"
  /\ claims (fst (@Command.handle plain_lib fs options
                    (fst (@Command.handle plain_lib fs options empty_store))))
     = claims (fst (@Command.handle plain_lib fs options empty_store)).
Proof.
  intros options fs.
  assert (Hmode : Command.mode options <> "overwrite") by discriminate.
  split; [exact Hmode |].
  destruct (@C4_append_import_idempotent plain_lib fs "claims.csv"
              (DataUploadView.mkFile "claims.csv" (Some jane_file)) empty_store)
    as (_ & _ & Hhandle & _).
  exact (Hhandle options Hmode).
Defined.

(** After the upload of the claim C1 its amounts are as the invariant says. *)
Lemma stored_amounts_witness_upload :
  let history :=
    [Upload (DataUploadView.mkRequest
               (Some (DataUploadView.mkFile "claims.csv" (Some jane_file)))
               (Some (DataUploadView.mkFile "details.csv"
                        (Some (file_of [details_header]))))
               (Some "append") 7%nat)] in
  claims (@serve_all plain_lib history empty_store) !! "C1" = Some jane
  /\ 0 <= billed_amount jane /\ 0 <= paid_amount jane.
Proof.
  intros history.
  assert (Hk : claims (@serve_all plain_lib history empty_store) !! "C1"
               = Some jane) by (vm_compute; reflexivity).
  split; [exact Hk |].
  exact (@stored_amounts_valid plain_lib history "C1" jane Hk).
Defined.

(** The overwrite scenario of the specification: one claim row and one
    detail row for it are imported by the command into an empty database;
    one claim and one detail are created and one summary is written.  Run a
    second time, the import leaves one claim again, not two. *)
Lemma scenario_overwrite_import :
  let fs : Command.FileSystem :=
    {[ "claims.csv" := Some jane_file;
       "details.csv" := Some details_file_jane ]} in
  let options := Command.mkOptions "claims.csv" "details.csv" "overwrite" in
  let summary := mkUpload "overwrite" "claims.csv, details.csv" 1 None
                   "Claims: 1, Details: 1" in
  let after uploads :=
    {| claims := {[ "C1" := jane ]};
       details := {[ "C1" := mkDetail (Some "missing auth") "99213,99214" ]};
       flags := []; uploads := uploads |} in
  @Command.handle plain_lib fs options empty_store = (after [summary], Return tt)
  /\ @Command.handle plain_lib fs options (after [summary])
     = (after [summary; summary], Return tt)
  /\ underpayment_amount jane = 4000
  /\ get_underpayment_severity jane = "medium".
Proof. repeat split; vm_compute; reflexivity. Qed.

(** An overwrite import of a claims file without rows, through the command
    and through the upload view, from a database that holds a claim. *)
Lemma scenario_overwrite_empty_source :
  let fs : Command.FileSystem :=
    {[ "claims.csv" := Some (file_of [claims_header]);
       "details.csv" := Some details_file_jane ]} in
  let options := Command.mkOptions "claims.csv" "details.csv" "overwrite" in
  let request :=
    DataUploadView.mkRequest
      (Some (DataUploadView.mkFile "claims.csv" (Some (file_of [claims_header]))))
      (Some (DataUploadView.mkFile "details.csv" (Some details_file_jane)))
      (Some "overwrite") 7%nat in
  claims (fst (@Command.handle plain_lib fs options jane_store)) = ∅
  /\ snd (@Command.handle plain_lib fs options jane_store) = Return tt
  /\ claims (fst (@DataUploadView.post plain_lib request jane_store)) = ∅
  /\ snd (@DataUploadView.post plain_lib request jane_store)
     = Return (DataUploadView.success 0 0).
Proof. repeat split; vm_compute; reflexivity. Qed.

(** ** Runs for the further properties *)


(** The claim billed 0.00 and paid 5.00 that the loaders accept. *)
Lemma zero_billed_witness :
  billed_amount ann = 0
  /\ (payment_percentage ann == 0)%Q
  /\ get_underpayment_severity ann = "high"
  /\ is_underpaid ann = true
  /\ is_fully_paid ann = true.
Proof.
  assert (Hb : billed_amount ann = 0) by reflexivity.
  destruct (zero_billed_is_high ann Hb) as (Hp & Hs & Hu & Hf).
  split; [exact Hb |]. split; [exact Hp |]. split; [exact Hs |].
  split; [exact Hu |]. apply Hf. simpl. lia.
Defined.


Lemma stored_fields_witness :
  claims (@serve_all plain_lib [Upload jane_upload] empty_store) !! "C1"
  = Some jane
  /\ status jane ∈ STATUS_CHOICES
  /\ 0 <= billed_amount jane < 10 ^ 12.
Proof.
  assert (Hk : claims (@serve_all plain_lib [Upload jane_upload] empty_store)
               !! "C1" = Some jane) by (vm_compute; reflexivity).
  split; [exact Hk |].
  destruct (@stored_fields_valid plain_lib [Upload jane_upload] "C1" jane Hk)
    as (_ & _ & Hb & _ & Hs & _).
  split; [exact Hs | exact Hb].
Defined.


(** The source that carries C1 twice: the second row is the one stored. *)
Lemma last_row_witness :
  let s' := {| claims := {[ "C1" := jane_paid_80 ]}; details := ∅; flags := [];
               uploads := [] |} in
  (Some (Some "C1") ∉ row_id <$> ([] : list CsvRow))
  /\ @Command_claim_of_row plain_lib jane_row_paid_80 = Return ("C1", jane_paid_80)
  /\ @Command._load_claims_loop plain_lib ([jane_row] ++ jane_row_paid_80 :: [])
       0%nat empty_store = (s', Return 1%nat)
  /\ claims s' !! "C1" = Some jane_paid_80.
Proof.
  intros s'.
  assert (Hpost : Some (Some "C1") ∉ row_id <$> ([] : list CsvRow))
    by apply not_elem_of_nil.
  assert (Hrow : @Command_claim_of_row plain_lib jane_row_paid_80
                 = Return ("C1", jane_paid_80)) by (vm_compute; reflexivity).
  assert (Hrun : @Command._load_claims_loop plain_lib
                   ([jane_row] ++ jane_row_paid_80 :: []) 0%nat empty_store
                 = (s', Return 1%nat)) by (vm_compute; reflexivity).
  split; [exact Hpost |]. split; [exact Hrow |]. split; [exact Hrun |].
  exact (proj1 (@last_row_of_an_id_is_stored plain_lib [jane_row] []
                  jane_row_paid_80 0%nat 1%nat empty_store s' "C1" jane_paid_80
                  Hpost) Hrow Hrun).
Defined.

(** The comma-delimited file read with the pipe: its one row has a single
    column, named by the whole header line. *)
Lemma missing_column_witness :
  let rows := plain_DictReader comma_file "|"%char in
  (forall row, row ∈ rows -> exists key, key ∈ claim_columns /\ row !! key = None)
  /\ (forall row key, row ∈ rows -> row !! key <> Some None)
  /\ @Command._load_claims_loop plain_lib rows 0%nat jane_store
     = (jane_store, Return 0%nat)
  /\ @DataUploadView._process_claims_loop plain_lib rows 0%nat jane_store
     = (jane_store, Return 0%nat).
Proof.
  intros rows.
  assert (Hrows : rows = [{[ comma_header := Some comma_row ]}])
    by (vm_compute; reflexivity).
  assert (Hmiss : forall row, row ∈ rows ->
                    exists key, key ∈ claim_columns /\ row !! key = None).
  { intros row Hin. rewrite Hrows in Hin. apply list_elem_of_singleton in Hin as ->.
    exists "id". split; [| vm_compute; reflexivity].
    unfold claim_columns. do 3 (apply elem_of_cons; right).
    apply elem_of_cons. now left. }
  assert (Hcells : forall row key, row ∈ rows -> row !! key <> Some None).
  { intros row key Hin. rewrite Hrows in Hin.
    apply list_elem_of_singleton in Hin as ->. intros Hk.
    apply lookup_singleton_Some in Hk as [_ Hk]. discriminate. }
  split; [exact Hmiss |]. split; [exact Hcells |].
  destruct (@file_without_a_column_imports_nothing plain_lib rows 0%nat jane_store
              Hmiss) as (_ & _ & Hdone).
  exact (Hdone Hcells).
Defined.

(** A claims file whose line lacks its last field. *)
Lemma short_claims_line_witness :
  let fs : Command.FileSystem :=
    {[ "claims.csv" := Some short_line_file;
       "details.csv" := Some (file_of [details_header]) ]} in
  let options := Command.mkOptions "claims.csv" "details.csv" "overwrite" in
  jane_row_short !! "discharge_date" = Some None
  /\ plain_DictReader short_line_file "|"%char = [jane_row_short]
  /\ @Command.handle plain_lib fs options jane_store
     = (jane_store, Raise CommandError).
Proof.
  intros fs options.
  assert (Hshort : jane_row_short !! "discharge_date" = Some None)
    by (vm_compute; reflexivity).
  assert (Hrows : plain_DictReader short_line_file "|"%char = [jane_row_short])
    by (vm_compute; reflexivity).
  split; [exact Hshort |]. split; [exact Hrows |].
  destruct (@short_claims_line_fails_the_import plain_lib jane_row_short
              short_line_file jane_store Hshort) as (Hcommand & _).
  apply (Hcommand fs options); [vm_compute; reflexivity |].
  change (@csv_DictReader plain_lib) with plain_DictReader.
  rewrite Hrows. apply list_elem_of_singleton. reflexivity.
Defined.

(** A details line for C1 that lacks its last field. *)
Lemma short_details_line_witness :
  detail_row_short ∈ [detail_row_short]
  /\ detail_row_short !! "claim_id" = Some (Some "C1")
  /\ is_Some (claims jane_store !! "C1")
  /\ detail_row_short !! "cpt_codes" = Some None
  /\ snd (Command._load_claim_details_loop [detail_row_short] 0%nat jane_store)
     = Raise IntegrityError
  /\ snd (DataUploadView._process_details_loop [detail_row_short] 0%nat jane_store)
     = Raise IntegrityError.
Proof.
  assert (Hin : detail_row_short ∈ [detail_row_short])
    by (apply list_elem_of_singleton; reflexivity).
  assert (Hid : detail_row_short !! "claim_id" = Some (Some "C1"))
    by (vm_compute; reflexivity).
  assert (Hk : is_Some (claims jane_store !! "C1")) by (vm_compute; eauto).
  assert (Hcodes : detail_row_short !! "cpt_codes" = Some None)
    by (vm_compute; reflexivity).
  split; [exact Hin |]. split; [exact Hid |]. split; [exact Hk |].
  split; [exact Hcodes |].
  exact (short_details_line_ends_the_load [detail_row_short] detail_row_short
           "C1" 0%nat jane_store Hin Hid Hk Hcodes).
Defined.

(** The row of Jane Doe with the status [Pending]. *)
Lemma refused_row_witness :
  @field_refused plain_lib
    (instance_of (Some "C1")
       (mkDefaults (Some "Jane Doe") (PDec (mkDec 10000 (-2)))
          (PDec (mkDec 6000 (-2))) (Some "Pending") (Some "Acme")
          (mkdate 2024 1 1)))
  /\ @Command._load_claims_loop plain_lib [jane_row_pending; john_row] 0%nat
       empty_store
     = (empty_store, Raise ValidationError)
  /\ exists e,
       @DataUploadView._process_claims_loop plain_lib [jane_row_pending; john_row]
         0%nat empty_store = (empty_store, Raise e)
       /\ (e = ValidationError \/ e = TypeError).
Proof.
  assert (Href : @field_refused plain_lib
                   (instance_of (Some "C1")
                      (mkDefaults (Some "Jane Doe") (PDec (mkDec 10000 (-2)))
                         (PDec (mkDec 6000 (-2))) (Some "Pending") (Some "Acme")
                         (mkdate 2024 1 1)))).
  { unfold field_refused. do 4 right. left. vm_compute. reflexivity. }
  split; [exact Href |].
  exact (@row_refused_by_validation_ends_the_load plain_lib jane_row_pending
           [john_row] 0%nat empty_store (Some "C1") (Some "Jane Doe")
           (Some "Pending") (Some "Acme") "100.00" "60.00" (mkDec 10000 (-2))
           (mkDec 6000 (-2)) (mkdate 2024 1 1)
           ltac:(vm_compute; reflexivity) ltac:(vm_compute; reflexivity)
           ltac:(vm_compute; reflexivity) ltac:(vm_compute; reflexivity)
           ltac:(vm_compute; reflexivity) ltac:(vm_compute; reflexivity)
           ltac:(vm_compute; reflexivity) ltac:(vm_compute; reflexivity)
           ltac:(vm_compute; reflexivity) Href).
Defined.

(** The row of Jane Doe with the billed amount [abc], before the row of
    John Roe: the command goes on to John Roe, the upload stops. *)
Lemma unparsable_amount_witness :
  (@Decimal_of_str plain_lib "abc" = None
   \/ @Decimal_of_str plain_lib "60.00" = None)
  /\ @Command._load_claims_loop plain_lib [jane_row_no_amount; john_row] 0%nat
       empty_store
     = @Command._load_claims_loop plain_lib [john_row] 0%nat empty_store
  /\ exists e,
       @DataUploadView._process_claims_loop plain_lib
         [jane_row_no_amount; john_row] 0%nat empty_store = (empty_store, Raise e)
       /\ (e = ValidationError \/ e = TypeError).
Proof.
  assert (Hbad : @Decimal_of_str plain_lib "abc" = None
                 \/ @Decimal_of_str plain_lib "60.00" = None)
    by (left; vm_compute; reflexivity).
  split; [exact Hbad |].
  exact (@unparsable_amount_skipped_or_fatal plain_lib jane_row_no_amount
           [john_row] 0%nat empty_store (Some "C1") (Some "Jane Doe")
           (Some "Denied") (Some "Acme") "abc" "60.00" (mkdate 2024 1 1)
           ltac:(vm_compute; reflexivity) ltac:(vm_compute; reflexivity)
           ltac:(vm_compute; reflexivity) ltac:(vm_compute; reflexivity)
           ltac:(vm_compute; reflexivity) ltac:(vm_compute; reflexivity)
           ltac:(vm_compute; reflexivity) Hbad).
Defined.

(** An upload whose mode is the text [initial], into a database that holds
    C1: nothing is purged and the summary carries [initial]. *)
Lemma upload_mode_witness :
  let files := (Some (DataUploadView.mkFile "claims.csv" (Some valid_row_file)),
                Some (DataUploadView.mkFile "details.csv"
                        (Some (file_of [details_header])))) in
  let request := DataUploadView.mkRequest (fst files) (snd files)
                   (Some "initial") 7%nat in
  let append := DataUploadView.mkRequest (fst files) (snd files)
                  (Some "append") 7%nat in
  "initial" <> "overwrite"
  /\ claims (fst (@DataUploadView.post plain_lib request jane_store))
     = claims (fst (@DataUploadView.post plain_lib append jane_store))
  /\ claims (fst (@DataUploadView.post plain_lib request jane_store))
     = <["C2" := john]> {[ "C1" := jane ]}
  /\ upload_type <$> uploads (fst (@DataUploadView.post plain_lib request
                                     jane_store)) = ["initial"].
Proof.
  intros files request append.
  assert (Hm : "initial" <> "overwrite") by discriminate.
  split; [exact Hm |].
  split; [| split; vm_compute; reflexivity].
  exact (proj1 (@upload_mode_other_than_overwrite_appends plain_lib (fst files)
                  (snd files) 7%nat "initial" jane_store Hm)).
Defined.

(** User 8 flags C1 as urgent and then tries to remove the flag of user 7:
    that flag stays as it was. *)
Lemma other_users_flag_witness :
  let request := ClaimViews.mkRequest "POST" (Some "urgent") (Some "mine") 8 in
  let f := mkFlag "C1" 7 "urgent" "first look" true in
  flags flagged_store !! 0%nat = Some f
  /\ flag_user f <> ClaimViews.user request
  /\ flags (fst (ClaimViews.add_flag_htmx request "C1" flagged_store))
     = [f; mkFlag "C1" 8 "urgent" "mine" true]
  /\ flags (fst (ClaimViews.add_flag_htmx request "C1" flagged_store)) !! 0%nat
     = Some f
  /\ flags (fst (ClaimViews.remove_flag_htmx request 0 flagged_store)) !! 0%nat
     = Some f.
Proof.
  intros request f.
  assert (Hpk : flags flagged_store !! 0%nat = Some f) by reflexivity.
  assert (Hu : flag_user f <> ClaimViews.user request) by discriminate.
  split; [exact Hpk |]. split; [exact Hu |].
  split; [vm_compute; reflexivity |].
  destruct (flag_views_keep_other_users_flags request "C1" 0 flagged_store 0 f
              Hpk) as (_ & _ & _ & Hother).
  exact (Hother Hu).
Defined.

(** Two codes joined by a comma and a space. *)
Lemma cpt_codes_witness :
  let codes := ["99213"; "99214"] in
  String.concat ", " codes = "99213, 99214"
  /\ (forall code, code ∈ codes -> mem_char "," code = false /\ strip code = code)
  /\ cpt_codes_list (mkDetail None "99213, 99214") = codes.
Proof.
  intros codes.
  assert (Hall : forall code, code ∈ codes ->
                   mem_char "," code = false /\ strip code = code).
  { intros code Hin. unfold codes in Hin.
    apply elem_of_cons in Hin as [-> | Hin]; [split; reflexivity |].
    apply list_elem_of_singleton in Hin as ->. split; reflexivity. }
  split; [reflexivity |]. split; [exact Hall |].
  exact (cpt_codes_list_of_joined " " codes None (or_intror eq_refl)
           ltac:(discriminate) ltac:(discriminate) Hall).
Defined.

(** Three objects in pages of two: the parameter [9] gives the last page,
    which holds the third object. *)
Lemma paginate_witness :
  0 < default 2 (None : option Z)
  /\ exists p,
       PaginationMixin.paginate_queryset plain_int 2 (Some "9") ["a"; "b"; "c"]
         None = inr p
       /\ PaginationMixin.number p = 2
       /\ PaginationMixin.object_list p = ["c"].
Proof.
  assert (Hsize : 0 < default 2 (None : option Z)) by (simpl; lia).
  split; [exact Hsize |].
  destruct (paginate_queryset_never_fails plain_int 2 (Some "9") ["a"; "b"; "c"]
              None Hsize) as (p & last & Hp & Hlast & _ & Hnumber & Hobjects & _).
  exists p. split; [exact Hp |].
  assert (Elast : last = 2) by (vm_compute in Hlast; congruence).
  assert (En : PaginationMixin.number p = 2)
    by (rewrite Hnumber, Elast; vm_compute; reflexivity).
  split; [exact En |]. rewrite Hobjects, En. reflexivity.
Defined.

(** The dashboard of a database with the claims C1 (denied) and C2 (paid)
    and one active flag on C1. *)
Lemma scenario_dashboard :
  DashboardView.status_breakdown flagged_store
  = [DashboardView.mkStatusTotals "Denied" 1 10000 6000;
     DashboardView.mkStatusTotals "Paid" 1 10000 6000]
  /\ DashboardView.flagged_claims flagged_store = 1%nat
  /\ DashboardView.total_claims (DashboardView.get_context_data flagged_store)
     = 2%nat
  /\ DashboardView.flagged_claims
       (fst (ClaimViews.remove_flag_htmx (ClaimViews.mkRequest "POST" None None 7)
               0 flagged_store)) = 0%nat.
Proof. repeat split; vm_compute; reflexivity. Qed.

(** An overwrite import of the claim C1 into a database that holds C1 and
    C2 and a flag on C1: C1 is back, its flag is gone. *)
Lemma scenario_overwrite_drops_flags :
  let fs : Command.FileSystem :=
    {[ "claims.csv" := Some jane_file;
       "details.csv" := Some (file_of [details_header]) ]} in
  let options := Command.mkOptions "claims.csv" "details.csv" "overwrite" in
  let s' := fst (@Command.handle plain_lib fs options flagged_store) in
  claims s' = {[ "C1" := jane ]} /\ flags s' = []
  /\ snd (@Command.handle plain_lib fs options flagged_store) = Return tt.
Proof. repeat split; vm_compute; reflexivity. Qed.

(** An append import of the claim C2 into a database that holds C1. *)
Lemma command_summary_witness :
  let fs : Command.FileSystem :=
    {[ "claims.csv" := Some valid_row_file;
       "details.csv" := Some (file_of [details_header]) ]} in
  let options := Command.mkOptions "claims.csv" "details.csv" "append" in
  let summary := mkUpload "append" "claims.csv, details.csv" 1 None
                   "Claims: 1, Details: 0" in
  let s' := {| claims := <["C2" := john]> {[ "C1" := jane ]}; details := ∅;
               flags := []; uploads := [summary] |} in
  @Command.handle plain_lib fs options jane_store = (s', Return tt)
  /\ exists u,
       uploads s' = u :: uploads jane_store
       /\ upload_user u = None
       /\ upload_type u = "append"
       /\ size (claims s') = (size (claims jane_store) + records_processed u)%nat.
Proof.
  intros fs options summary s'.
  assert (Hrun : @Command.handle plain_lib fs options jane_store = (s', Return tt))
    by (vm_compute; reflexivity).
  split; [exact Hrun |].
  exact (@command_summary_counts_new_claims plain_lib fs options jane_store s'
           Hrun).
Defined.
